(** * QuickTech: the in-memory storage layer and two account widgets

    A shallow embedding of

    - the [MemStorage] class of the server (two revisions of the same
      module: the original one, which seeds the service catalog in its
      constructor, and the revised one, whose [getServices] seeds on every
      call),
    - [ProfileCard] (client/src/components/profile/profile-card.tsx),
    - [ReferralCard] (client/src/components/referral/referral-card.tsx),

    followed by the properties proved about them.

    Conventions.  A JavaScript string is its sequence of UTF-16 code units.
    Ids and counters are JavaScript numbers; they are integers here, which
    is what they are as long as a counter stays below 2^53.  A JavaScript
    [Map] keeps its entries in insertion order, and [set] on a key that is
    already present replaces the value in place.  Every method of the
    [IStorage] interface is [async] but has no [await] in its body, so a
    call runs to completion before anything else touches the store: a
    method is a function from the store to a result and a new store.
    [initializeTestUser], which does wait, is resumed step by step.
    [new Date()] is an input of the call. *)

From Stdlib Require Import List ZArith NArith Lia Bool String Ascii Sorted.
Import ListNotations.

Local Open Scope Z_scope.

(* ================================================================== *)
(** ** JavaScript values *)
(* ================================================================== *)

Module Js.

(** UTF-16 code units; a well-formed string has all of them below 2^16. *)
Definition JsString := list N.

Definition code_unit (c : N) : bool := (c <? 65536)%N.

Definition well_formed (s : JsString) : bool := forallb code_unit s.

(** The string denoted by an ASCII literal of the source. *)
Definition lit (s : string) : JsString :=
  map N_of_ascii (list_ascii_of_string s).

Arguments lit : simpl never.

(** [a === b] on strings. *)
Fixpoint str_eqb (a b : JsString) : bool :=
  match a, b with
  | [], [] => true
  | x :: a', y :: b' => (x =? y)%N && str_eqb a' b'
  | _, _ => false
  end.

(** A property that may be [undefined], [null] or hold a value. *)
Inductive Nullish (A : Type) : Type :=
| Undefined
| Null
| Value (a : A).

Arguments Undefined {A}.
Arguments Null {A}.
Arguments Value {A} a.

(** [x === undefined ? null : x] *)
Definition undefined_to_null {A} (x : Nullish A) : Nullish A :=
  match x with
  | Undefined => Null
  | _ => x
  end.

(** [toLowerCase] on strings of ASCII characters: the letters A to Z go to
    a to z.  The lookups of the store are stated for any case mapping; this
    one serves the examples. *)
Definition ascii_toLowerCase (s : JsString) : JsString :=
  map (fun c => if (65 <=? c)%N && (c <=? 90)%N then (c + 32)%N else c) s.

End Js.

Import Js.

(* ================================================================== *)
(** ** Map<number, V> *)
(* ================================================================== *)

Module JsMap.

Section WithValue.
Context {V : Type}.

(** Entries in insertion order. *)
Definition t := list (Z * V).

Definition empty : t := [].

Fixpoint get (k : Z) (m : t) : option V :=
  match m with
  | [] => None
  | (k', v) :: m' => if k =? k' then Some v else get k m'
  end.

(** A present key keeps its position, a new key goes last. *)
Fixpoint set (k : Z) (v : V) (m : t) : t :=
  match m with
  | [] => [(k, v)]
  | (k', v') :: m' =>
      if k =? k' then (k, v) :: m' else (k', v') :: set k v m'
  end.

Definition keys (m : t) : list Z := map fst m.

(** [Array.from(m.values())] *)
Definition values (m : t) : list V := map snd m.

End WithValue.

Arguments t V : clear implicits.

End JsMap.

(* ================================================================== *)
(** ** The records of @shared/schema *)
(* ================================================================== *)

(** Modelled from the spec: the row types [User], [InsertUser], [Service],
    [InsertService], [Order] and [InsertOrder] are declared in
    @shared/schema, which is not part of the reviewed sources.  The fields
    are those of the spec's data model; the optional ones are the ones the
    storage code tests against [undefined], and an insert record has the
    fields its method does not fill in itself. *)
Record InsertUser := mkInsertUser {
  iu_username : JsString;
  iu_password : JsString;
  iu_name : JsString;
  iu_email : JsString;
  iu_phone : Nullish JsString;
  iu_address : Nullish JsString;
  iu_referral_code : Nullish JsString;
  iu_referral_rewards : Nullish Z
}.

Record User := mkUser {
  u_id : Z;
  u_username : JsString;
  u_password : JsString;
  u_name : JsString;
  u_email : JsString;
  u_phone : Nullish JsString;
  u_address : Nullish JsString;
  u_role : JsString;
  u_referral_code : Nullish JsString;
  u_referral_rewards : Nullish Z;
  u_created_at : Z
}.

Record InsertService := mkInsertService {
  is_name : JsString;
  is_description : JsString;
  is_category : JsString;
  is_price : Z;
  is_processing_time : JsString;
  is_requirements : JsString;
  is_icon : JsString;
  is_badge : Nullish JsString;
  is_badge_color : Nullish JsString
}.

Record Service := mkService {
  s_id : Z;
  s_name : JsString;
  s_description : JsString;
  s_category : JsString;
  s_price : Z;
  s_processing_time : JsString;
  s_requirements : JsString;
  s_icon : JsString;
  s_badge : Nullish JsString;
  s_badge_color : Nullish JsString;
  s_created_at : Z
}.

Record InsertOrder := mkInsertOrder {
  io_user_id : Z
}.

Record Order := mkOrder {
  o_id : Z;
  o_user_id : Z;
  o_status : JsString;
  o_payment_status : JsString;
  o_created_at : Z;
  o_updated_at : Z
}.

(* ================================================================== *)
(** ** MemStorage *)
(* ================================================================== *)

Module Storage.

(** The fields of the class; [sessionStore] is an external collaborator
    and no method of the class reads or writes it. *)
Record MemStorage := mkStorage {
  users : JsMap.t User;
  services : JsMap.t Service;
  orders : JsMap.t Order;
  userIdCounter : Z;
  serviceIdCounter : Z;
  orderIdCounter : Z
}.

Definition with_users (st : MemStorage) (m : JsMap.t User) (c : Z) :=
  mkStorage m (services st) (orders st)
            c (serviceIdCounter st) (orderIdCounter st).

Definition with_services (st : MemStorage) (m : JsMap.t Service) (c : Z) :=
  mkStorage (users st) m (orders st)
            (userIdCounter st) c (orderIdCounter st).

Definition with_orders (st : MemStorage) (m : JsMap.t Order) (c : Z) :=
  mkStorage (users st) (services st) m
            (userIdCounter st) (serviceIdCounter st) c.

(** *** User methods *)

Definition getUser (id : Z) (st : MemStorage) : option User :=
  JsMap.get id (users st).

Section CaseFolding.

(** [String.prototype.toLowerCase], a built-in of the language: the
    lookups below are stated for whatever case mapping the engine
    provides. *)
Variable toLowerCase : JsString -> JsString.

Definition getUserByUsername (username : JsString) (st : MemStorage)
  : option User :=
  find (fun user =>
          str_eqb (toLowerCase (u_username user)) (toLowerCase username))
       (JsMap.values (users st)).

Definition getUserByEmail (email : JsString) (st : MemStorage)
  : option User :=
  find (fun user =>
          str_eqb (toLowerCase (u_email user)) (toLowerCase email))
       (JsMap.values (users st)).

End CaseFolding.

(** [{ ...insertUser, phone, address, id, role: "user", created_at: now }] *)
Definition createUser (now : Z) (insertUser : InsertUser) (st : MemStorage)
  : User * MemStorage :=
  let id := userIdCounter st in
  let phone := undefined_to_null (iu_phone insertUser) in
  let address := undefined_to_null (iu_address insertUser) in
  let user :=
    mkUser id
           (iu_username insertUser) (iu_password insertUser)
           (iu_name insertUser) (iu_email insertUser)
           phone address
           (lit "user")
           (iu_referral_code insertUser) (iu_referral_rewards insertUser)
           now in
  (user, with_users st (JsMap.set id user (users st)) (id + 1)).

(** [{ ...u, role }] *)
Definition set_role (u : User) (role : JsString) : User :=
  mkUser (u_id u) (u_username u) (u_password u) (u_name u) (u_email u)
         (u_phone u) (u_address u) role
         (u_referral_code u) (u_referral_rewards u) (u_created_at u).

(** The last statement of [initializeTestUser] that touches the store:
    [this.users.set(adminUser.id, { ...adminUser, role: 'admin' })]. *)
Definition replaceWithAdminRole (adminUser : User) (st : MemStorage)
  : MemStorage :=
  with_users st
    (JsMap.set (u_id adminUser) (set_role adminUser (lit "admin")) (users st))
    (userIdCounter st).

(** *** Service methods *)

Definition getServicesByCategory (category : JsString) (st : MemStorage)
  : list Service :=
  filter (fun service => str_eqb (s_category service) category)
         (JsMap.values (services st)).

Definition getService (id : Z) (st : MemStorage) : option Service :=
  JsMap.get id (services st).

(** [{ ...insertService, badge, badge_color, id, created_at: now }] *)
Definition createService (now : Z) (insertService : InsertService)
           (st : MemStorage) : Service * MemStorage :=
  let id := serviceIdCounter st in
  let badge := undefined_to_null (is_badge insertService) in
  let badge_color := undefined_to_null (is_badge_color insertService) in
  let service :=
    mkService id
              (is_name insertService) (is_description insertService)
              (is_category insertService) (is_price insertService)
              (is_processing_time insertService)
              (is_requirements insertService) (is_icon insertService)
              badge badge_color now in
  (service, with_services st (JsMap.set id service (services st)) (id + 1)).

(** [servicesList.forEach(s => this.createService(s))] and
    [servicesList.map(s => this.createService(s))]: one [createService] per
    element, in order; [clock i] is the time read by the [i]-th call.  The
    created records are the results of the [map]; [forEach] drops them. *)
Fixpoint createServices (clock : nat -> Z) (i : nat)
         (servicesList : list InsertService) (st : MemStorage)
  : list Service * MemStorage :=
  match servicesList with
  | [] => ([], st)
  | service :: rest =>
      let (s, st1) := createService (clock i) service st in
      let (ss, st2) := createServices clock (S i) rest st1 in
      (s :: ss, st2)
  end.

(** *** Order methods *)

Definition getOrders (st : MemStorage) : list Order :=
  JsMap.values (orders st).

Definition getOrdersByUserId (userId : Z) (st : MemStorage) : list Order :=
  filter (fun order => o_user_id order =? userId) (JsMap.values (orders st)).

Definition getOrder (id : Z) (st : MemStorage) : option Order :=
  JsMap.get id (orders st).

(** [{ ...insertOrder, id, status: "pending", payment_status: "pending",
      created_at: now, updated_at: now }] *)
Definition createOrder (now : Z) (insertOrder : InsertOrder)
           (st : MemStorage) : Order * MemStorage :=
  let id := orderIdCounter st in
  let order :=
    mkOrder id (io_user_id insertOrder)
            (lit "pending") (lit "pending") now now in
  (order, with_orders st (JsMap.set id order (orders st)) (id + 1)).

(** [undefined] is [None]. *)
Definition updateOrderStatus (now : Z) (id : Z) (status : JsString)
           (st : MemStorage) : option Order * MemStorage :=
  match JsMap.get id (orders st) with
  | None => (None, st)
  | Some order =>
      let updatedOrder :=
        mkOrder (o_id order) (o_user_id order)
                status (o_payment_status order)
                (o_created_at order) now in
      (Some updatedOrder,
       with_orders st (JsMap.set id updatedOrder (orders st))
                   (orderIdCounter st))
  end.

Definition updatePaymentStatus (now : Z) (id : Z) (status : JsString)
           (st : MemStorage) : option Order * MemStorage :=
  match JsMap.get id (orders st) with
  | None => (None, st)
  | Some order =>
      let updatedOrder :=
        mkOrder (o_id order) (o_user_id order)
                (o_status order) status
                (o_created_at order) now in
      (Some updatedOrder,
       with_orders st (JsMap.set id updatedOrder (orders st))
                   (orderIdCounter st))
  end.

(** The fields as the constructor initialises them, before seeding. *)
Definition fresh : MemStorage :=
  mkStorage JsMap.empty JsMap.empty JsMap.empty 1 1 1.

End Storage.

(* ================================================================== *)
(** ** The two revisions of the seeding code *)
(* ================================================================== *)

(** src/unnamed/part_000: the constructor seeds the catalog, and
    [getServices] lists the store. *)
Module Original.

Import Storage.

(** The array literal of [initializeServices]. *)
Definition seedCatalog : list InsertService :=
  [
    mkInsertService (lit "Aadhaar-PAN Linking")
      (lit "Quick and secure linking of your Aadhaar card with PAN card as per government regulations.")
      (lit "Identity") 300 (lit "1-2 days")
      (lit "Aadhaar card, PAN card")
      (lit "fa-link") (Value (lit "Mandatory Service")) (Value (lit "red"));
    mkInsertService (lit "E-Shram Card")
      (lit "Registration and card generation for unorganized workers under the E-Shram portal.")
      (lit "Employment") 200 (lit "2-3 days")
      (lit "Aadhaar card, bank details, mobile number")
      (lit "fa-id-badge") (Value (lit "Worker Benefits")) (Value (lit "green"));
    mkInsertService (lit "Aadhaar Card")
      (lit "New applications, corrections, updates and more for your Aadhaar card.")
      (lit "Identity") 500 (lit "2-3 days")
      (lit "Address proof, identity proof, and recent photograph")
      (lit "fa-id-card") (Value (lit "Fast Processing")) (Value (lit "green"));
    mkInsertService (lit "PAN Card")
      (lit "Apply for new PAN card, correction in existing card and PAN-Aadhaar linking.")
      (lit "Identity") 750 (lit "4-5 days")
      (lit "Identity proof, address proof, and recent photograph")
      (lit "fa-credit-card") (Value (lit "Government Authorized")) (Value (lit "blue"));
    mkInsertService (lit "Driving License")
      (lit "New learner's license, permanent license, renewals and international permits.")
      (lit "Licenses") 1200 (lit "7-10 days")
      (lit "Age proof, address proof, identity proof, and medical certificate")
      (lit "fa-id-badge") (Value (lit "Complete Assistance")) (Value (lit "yellow"));
    mkInsertService (lit "Passport")
      (lit "New passport application, renewal and other passport-related services.")
      (lit "Travel") 2500 (lit "10-15 days")
      (lit "Address proof, identity proof, birth certificate, and photographs")
      (lit "fa-passport") (Value (lit "Priority Service")) (Value (lit "red"));
    mkInsertService (lit "Domicile Certificate")
      (lit "Obtain residence proof certificate from state government.")
      (lit "Certificates") 1500 (lit "10-15 days")
      (lit "Address proof, identity documents, residence proof")
      (lit "fa-home") (Value (lit "State Document")) (Value (lit "purple"));
    mkInsertService (lit "Income Certificate")
      (lit "Get income certification for various purposes.")
      (lit "Certificates") 1200 (lit "7-10 days")
      (lit "Income proof, identity documents, bank statements")
      (lit "fa-money-bill") (Value (lit "Income Proof")) (Value (lit "green"));
    mkInsertService (lit "CSC Education Services")
      (lit "PMGDISHA digital literacy, skill development courses, NDLM registration and online educational services.")
      (lit "Education") 400 (lit "1-2 days")
      (lit "Educational details, identity proof, and photographs")
      (lit "fa-graduation-cap") (Value (lit "Skill Development")) (Value (lit "blue"));
    mkInsertService (lit "CSC Utility Services")
      (lit "Electricity bill payments, mobile/DTH recharges, water bill payments, and other utility services.")
      (lit "Utilities") 200 (lit "Same day")
      (lit "Bill/connection details and payment amount")
      (lit "fa-bolt") (Value (lit "Quick Service")) (Value (lit "yellow"));
    mkInsertService (lit "CSC Agriculture Services")
      (lit "PM-KISAN registration, soil health card, crop insurance, and agricultural advisory services.")
      (lit "Agriculture") 350 (lit "2-4 days")
      (lit "Land records, identity proof, and bank account details")
      (lit "fa-seedling") (Value (lit "Farmer Support")) (Value (lit "green"));
    mkInsertService (lit "CSC G2C Services")
      (lit "Government to Citizen services including welfare schemes, MGNREGA job cards, land records, and social security pensions.")
      (lit "Government") 250 (lit "3-7 days")
      (lit "Identity proof, address documents, and scheme-specific requirements")
      (lit "fa-id-card") (Value (lit "Government Schemes")) (Value (lit "blue"));
    mkInsertService (lit "Caste Certificate")
      (lit "Documentation and verification for SC/ST/OBC categories certification.")
      (lit "Identity") 300 (lit "7-10 days")
      (lit "Identity proof, residence proof, and previous caste certificates if any")
      (lit "fa-id-card") (Value (lit "Government Verified")) (Value (lit "blue"));
    mkInsertService (lit "Birth Certificate")
      (lit "Official documentation for proof of birth and age.")
      (lit "Identity") 400 (lit "5-7 days")
      (lit "Hospital records, parents' ID proof")
      (lit "fa-baby") (Value (lit "Essential Document")) (Value (lit "green"));
    mkInsertService (lit "Death Certificate")
      (lit "Legal documentation for proof of death.")
      (lit "Legal") 400 (lit "3-5 days")
      (lit "Medical certificate, deceased's ID proof")
      (lit "fa-scroll") (Value (lit "Priority Processing")) (Value (lit "red"));
    mkInsertService (lit "Marriage Certificate")
      (lit "Legal proof of marriage registration.")
      (lit "Legal") 600 (lit "7-10 days")
      (lit "Both parties' ID proof, photographs, witness details")
      (lit "fa-rings-wedding") (Value (lit "Legal Document")) (Value (lit "blue"));
    mkInsertService (lit "GST Registration")
      (lit "Business registration for Goods and Services Tax.")
      (lit "Business") 1000 (lit "3-5 days")
      (lit "Business details, PAN, address proof")
      (lit "fa-receipt") (Value (lit "Business Essential")) (Value (lit "purple"));
    mkInsertService (lit "ESIC Registration")
      (lit "Employee State Insurance Corporation registration for benefits.")
      (lit "Business") 800 (lit "5-7 days")
      (lit "Company details, employee information")
      (lit "fa-shield-alt") (Value (lit "Employee Welfare")) (Value (lit "green"));
    mkInsertService (lit "PF Registration")
      (lit "Provident Fund registration for retirement benefits.")
      (lit "Business") 800 (lit "5-7 days")
      (lit "Company registration, employee details")
      (lit "fa-piggy-bank") (Value (lit "Retirement Security")) (Value (lit "blue"));
    mkInsertService (lit "ITR Filing")
      (lit "Income Tax Return filing services.")
      (lit "Finance") 500 (lit "2-3 days")
      (lit "Income statements, investment proofs, PAN")
      (lit "fa-file-invoice-dollar") (Value (lit "Tax Compliance")) (Value (lit "green"));
    mkInsertService (lit "PMAY Application")
      (lit "Pradhan Mantri Awas Yojana housing scheme assistance.")
      (lit "Welfare") 300 (lit "10-15 days")
      (lit "Income proof, property details, Aadhaar")
      (lit "fa-home") (Value (lit "Housing Scheme")) (Value (lit "blue"));
    mkInsertService (lit "Ayushman Bharat Card")
      (lit "Health insurance under PM-JAY scheme.")
      (lit "Healthcare") 200 (lit "5-7 days")
      (lit "Income certificate, Aadhaar, family details")
      (lit "fa-heart") (Value (lit "Healthcare")) (Value (lit "red"));
    mkInsertService (lit "Pension Certificate")
      (lit "Documentation for government pensions and benefits.")
      (lit "Welfare") 400 (lit "7-10 days")
      (lit "Service records, Aadhaar, bank details")
      (lit "fa-hand-holding-heart") (Value (lit "Senior Care")) (Value (lit "purple"));
    mkInsertService (lit "MGNREGA Job Card")
      (lit "Rural employment scheme registration.")
      (lit "Employment") 100 (lit "3-5 days")
      (lit "Address proof, photographs, bank details")
      (lit "fa-users") (Value (lit "Rural Employment")) (Value (lit "green"));
    mkInsertService (lit "Property Registration")
      (lit "Legal documentation of property ownership.")
      (lit "Property") 2000 (lit "15-20 days")
      (lit "Property documents, ID proof, payment details")
      (lit "fa-building") (Value (lit "Legal Property")) (Value (lit "blue"));
    mkInsertService (lit "Land Records")
      (lit "Online access to land ownership records (Bhulekh).")
      (lit "Property") 300 (lit "2-3 days")
      (lit "Property details, ID proof")
      (lit "fa-map") (Value (lit "Digital Records")) (Value (lit "green"));
    mkInsertService (lit "Utility Connections")
      (lit "New connections and bill management for electricity, water, and gas.")
      (lit "Utilities") 600 (lit "7-10 days")
      (lit "Address proof, ID proof, property documents")
      (lit "fa-plug") (Value (lit "Essential Services")) (Value (lit "purple"));
    mkInsertService (lit "CSC Healthcare Services")
      (lit "Telemedicine, Ayushman Bharat registration, health insurance, and wellness services through CSC-PHCs.")
      (lit "Healthcare") 300 (lit "1-3 days")
      (lit "Health records, identity proof, and family details")
      (lit "fa-stethoscope") (Value (lit "Health Support")) (Value (lit "red"));
    mkInsertService (lit "CSC Digital Services")
      (lit "Digital India services including Digi Locker, digital signatures, WiFi Choupal, and PMGDISHA training.")
      (lit "Digital") 450 (lit "1-2 days")
      (lit "Digital documents, identity proof, and email address")
      (lit "fa-mobile-alt") (Value (lit "Digital Empowerment")) (Value (lit "purple"));
    mkInsertService (lit "CSC Travel Services")
      (lit "IRCTC train ticket booking, bus tickets, flight tickets, and hotel bookings through CSC centers.")
      (lit "Travel") 250 (lit "Same day")
      (lit "Travel details, identity proof, and payment information")
      (lit "fa-train") (Value (lit "Travel Solutions")) (Value (lit "orange"));
    mkInsertService (lit "Certificates")
      (lit "Birth, death, income, caste, domicile and other essential certificates.")
      (lit "Government") 400 (lit "2-4 days")
      (lit "Supporting documents depending on certificate type")
      (lit "fa-scroll") (Value (lit "Digital Delivery")) (Value (lit "green"));
    mkInsertService (lit "Property Documents")
      (lit "Land records, property registration, mutation and related services.")
      (lit "Property") 3000 (lit "15-20 days")
      (lit "Property details, ownership proof, and identity documents")
      (lit "fa-house-user") (Value (lit "Expert Assistance")) (Value (lit "blue"));
    mkInsertService (lit "Business Services")
      (lit "GST registration, company registration, MSME registration and more.")
      (lit "Business") 5000 (lit "7-14 days")
      (lit "Business details, address proof, and identity documents")
      (lit "fa-briefcase") (Value (lit "Business Solutions")) (Value (lit "indigo"));
    mkInsertService (lit "Domicile Certificate")
      (lit "Obtain residence proof certificate from state government.")
      (lit "Certificates") 1500 (lit "10-15 days")
      (lit "Address proof, identity documents, residence proof")
      (lit "fa-home") (Value (lit "State Document")) (Value (lit "purple"));
    mkInsertService (lit "Income Certificate")
      (lit "Get income certification for various purposes.")
      (lit "Certificates") 1200 (lit "7-10 days")
      (lit "Income proof, identity documents, bank statements")
      (lit "fa-money-bill") (Value (lit "Income Proof")) (Value (lit "green"));
    mkInsertService (lit "Voter ID")
      (lit "Apply for new voter ID or update existing one.")
      (lit "Identity") 800 (lit "20-30 days")
      (lit "Age proof, address proof, photographs")
      (lit "fa-id-card") (Value (lit "Electoral ID")) (Value (lit "blue"));
    mkInsertService (lit "Ration Card")
      (lit "Apply for new ration card or modify existing one.")
      (lit "Identity") 1000 (lit "15-20 days")
      (lit "Family details, income proof, address proof")
      (lit "fa-card-list") (Value (lit "Essential Document")) (Value (lit "orange"))
  ].

Arguments seedCatalog : simpl never.

(** [services.forEach(service => { this.createService(service); })] *)
Definition initializeServices (clock : nat -> Z) (st : MemStorage)
  : MemStorage :=
  snd (createServices clock 0 seedCatalog st).

Definition getServices (st : MemStorage) : list Service :=
  JsMap.values (services st).

(** The store when [new MemStorage()] returns: [initializeTestUser] has
    been started but waits on its first [await]. *)
Definition constructor (clock : nat -> Z) : MemStorage :=
  initializeServices clock fresh.

End Original.

(** src/unnamed/part_001: [initializeServices] only returns its array
    literal, the constructor drops it, and [getServices] creates one record
    per element of it on every call. *)
Module Revised.

Import Storage.

(** The array literal of [initializeServices]. *)
Definition seedCatalog : list InsertService :=
  [
    mkInsertService (lit "Voter ID Card (EPIC)")
      (lit "Apply for new voter ID card or make corrections to existing one")
      (lit "Identity") 100 (lit "15-20 days")
      (lit "Age proof, address proof, photographs")
      (lit "fa-id-card") (Value (lit "Electoral Document")) (Value (lit "blue"));
    mkInsertService (lit "Aadhaar Card")
      (lit "Apply for new Aadhaar card or update existing one")
      (lit "Identity") 50 (lit "10-15 days")
      (lit "Proof of Identity, Proof of Address, Birth Certificate")
      (lit "fa-id-card") (Value (lit "Essential")) (Value (lit "green"));
    mkInsertService (lit "PAN Card")
      (lit "Apply for new PAN card or request a duplicate")
      (lit "Identity") 150 (lit "7-10 days")
      (lit "Identity proof, address proof, photographs")
      (lit "fa-credit-card") (Value (lit "Tax Document")) (Value (lit "orange"));
    mkInsertService (lit "Birth Certificate")
      (lit "Apply for birth certificate or get duplicate copy")
      (lit "Identity") 300 (lit "5-7 days")
      (lit "Hospital records, parents' IDs")
      (lit "fa-baby") (Value (lit "Essential")) (Value (lit "green"));
    mkInsertService (lit "Income Certificate")
      (lit "Apply for income certificate for various purposes")
      (lit "Financial") 200 (lit "7-10 days")
      (lit "Salary slips, bank statements, employment proof")
      (lit "fa-money-bill") (Value (lit "Income Proof")) (Value (lit "green"));
    mkInsertService (lit "Domicile Certificate")
      (lit "Get proof of residence certificate")
      (lit "Identity") 150 (lit "10-15 days")
      (lit "Address proof, residence proof, identity documents")
      (lit "fa-home") (Value (lit "Residence Proof")) (Value (lit "blue"));
    mkInsertService (lit "Passport")
      (lit "Apply for new passport or renewal")
      (lit "Identity") 2500 (lit "30-45 days")
      (lit "Identity proof, address proof, birth certificate")
      (lit "fa-passport") (Value (lit "Travel Document")) (Value (lit "blue"));
    mkInsertService (lit "Marriage Certificate")
      (lit "Apply for marriage registration certificate")
      (lit "Legal") 500 (lit "15-20 days")
      (lit "Marriage photos, witness IDs, age proof")
      (lit "fa-rings-wedding") (Value (lit "Legal Document")) (Value (lit "purple"));
    mkInsertService (lit "GST Registration")
      (lit "Register your business under GST")
      (lit "Business") 1000 (lit "3-5 days")
      (lit "Business PAN, address proof, bank details")
      (lit "fa-receipt") (Value (lit "Business")) (Value (lit "indigo"));
    mkInsertService (lit "Aadhaar-PAN Linking")
      (lit "Quick and secure linking of your Aadhaar card with PAN card")
      (lit "Identity") 50 (lit "1-2 days")
      (lit "Aadhaar card, PAN card")
      (lit "fa-link") (Value (lit "Essential")) (Value (lit "blue"));
    mkInsertService (lit "E-Shram Card")
      (lit "Registration for unorganized workers under E-Shram portal")
      (lit "Employment") 100 (lit "2-3 days")
      (lit "Aadhaar card, bank details, employment details")
      (lit "fa-id-badge") (Value (lit "Labor Welfare")) (Value (lit "green"))
  ].

Arguments seedCatalog : simpl never.

Definition initializeServices : list InsertService := seedCatalog.

(** [servicesList.map(service => this.createService(service))] *)
Definition getServices (clock : nat -> Z) (st : MemStorage)
  : list Service * MemStorage :=
  let servicesList := initializeServices in
  createServices clock 0 servicesList st.

Definition constructor : MemStorage :=
  let _ := initializeServices in fresh.

End Revised.

(* ================================================================== *)
(** ** A storage instance over time *)
(* ================================================================== *)

Module Server.

Import Storage.

Inductive Revision := original | revised.

(** Where [initializeTestUser] stands.  It is the one method with [await]s
    in its body, so other calls can run between its statements; the states
    are the points between two accesses to the store. *)
Inductive TestUserInit :=
| Pending                       (* before [getUserByUsername('testuser')] *)
| Absent                        (* no test user found, hashing 'password123' *)
| NormalCreated (normalUser : User)      (* hashing 'admin123' *)
| AdminCreated (adminUser : User)        (* before [this.users.set] *)
| Finished.

Record Instance := mkInstance {
  store : MemStorage;
  testUserInit : TestUserInit
}.

Definition testUserData (hashed : JsString) : InsertUser :=
  mkInsertUser (lit "testuser") hashed (lit "Test User")
               (lit "test@example.com") (Value (lit "9876543210"))
               (Value (lit "Test Address, Mumbai, India"))
               Undefined Undefined.

Definition adminUserData (hashed : JsString) : InsertUser :=
  mkInsertUser (lit "admin") hashed (lit "Admin User")
               (lit "admin@quicktech.com") (Value (lit "9876543211"))
               (Value (lit "Admin Office, Delhi, India"))
               Undefined Undefined.

(** The calls that can change the store.  The accessors that only read it
    ([getUser], [getUserByUsername], [getServicesByCategory], ...) are
    functions of the store above.  [ResumeInitializeTestUser] lets
    [initializeTestUser] run to its next access to the store; [hashed] is
    what [hashPassword] (of ./auth) resolved to when the next access is a
    [createUser]. *)
Inductive Call :=
| CreateUser (now : Z) (insertUser : InsertUser)
| GetServices (clock : nat -> Z)
| CreateService (now : Z) (insertService : InsertService)
| CreateOrder (now : Z) (insertOrder : InsertOrder)
| UpdateOrderStatus (now : Z) (id : Z) (status : JsString)
| UpdatePaymentStatus (now : Z) (id : Z) (status : JsString)
| ResumeInitializeTestUser (now : Z) (hashed : JsString).

Section CaseFolding.

Variable toLowerCase : JsString -> JsString.

Definition new (rev : Revision) (clock : nat -> Z) : Instance :=
  mkInstance
    match rev with
    | original => Original.constructor clock
    | revised => Revised.constructor
    end
    Pending.

Definition initializeTestUser (now : Z) (hashed : JsString) (i : Instance)
  : Instance * option User :=
  match testUserInit i with
  | Pending =>
      match getUserByUsername toLowerCase (lit "testuser") (store i) with
      | Some _ => (mkInstance (store i) Finished, None)
      | None => (mkInstance (store i) Absent, None)
      end
  | Absent =>
      let (normalUser, st) := createUser now (testUserData hashed) (store i) in
      (mkInstance st (NormalCreated normalUser), Some normalUser)
  | NormalCreated _ =>
      let (adminUser, st) := createUser now (adminUserData hashed) (store i) in
      (mkInstance st (AdminCreated adminUser), Some adminUser)
  | AdminCreated adminUser =>
      (mkInstance (replaceWithAdminRole adminUser (store i)) Finished, None)
  | Finished => (i, None)
  end.

(** One call; the second component is the user a [createUser] executed by
    the call returned, if it executed one. *)
Definition step (rev : Revision) (i : Instance) (c : Call)
  : Instance * option User :=
  let st := store i in
  let keep st' := mkInstance st' (testUserInit i) in
  match c with
  | CreateUser now insertUser =>
      let (user, st') := createUser now insertUser st in
      (keep st', Some user)
  | GetServices clock =>
      match rev with
      | original => (i, None)
      | revised => (keep (snd (Revised.getServices clock st)), None)
      end
  | CreateService now insertService =>
      (keep (snd (createService now insertService st)), None)
  | CreateOrder now insertOrder =>
      (keep (snd (createOrder now insertOrder st)), None)
  | UpdateOrderStatus now id status =>
      (keep (snd (updateOrderStatus now id status st)), None)
  | UpdatePaymentStatus now id status =>
      (keep (snd (updatePaymentStatus now id status st)), None)
  | ResumeInitializeTestUser now hashed =>
      initializeTestUser now hashed i
  end.

(** A sequence of calls; the users returned by [createUser], in call
    order, and the instance afterwards. *)
Fixpoint run (rev : Revision) (i : Instance) (calls : list Call)
  : list User * Instance :=
  match calls with
  | [] => ([], i)
  | c :: calls' =>
      let (i1, created) := step rev i c in
      let (us, i2) := run rev i1 calls' in
      (match created with Some u => u :: us | None => us end, i2)
  end.

End CaseFolding.

End Server.

(* ================================================================== *)
(** ** JSON text *)
(* ================================================================== *)

(** [JSON.stringify] on an object whose properties are strings, as
    ECMAScript defines it (QuoteJSONString, SerializeJSONObject without
    indentation), and a reader for the same texts. *)
Module Json.

Local Open Scope N_scope.

Definition quotation_mark : N := 34.
Definition reverse_solidus : N := 92.

(** One lower-case hexadecimal digit. *)
Definition hex_digit (d : N) : N :=
  if d <? 10 then 48 + d else 87 + d.

(** [\uXXXX] *)
Definition UnicodeEscape (c : N) : JsString :=
  [reverse_solidus; 117;
   hex_digit (c / 4096); hex_digit ((c / 256) mod 16);
   hex_digit ((c / 16) mod 16); hex_digit (c mod 16)].

Definition is_leading_surrogate (c : N) : bool :=
  (55296 <=? c) && (c <=? 56319).

Definition is_trailing_surrogate (c : N) : bool :=
  (56320 <=? c) && (c <=? 57343).

(** A code unit that is not a surrogate: the two-character escapes, then
    [\u00XX] for the other control characters, then the unit itself. *)
Definition quote_unit (c : N) : JsString :=
  if c =? 8 then [reverse_solidus; 98]
  else if c =? 9 then [reverse_solidus; 116]
  else if c =? 10 then [reverse_solidus; 110]
  else if c =? 12 then [reverse_solidus; 102]
  else if c =? 13 then [reverse_solidus; 114]
  else if c =? 34 then [reverse_solidus; quotation_mark]
  else if c =? 92 then [reverse_solidus; reverse_solidus]
  else if c <? 32 then UnicodeEscape c
  else [c].

(** The text between the quotation marks: a surrogate pair is copied, a
    lone surrogate is escaped. *)
Fixpoint quote_units (s : JsString) : JsString :=
  match s with
  | [] => []
  | c :: rest =>
      if is_leading_surrogate c then
        match rest with
        | d :: rest' =>
            if is_trailing_surrogate d then c :: d :: quote_units rest'
            else UnicodeEscape c ++ quote_units rest
        | [] => UnicodeEscape c
        end
      else if is_trailing_surrogate c then UnicodeEscape c ++ quote_units rest
      else quote_unit c ++ quote_units rest
  end.

Definition QuoteJSONString (s : JsString) : JsString :=
  quotation_mark :: quote_units s ++ [quotation_mark].

(** The members after the first: each is preceded by a comma. *)
Fixpoint serialize_more (members : list (JsString * JsString)) : JsString :=
  match members with
  | [] => []
  | (k, v) :: more =>
      44 :: QuoteJSONString k ++ 58 :: QuoteJSONString v ++ serialize_more more
  end.

(** [{"k1":"v1","k2":"v2"}], the properties in their own order. *)
Definition SerializeJSONObject (members : list (JsString * JsString))
  : JsString :=
  match members with
  | [] => [123; 125]
  | (k, v) :: more =>
      123 :: QuoteJSONString k ++ 58 :: QuoteJSONString v
          ++ serialize_more more ++ [125]
  end.

(** *** Reading the text back *)

Definition hex_value (c : N) : option N :=
  if (48 <=? c) && (c <=? 57) then Some (c - 48)
  else if (97 <=? c) && (c <=? 102) then Some (c - 87)
  else if (65 <=? c) && (c <=? 70) then Some (c - 55)
  else None.

Definition unescape (e : N) : option N :=
  if e =? 98 then Some 8
  else if e =? 116 then Some 9
  else if e =? 110 then Some 10
  else if e =? 102 then Some 12
  else if e =? 114 then Some 13
  else if e =? 34 then Some 34
  else if e =? 92 then Some 92
  else if e =? 47 then Some 47
  else None.

Definition hex4 (h1 h2 h3 h4 : N) : option N :=
  match hex_value h1, hex_value h2, hex_value h3, hex_value h4 with
  | Some a, Some b, Some c, Some d => Some (a * 4096 + b * 256 + c * 16 + d)
  | _, _, _, _ => None
  end.

Definition prepend (c : N) (r : option (JsString * JsString))
  : option (JsString * JsString) :=
  match r with
  | Some (s, rest) => Some (c :: s, rest)
  | None => None
  end.

(** The characters of a string up to its closing quotation mark; the
    result is the string denoted and the text after the mark. *)
Fixpoint read_chars (s : JsString) : option (JsString * JsString) :=
  match s with
  | [] => None
  | c :: rest =>
      if c =? quotation_mark then Some ([], rest)
      else if c =? reverse_solidus then
        match rest with
        | [] => None
        | e :: rest1 =>
            if e =? 117 then
              match rest1 with
              | h1 :: h2 :: h3 :: h4 :: rest2 =>
                  match hex4 h1 h2 h3 h4 with
                  | Some u => prepend u (read_chars rest2)
                  | None => None
                  end
              | _ => None
              end
            else
              match unescape e with
              | Some u => prepend u (read_chars rest1)
              | None => None
              end
        end
      else if c <? 32 then None
      else prepend c (read_chars rest)
  end.

Definition read_string (s : JsString) : option (JsString * JsString) :=
  match s with
  | c :: rest => if c =? quotation_mark then read_chars rest else None
  | [] => None
  end.

(** ["key":"value"] *)
Definition read_member (s : JsString)
  : option ((JsString * JsString) * JsString) :=
  match read_string s with
  | Some (k, c :: rest) =>
      if c =? 58 then
        match read_string rest with
        | Some (v, rest') => Some ((k, v), rest')
        | None => None
        end
      else None
  | _ => None
  end.

(** Members separated by commas and closed by a brace; [fuel] bounds the
    number of members. *)
Fixpoint read_members (fuel : nat) (s : JsString)
  : option (list (JsString * JsString) * JsString) :=
  match fuel with
  | O => None
  | S fuel' =>
      match read_member s with
      | Some (kv, c :: rest) =>
          if c =? 44 then
            match read_members fuel' rest with
            | Some (kvs, rest') => Some (kv :: kvs, rest')
            | None => None
            end
          else if c =? 125 then Some ([kv], rest)
          else None
      | _ => None
      end
  end.

Definition members_well_formed (members : list (JsString * JsString))
  : bool :=
  forallb (fun kv => well_formed (fst kv) && well_formed (snd kv)) members.

(** The members of an object text, in the order they are written. *)
Definition read_object (s : JsString) : option (list (JsString * JsString)) :=
  match s with
  | c :: rest =>
      if c =? 123 then
        match rest with
        | [d] => if d =? 125 then Some [] else None
        | _ =>
            match read_members (List.length rest) rest with
            | Some (kvs, []) => Some kvs
            | _ => None
            end
        end
      else None
  | [] => None
  end.

End Json.

(* ================================================================== *)
(** ** What a component does to the outside *)
(* ================================================================== *)

Module Dom.

(** The second argument of [fetch]. *)
Record RequestInit := mkRequestInit {
  method : JsString;
  headers : list (JsString * JsString);
  body : JsString;
  credentials : JsString
}.

(** The argument of [toast]. *)
Record ToastOptions := mkToast {
  title : JsString;
  description : JsString;
  variant : Nullish JsString
}.

Inductive Effect :=
| Fetch (url : JsString) (init : RequestInit)
| Toast (options : ToastOptions)
| ClipboardWriteText (text : JsString)
| SetTimeout (delay : Z).

(** How an awaited [fetch] ends: the promise rejects, or it resolves to a
    response whose [ok] flag tells whether the status is 2xx. *)
Inductive FetchOutcome :=
| Rejected
| Response (ok : bool).

(** How [await navigator.clipboard.writeText(text)] ends: there is no
    [navigator.clipboard] (an insecure context, an old browser) and the
    expression throws before anything is written; or the write is made and
    its promise rejects; or the write is made and its promise resolves. *)
Inductive ClipboardOutcome :=
| NoClipboard
| WriteRejected
| WriteResolved.

(** The outcomes that take [handleSave] to its [catch]: a rejected
    promise, or a response that is not ok (the handler throws on it). *)
Definition failed (outcome : FetchOutcome) : bool :=
  match outcome with
  | Response true => false
  | _ => true
  end.

Definition requests (effects : list Effect) : list (JsString * RequestInit) :=
  flat_map (fun e => match e with
                     | Fetch url init => [(url, init)]
                     | _ => []
                     end) effects.

Definition toasts (effects : list Effect) : list ToastOptions :=
  flat_map (fun e => match e with
                     | Toast options => [options]
                     | _ => []
                     end) effects.

Definition clipboard_writes (effects : list Effect) : list JsString :=
  flat_map (fun e => match e with
                     | ClipboardWriteText text => [text]
                     | _ => []
                     end) effects.

(** [s || fallback] for a string [s]: the empty string is falsy. *)
Definition or_else (s : JsString) (fallback : JsString) : JsString :=
  match s with
  | [] => fallback
  | _ => s
  end.

(** [x || fallback] for a string that may be missing. *)
Definition nullish_or_else (x : Nullish JsString) (fallback : JsString)
  : JsString :=
  match x with
  | Value s => or_else s fallback
  | _ => fallback
  end.

End Dom.

(* ================================================================== *)
(** ** ProfileCard *)
(* ================================================================== *)

Module ProfileCard.

Import Dom.

Record FormData := mkFormData {
  name : JsString;
  email : JsString;
  phone : JsString
}.

(** The value of [useAuth().user] and the two [useState] cells. *)
Record Component := mkComponent {
  user : option User;
  isEditing : bool;
  formData : FormData
}.

(** [user?.name], [user?.email], [user?.phone] *)
Definition user_name (user : option User) : Nullish JsString :=
  match user with
  | Some u => Value (u_name u)
  | None => Undefined
  end.

Definition user_email (user : option User) : Nullish JsString :=
  match user with
  | Some u => Value (u_email u)
  | None => Undefined
  end.

Definition user_phone (user : option User) : Nullish JsString :=
  match user with
  | Some u => u_phone u
  | None => Undefined
  end.

(** The first render. *)
Definition mount (user : option User) : Component :=
  mkComponent user false
    (mkFormData (nullish_or_else (user_name user) [])
                (nullish_or_else (user_email user) [])
                (nullish_or_else (user_phone user) [])).

(** [JSON.stringify(formData)]: the keys in the order of the object
    literal, which [{...formData, name: v}] and its siblings keep. *)
Definition JSON_stringify (formData : FormData) : JsString :=
  Json.SerializeJSONObject
    [(lit "name", name formData);
     (lit "email", email formData);
     (lit "phone", phone formData)].

Definition handleSave (c : Component) (outcome : FetchOutcome)
  : Component * list Effect :=
  let request :=
    Fetch (lit "/api/user/profile")
          (mkRequestInit (lit "PUT")
                         [(lit "Content-Type", lit "application/json")]
                         (JSON_stringify (formData c))
                         (lit "include")) in
  match outcome with
  | Response true =>
      (mkComponent (user c) false (formData c),
       [request;
        Toast (mkToast (lit "Profile Updated")
                       (lit "Your profile has been successfully updated.")
                       Undefined)])
  | _ =>
      (c,
       [request;
        Toast (mkToast (lit "Update Failed")
                       (lit "Failed to update profile. Please try again.")
                       (Value (lit "destructive")))])
  end.

(** The other handlers of the card. *)
Inductive Event :=
| ChangeName (value : JsString)
| ChangeEmail (value : JsString)
| ChangePhone (value : JsString)
| ClickEdit
| ClickCancel
| ClickSave (outcome : FetchOutcome).

Definition handle (c : Component) (e : Event) : Component * list Effect :=
  match e with
  | ChangeName v =>
      (mkComponent (user c) (isEditing c)
         (mkFormData v (email (formData c)) (phone (formData c))), [])
  | ChangeEmail v =>
      (mkComponent (user c) (isEditing c)
         (mkFormData (name (formData c)) v (phone (formData c))), [])
  | ChangePhone v =>
      (mkComponent (user c) (isEditing c)
         (mkFormData (name (formData c)) (email (formData c)) v), [])
  | ClickEdit => (mkComponent (user c) true (formData c), [])
  | ClickCancel => (mkComponent (user c) false (formData c), [])
  | ClickSave outcome => handleSave c outcome
  end.

(** What the card shows for one field: an input holding the form value
    while editing, the text of the signed-in user otherwise. *)
Inductive Field :=
| Input (value : JsString)
| Paragraph (text : Nullish JsString).

Inductive Button := SaveChanges | Cancel | EditProfile.

Record View := mkView {
  nameField : Field;
  emailField : Field;
  phoneField : Field;
  buttons : list Button
}.

Definition render (c : Component) : View :=
  if isEditing c then
    mkView (Input (name (formData c)))
           (Input (email (formData c)))
           (Input (phone (formData c)))
           [SaveChanges; Cancel]
  else
    mkView (Paragraph (user_name (user c)))
           (Paragraph (user_email (user c)))
           (Paragraph (Value (nullish_or_else (user_phone (user c))
                                              (lit "Not provided"))))
           [EditProfile].

(** The spec's reading of a failed save: the card leaves edit mode and
    tells the user. *)
Definition reverts_to_non_edit_on_failure (c : Component)
           (outcome : FetchOutcome) : Prop :=
  failed outcome = true ->
  isEditing (fst (handleSave c outcome)) = false
  /\ toasts (snd (handleSave c outcome)) <> [].

(** A card in edit mode, as [Edit Profile] and some typing leave it. *)
Definition editing (user : option User) (name email phone : JsString)
  : Component :=
  mkComponent user true (mkFormData name email phone).

End ProfileCard.

(* ================================================================== *)
(** ** ReferralCard *)
(* ================================================================== *)

Module ReferralCard.

Import Dom.

Record Component := mkComponent {
  origin : JsString;            (* window.location.origin *)
  user : option User;           (* useAuth().user *)
  copied : bool
}.

(** [user?.referral_code] *)
Definition user_referral_code (user : option User) : Nullish JsString :=
  match user with
  | Some u => u_referral_code u
  | None => Undefined
  end.

(** A value interpolated in a template literal. *)
Definition to_string (x : Nullish JsString) : JsString :=
  match x with
  | Undefined => lit "undefined"
  | Null => lit "null"
  | Value s => s
  end.

(** [`${window.location.origin}/auth?ref=${user?.referral_code}`] *)
Definition referralLink (c : Component) : JsString :=
  origin c ++ lit "/auth?ref=" ++ to_string (user_referral_code (user c)).

(** The [try] runs to its end when the write resolves; the [catch] is
    reached after a write that rejects and also, before any write, when
    [navigator.clipboard] is not there. *)
Definition copyToClipboard (c : Component) (outcome : ClipboardOutcome)
  : Component * list Effect :=
  let failed :=
    Toast (mkToast (lit "Error")
                   (lit "Failed to copy referral link")
                   (Value (lit "destructive"))) in
  match outcome with
  | WriteResolved =>
      (mkComponent (origin c) (user c) true,
       [ClipboardWriteText (referralLink c);
        Toast (mkToast (lit "Copied!")
                       (lit "Referral link copied to clipboard")
                       Undefined);
        SetTimeout 2000])
  | WriteRejected => (c, [ClipboardWriteText (referralLink c); failed])
  | NoClipboard => (c, [failed])
  end.

End ReferralCard.

(* ================================================================== *)
(** ** Invariants, and the notions the properties are stated with *)
(* ================================================================== *)

Module Invariants.

Import Storage Server.

(** *** Well-formed stores *)

(** Every record of a map sits under its own id, the ids are below the
    counter of the map, and no key occurs twice. *)
Definition entries_ok {V : Type} (id_of : V -> Z) (m : JsMap.t V)
           (counter : Z) : Prop :=
  Forall (fun kv => id_of (snd kv) = fst kv /\ fst kv < counter) m
  /\ NoDup (JsMap.keys m).

Definition users_ok (st : MemStorage) : Prop :=
  entries_ok u_id (users st) (userIdCounter st).

Definition services_ok (st : MemStorage) : Prop :=
  entries_ok s_id (services st) (serviceIdCounter st).

Definition orders_ok (st : MemStorage) : Prop :=
  entries_ok o_id (orders st) (orderIdCounter st).

Definition created_before (st : MemStorage) (u : User) : Prop :=
  u_id u < userIdCounter st.

(** The users [initializeTestUser] holds on to were created earlier. *)
Definition instance_ok (i : Instance) : Prop :=
  users_ok (store i) /\
  match testUserInit i with
  | NormalCreated u | AdminCreated u => created_before (store i) u
  | _ => True
  end.

(** *** Users *)

(** Equality up to letter case, as the lookups test it. *)
Definition equal_ignoring_case (toLowerCase : JsString -> JsString)
           (a b : JsString) : Prop :=
  toLowerCase a = toLowerCase b.

(** *** Services *)

(** The record [createService] builds from a catalog entry. *)
Definition service_record (id now : Z) (x : InsertService) : Service :=
  mkService id (is_name x) (is_description x) (is_category x) (is_price x)
            (is_processing_time x) (is_requirements x) (is_icon x)
            (undefined_to_null (is_badge x))
            (undefined_to_null (is_badge_color x)) now.

(** The records of a list of entries created one after the other, the first
    under [id] at time [clock i]. *)
Fixpoint seeded (clock : nat -> Z) (i : nat) (id : Z)
         (entries : list InsertService) : list Service :=
  match entries with
  | [] => []
  | x :: rest =>
      service_record id (clock i) x :: seeded clock (S i) (id + 1) rest
  end.

(** The map entry a service is stored as. *)
Definition entry_of (s : Service) : Z * Service := (s_id s, s).

(** [l1] is [l2] with some elements left out, the others in place. *)
Inductive Subsequence {A : Type} : list A -> list A -> Prop :=
| sub_nil : Subsequence [] []
| sub_skip x l1 l2 : Subsequence l1 l2 -> Subsequence l1 (x :: l2)
| sub_keep x l1 l2 : Subsequence l1 l2 -> Subsequence (x :: l1) (x :: l2).

(** The spec's reading of the revised [getServices]: a call drops the
    records that were in the store, puts the records of the seed catalog
    there, and leaves stored records that share an id. *)
Definition getServices_discards_and_duplicates_ids
           (clock : nat -> Z) (st : MemStorage) : Prop :=
  let (result, st') := Revised.getServices clock st in
  (forall s, In s (JsMap.values (services st)) ->
             ~ In s (JsMap.values (services st')))
  /\ (forall s, In s result -> In s (JsMap.values (services st')))
  /\ ~ NoDup (map s_id (JsMap.values (services st'))).

(** *** Orders *)

(** An update answered with [o'] and put it where [o] was: the entries
    before and after it, the users, the services and the three counters
    are as they were. *)
Definition replaces_order (st : MemStorage) (o o' : Order)
           (r : option Order * MemStorage) : Prop :=
  let (result, st') := r in
  result = Some o'
  /\ (exists before after,
         orders st = before ++ (o_id o, o) :: after /\
         orders st' = before ++ (o_id o, o') :: after)
  /\ (forall id, id <> o_id o -> getOrder id st' = getOrder id st)
  /\ users st' = users st /\ services st' = services st
  /\ userIdCounter st' = userIdCounter st
  /\ serviceIdCounter st' = serviceIdCounter st
  /\ orderIdCounter st' = orderIdCounter st.

(** *** Sample instances *)

(** A start-up in which a sign-up arrives while [initializeTestUser] is
    hashing the second password. *)
Definition startup_calls : list Call :=
  [ResumeInitializeTestUser 10 (lit "h0");
   ResumeInitializeTestUser 11 (lit "h1");
   CreateUser 12 (mkInsertUser (lit "Ravi") (lit "pw") (lit "Ravi K")
                               (lit "ravi@example.in")
                               Undefined Undefined Undefined Undefined);
   ResumeInitializeTestUser 13 (lit "h2");
   ResumeInitializeTestUser 14 (lit "h3")].

Definition after_startup : list User * Instance :=
  run ascii_toLowerCase revised (new revised (fun _ => 0)) startup_calls.

(** The store of the revised module after one call to [getServices]. *)
Definition seeded_once : MemStorage :=
  snd (Revised.getServices (fun _ => 0) Revised.constructor).

(** One order placed on a new instance, and the order that makes. *)
Definition one_order_calls : list Call :=
  [CreateOrder 5 (mkInsertOrder 3)].

Definition the_one_order : Order :=
  mkOrder 1 3 (lit "pending") (lit "pending") 5 5.

End Invariants.

(* ================================================================== *)
(** ** Histories: what a store has kept *)
(* ================================================================== *)

Module Histories.

Import Storage Server.

(** The ids 1, 2, ..., n. *)
Definition ids_upto (n : nat) : list Z := map Z.of_nat (seq 1 n).

(** Nothing was removed or moved: the keys of the map are 1, ..., n in this
    order, the counter is the next id, and each record has its key as its
    id. *)
Definition all_kept {V : Type} (id_of : V -> Z) (m : JsMap.t V)
           (counter : Z) : Prop :=
  JsMap.keys m = ids_upto (List.length m)
  /\ counter = Z.of_nat (List.length m) + 1
  /\ Forall (fun kv => id_of (snd kv) = fst kv) m.

Definition store_kept (st : MemStorage) : Prop :=
  all_kept u_id (users st) (userIdCounter st)
  /\ all_kept s_id (services st) (serviceIdCounter st)
  /\ all_kept o_id (orders st) (orderIdCounter st).

(** The users [initializeTestUser] holds on to are among the created. *)
Definition instance_kept (i : Instance) : Prop :=
  store_kept (store i) /\
  match testUserInit i with
  | NormalCreated u | AdminCreated u =>
      1 <= u_id u < userIdCounter (store i)
  | _ => True
  end.

(** Two sign-ups under one username, in different case, and the users
    they make. *)
Definition twin_calls : list Call :=
  [CreateUser 20 (mkInsertUser (lit "Ravi") (lit "pw1") (lit "Ravi K")
                               (lit "ravi@example.in")
                               Undefined Undefined Undefined Undefined);
   CreateUser 21 (mkInsertUser (lit "RAVI") (lit "pw2") (lit "Ravi M")
                               (lit "ravi.m@example.in")
                               Undefined Undefined Undefined Undefined)].

Definition first_twin : User :=
  mkUser 1 (lit "Ravi") (lit "pw1") (lit "Ravi K") (lit "ravi@example.in")
         Null Null (lit "user") Undefined Undefined 20.

Definition second_twin : User :=
  mkUser 2 (lit "RAVI") (lit "pw2") (lit "Ravi M") (lit "ravi.m@example.in")
         Null Null (lit "user") Undefined Undefined 21.

(** What a listing of orders shows of an order apart from its two
    statuses and the time of its last update. *)
Definition order_identity (o : Order) : Z * Z * Z :=
  (o_id o, o_user_id o, o_created_at o).

(** The records a call adds to the services. *)
Definition services_added (rev : Revision) (c : Call) : nat :=
  match c with
  | GetServices _ =>
      match rev with
      | original => 0
      | revised => List.length Revised.seedCatalog
      end
  | CreateService _ _ => 1
  | _ => 0
  end.

(** The services a new instance starts with. *)
Definition services_at_start (rev : Revision) : nat :=
  match rev with
  | original => List.length Original.seedCatalog
  | revised => 0
  end.

(** A user that is not an ordinary one. *)
Definition elevated (u : User) : bool :=
  negb (str_eqb (u_role u) (lit "user")).

(** A sign-up that takes the name of the test user before
    [initializeTestUser] looks, and calls made afterwards. *)
Definition early_signup : list Call :=
  [CreateUser 20 (mkInsertUser (lit "TestUser") (lit "pw") (lit "T")
                               (lit "t@example.in")
                               Undefined Undefined Undefined Undefined)].

Definition later_calls : list Call :=
  [ResumeInitializeTestUser 30 (lit "h0");
   CreateOrder 31 (mkInsertOrder 1);
   ResumeInitializeTestUser 32 (lit "h1")].

(** The four resumptions that take [initializeTestUser] from its lookup to
    its end; [h1] and [h2] are the two hashed passwords. *)
Definition full_initialization (t0 t1 t2 t3 : Z) (h1 h2 : JsString)
  : list Call :=
  [ResumeInitializeTestUser t0 h1;
   ResumeInitializeTestUser t1 h1;
   ResumeInitializeTestUser t2 h2;
   ResumeInitializeTestUser t3 h2].

(** The calls that resume [initializeTestUser]. *)
Definition is_resume (c : Call) : bool :=
  match c with
  | ResumeInitializeTestUser _ _ => true
  | _ => false
  end.

(** [initializeTestUser] has found the test user, or has not looked yet
    and will find it. *)
Definition test_user_settled (toLowerCase : JsString -> JsString)
           (i : Instance) : Prop :=
  testUserInit i = Finished
  \/ (testUserInit i = Pending
      /\ getUserByUsername toLowerCase (lit "testuser") (store i) <> None).

(** An ordinary user, or the administrator of [initializeTestUser]. *)
Definition ordinary_or_admin (u : User) : Prop :=
  u_role u = lit "user"
  \/ (u_role u = lit "admin" /\ u_username u = lit "admin").

(** What the roles of an instance look like while it runs. *)
Definition roles_ok (i : Instance) : Prop :=
  let stored := JsMap.values (users (store i)) in
  Forall ordinary_or_admin stored
  /\ (List.length (filter elevated stored) <= 1)%nat
  /\ (testUserInit i <> Finished -> filter elevated stored = [])
  /\ match testUserInit i with
     | AdminCreated a => u_username a = lit "admin"
     | _ => True
     end.

(** A user apart from its role, the one field of a stored user that is
    ever written again. *)
Definition user_identity (u : User) : User := set_role u [].

(** The users a call creates, as [step] reports them. *)
Definition created_by (created : option User) : list User :=
  match created with
  | Some u => [u]
  | None => []
  end.

(** The service records a call makes when the service id counter is at
    [id]. *)
Definition services_of_call (rev : Revision) (id : Z) (c : Call)
  : list Service :=
  match c with
  | CreateService now x => [Invariants.service_record id now x]
  | GetServices clock =>
      match rev with
      | original => []
      | revised => Invariants.seeded clock 0 id Revised.seedCatalog
      end
  | _ => []
  end.

(** The service records the calls of a history make, in call order, the
    first under [id]. *)
Fixpoint services_made (rev : Revision) (id : Z) (calls : list Call)
  : list Service :=
  match calls with
  | [] => []
  | c :: rest =>
      services_of_call rev id c
        ++ services_made rev (id + Z.of_nat (services_added rev c)) rest
  end.

(** The services the constructor leaves in the store. *)
Definition services_seeded (rev : Revision) (clock : nat -> Z)
  : list Service :=
  match rev with
  | original => Invariants.seeded clock 0 1 Original.seedCatalog
  | revised => []
  end.

(** The orders the [createOrder] calls of a history place, in call order,
    the first under [id]: the id, the user id and the creation time of
    each. *)
Fixpoint orders_placed (id : Z) (calls : list Call) : list (Z * Z * Z) :=
  match calls with
  | [] => []
  | CreateOrder now io :: rest =>
      (id, io_user_id io, now) :: orders_placed (id + 1) rest
  | _ :: rest => orders_placed id rest
  end.

(** The user [initializeTestUser] holds on to is stored as it holds it. *)
Definition instance_held (i : Instance) : Prop :=
  instance_kept i /\
  match testUserInit i with
  | NormalCreated u | AdminCreated u =>
      JsMap.get (u_id u) (users (store i)) = Some u
  | _ => True
  end.

End Histories.

(* ================================================================== *)
(** ** A session with the profile card *)
(* ================================================================== *)

Module Interaction.

Import Dom ProfileCard.

(** The events of a session handled one after the other; the effects are
    those of the handlers, in order. *)
Fixpoint play (c : Component) (events : list Event)
  : Component * list Effect :=
  match events with
  | [] => (c, [])
  | e :: rest =>
      let (c1, effects) := handle c e in
      let (c2, more) := play c1 rest in
      (c2, effects ++ more)
  end.

Definition is_change (e : Event) : bool :=
  match e with
  | ChangeName _ | ChangeEmail _ | ChangePhone _ => true
  | _ => false
  end.

Definition is_save (e : Event) : bool :=
  match e with
  | ClickSave _ => true
  | _ => false
  end.

(** The strings that come into the card are strings of the language. *)
Definition event_well_formed (e : Event) : bool :=
  match e with
  | ChangeName v | ChangeEmail v | ChangePhone v => well_formed v
  | _ => true
  end.

Definition user_well_formed (user : option User) : bool :=
  match user with
  | None => true
  | Some u =>
      well_formed (u_name u) && well_formed (u_email u)
      && match u_phone u with
         | Value p => well_formed p
         | _ => true
         end
  end.

Definition form_well_formed (f : FormData) : bool :=
  well_formed (name f) && well_formed (email f) && well_formed (phone f).

(** The members [JSON.stringify] writes for a form. *)
Definition form_members (f : FormData) : list (JsString * JsString) :=
  [(lit "name", name f); (lit "email", email f); (lit "phone", phone f)].

(** A text without control characters: every unit is a space or above. *)
Definition printable (s : JsString) : Prop :=
  Forall (fun c => (32 <= c)%N) s.

(** Two forms that differ in the phone only. *)
Definition form_one : FormData :=
  mkFormData (lit "Asha") (lit "asha@example.in") (lit "98765").

Definition form_two : FormData :=
  mkFormData (lit "Asha") (lit "asha@example.in") (lit "98766").

(** A short session: Edit, then a name and a phone are typed. *)
Definition typing_session : list Event :=
  [ClickEdit; ChangeName (lit "Asha"); ChangePhone (lit "98765")].

(** The same, ended by a Save that succeeds. *)
Definition saved_session : list Event :=
  typing_session ++ [ClickSave (Response true)].

End Interaction.

(* ================================================================== *)
(** * Properties *)
(* ================================================================== *)

(** ** Strings *)

Lemma str_eqb_eq (a b : JsString) : str_eqb a b = true <-> a = b.
Proof.
  revert b; induction a as [|x a IH]; intros [|y b]; simpl;
    try (split; [discriminate | congruence]); try tauto.
  rewrite andb_true_iff, N.eqb_eq, IH.
  split; [intros [-> ->]; reflexivity | intros H; inversion H; auto].
Qed.

(** ** Maps *)

Section MapFacts.

Context {V : Type}.
Implicit Types (m : JsMap.t V) (k : Z) (v : V).

Lemma get_None_keys m k : JsMap.get k m = None <-> ~ In k (JsMap.keys m).
Proof.
  induction m as [|[k' v'] m IH]; simpl; [tauto|].
  destruct (Z.eqb_spec k k') as [->|Hne].
  - split; [discriminate | intros H; exfalso; apply H; auto].
  - rewrite IH. split; [intros H [E|I]; [congruence | auto] | tauto].
Qed.

Lemma get_Some_In m k v : JsMap.get k m = Some v -> In (k, v) m.
Proof.
  induction m as [|[k' v'] m IH]; simpl; [discriminate|].
  destruct (Z.eqb_spec k k') as [->|Hne].
  - intros [= ->]; auto.
  - auto.
Qed.

(** A new key is appended. *)
Lemma set_fresh m k v :
  JsMap.get k m = None -> JsMap.set k v m = m ++ [(k, v)].
Proof.
  induction m as [|[k' v'] m IH]; simpl; [reflexivity|].
  destruct (Z.eqb_spec k k'); [discriminate|].
  intros H; rewrite IH by assumption; reflexivity.
Qed.

Lemma get_set_other m k k' v :
  k' <> k -> JsMap.get k' (JsMap.set k v m) = JsMap.get k' m.
Proof.
  intros Hne; induction m as [|[k0 v0] m IH]; simpl.
  - destruct (Z.eqb_spec k' k); [contradiction | reflexivity].
  - destruct (Z.eqb_spec k k0) as [->|Hk]; simpl.
    + destruct (Z.eqb_spec k' k0); [contradiction | reflexivity].
    + rewrite IH; reflexivity.
Qed.

Lemma set_Forall (P : Z * V -> Prop) m k v :
  Forall P m -> P (k, v) -> Forall P (JsMap.set k v m).
Proof.
  intros Hm Hp; induction Hm as [|[k' v'] m Hx Hm IH]; simpl.
  - constructor; [assumption | constructor].
  - destruct (k =? k'); constructor; assumption.
Qed.

Lemma In_keys_set m k k' v :
  In k' (JsMap.keys (JsMap.set k v m)) <-> k' = k \/ In k' (JsMap.keys m).
Proof.
  induction m as [|[k0 v0] m IH]; simpl.
  - intuition.
  - destruct (Z.eqb_spec k k0) as [->|Hk]; simpl.
    + intuition.
    + rewrite IH; intuition.
Qed.

Lemma set_NoDup m k v :
  NoDup (JsMap.keys m) -> NoDup (JsMap.keys (JsMap.set k v m)).
Proof.
  induction m as [|[k0 v0] m IH]; simpl; intros H.
  - constructor; [intros [] | constructor].
  - inversion H as [|? ? Hin Hnd]; subst.
    destruct (Z.eqb_spec k k0) as [->|Hk]; simpl.
    + constructor; assumption.
    + constructor; [|auto].
      rewrite In_keys_set. intros [E|I]; [congruence | contradiction].
Qed.

End MapFacts.

(** ** Well-formed maps *)

Section WellFormed.

Import Invariants.

Lemma In_get {V} (m : JsMap.t V) k v :
  NoDup (JsMap.keys m) -> In (k, v) m -> JsMap.get k m = Some v.
Proof.
  induction m as [|[k' v'] m IH]; simpl; [tauto|].
  intros Hnd [E|Hin]; inversion Hnd as [|? ? Hnotin Hnd']; subst.
  - injection E as -> ->. rewrite Z.eqb_refl; reflexivity.
  - destruct (Z.eqb_spec k k') as [->|Hne]; [|auto].
    exfalso. apply Hnotin. apply in_map_iff. exists (k', v); auto.
Qed.

(** In a well-formed map the stored records are found under their ids. *)
Lemma entries_ok_lookup {V} (id_of : V -> Z) (m : JsMap.t V) counter v :
  entries_ok id_of m counter ->
  (In v (JsMap.values m) <-> JsMap.get (id_of v) m = Some v).
Proof.
  intros [Hall Hnd]. split.
  - intros Hin. apply in_map_iff in Hin. destruct Hin as ([k v'] & E & Hin).
    simpl in E; subst v'. apply In_get; [assumption|].
    rewrite Forall_forall in Hall. destruct (Hall _ Hin) as [E _].
    simpl in E. rewrite E. exact Hin.
  - intros Hget. apply get_Some_In in Hget.
    apply in_map_iff. exists (id_of v, v); auto.
Qed.

Lemma entries_ok_get_id {V} (id_of : V -> Z) (m : JsMap.t V) counter k v :
  entries_ok id_of m counter ->
  JsMap.get k m = Some v -> id_of v = k /\ k < counter.
Proof.
  intros [Hall _] Hget. apply get_Some_In in Hget.
  rewrite Forall_forall in Hall. apply (Hall _ Hget).
Qed.

(** Storing a record under the counter and moving the counter on. *)
Lemma entries_ok_create {V} (id_of : V -> Z) (m : JsMap.t V) counter v :
  entries_ok id_of m counter -> id_of v = counter ->
  entries_ok id_of (JsMap.set counter v m) (counter + 1).
Proof.
  intros [Hall Hnd] Hid; split.
  - apply set_Forall; simpl; [|lia].
    eapply Forall_impl; [|exact Hall]. simpl; intros kv [? ?]; lia.
  - apply set_NoDup; assumption.
Qed.

(** Replacing a record by one with the same id. *)
Lemma entries_ok_replace {V} (id_of : V -> Z) (m : JsMap.t V) counter k v :
  entries_ok id_of m counter -> id_of v = k -> k < counter ->
  entries_ok id_of (JsMap.set k v m) counter.
Proof.
  intros [Hall Hnd] Hid Hlt; split.
  - apply set_Forall; simpl; auto.
  - apply set_NoDup; assumption.
Qed.

Lemma entries_ok_ids_NoDup {V} (id_of : V -> Z) (m : JsMap.t V) counter :
  entries_ok id_of m counter -> NoDup (map id_of (JsMap.values m)).
Proof.
  intros [Hall Hnd].
  replace (map id_of (JsMap.values m)) with (JsMap.keys m); [assumption|].
  unfold JsMap.keys, JsMap.values. rewrite map_map.
  apply map_ext_in. intros kv Hin.
  rewrite Forall_forall in Hall. symmetry; apply (Hall kv Hin).
Qed.

Lemma entries_ok_ids_below {V} (id_of : V -> Z) (m : JsMap.t V) counter :
  entries_ok id_of m counter ->
  Forall (fun v => id_of v < counter) (JsMap.values m).
Proof.
  intros [Hall _]. unfold JsMap.values. rewrite Forall_map.
  eapply Forall_impl; [|exact Hall]. simpl; intros kv [-> ?]; assumption.
Qed.

(** The counter of a well-formed map is not one of its keys. *)
Lemma entries_ok_counter_fresh {V} (id_of : V -> Z) (m : JsMap.t V) counter :
  entries_ok id_of m counter -> JsMap.get counter m = None.
Proof.
  intros [Hall _]. apply get_None_keys. intros Hin.
  apply in_map_iff in Hin. destruct Hin as (kv & Hk & Hin).
  rewrite Forall_forall in Hall. specialize (Hall kv Hin). lia.
Qed.

End WellFormed.

(** ** User ids *)

Section UserIds.

Import Storage Server Invariants.

Lemma createUser_ok now iu st :
  users_ok st -> users_ok (snd (createUser now iu st)).
Proof. intros Hok. apply entries_ok_create; [exact Hok | reflexivity]. Qed.

Lemma replaceWithAdminRole_ok a st :
  users_ok st -> created_before st a -> users_ok (replaceWithAdminRole a st).
Proof.
  intros Hok Ha. apply entries_ok_replace; [exact Hok | reflexivity | exact Ha].
Qed.

Lemma createService_users now s st :
  users (snd (createService now s st)) = users st /\
  userIdCounter (snd (createService now s st)) = userIdCounter st.
Proof. split; reflexivity. Qed.

Lemma createServices_users clock l : forall n st,
  users (snd (createServices clock n l st)) = users st /\
  userIdCounter (snd (createServices clock n l st)) = userIdCounter st.
Proof.
  induction l as [|s l IH]; intros n st; simpl; [auto|].
  destruct (createServices clock (S n) l _) as [ss st2] eqn:E.
  specialize (IH (S n) (snd (createService (clock n) s st))).
  simpl in IH. rewrite E in IH. exact IH.
Qed.

Lemma getServices_users clock st :
  users (snd (Revised.getServices clock st)) = users st /\
  userIdCounter (snd (Revised.getServices clock st)) = userIdCounter st.
Proof. unfold Revised.getServices. apply createServices_users. Qed.

Lemma updateOrderStatus_users now id s st :
  users (snd (updateOrderStatus now id s st)) = users st /\
  userIdCounter (snd (updateOrderStatus now id s st)) = userIdCounter st.
Proof.
  unfold updateOrderStatus. destruct (JsMap.get id (orders st)); auto.
Qed.

Lemma updatePaymentStatus_users now id s st :
  users (snd (updatePaymentStatus now id s st)) = users st /\
  userIdCounter (snd (updatePaymentStatus now id s st)) = userIdCounter st.
Proof.
  unfold updatePaymentStatus. destruct (JsMap.get id (orders st)); auto.
Qed.

Lemma users_ok_same st st' :
  users st' = users st /\ userIdCounter st' = userIdCounter st ->
  users_ok st -> users_ok st'.
Proof. unfold users_ok; intros [-> ->]; auto. Qed.

Lemma new_ok rev clock : instance_ok (new rev clock).
Proof.
  split; [|exact I].
  destruct rev; simpl.
  - apply (users_ok_same fresh).
    + apply createServices_users.
    + split; constructor.
  - split; constructor.
Qed.

Variable toLowerCase : JsString -> JsString.

(** What one call does to the user ids: the counter never goes down, the
    invariant is kept, and a user the call created got the old counter as
    its id and moved the counter past it. *)
Lemma step_ok rev i c :
  instance_ok i ->
  let (i', created) := step toLowerCase rev i c in
  instance_ok i' /\
  userIdCounter (store i) <= userIdCounter (store i') /\
  match created with
  | Some u => u_id u = userIdCounter (store i) /\
              userIdCounter (store i') = userIdCounter (store i) + 1
  | None => True
  end.
Proof.
  intros [Hst Hinit].
  assert (Hkeep : forall st',
             users st' = users (store i) /\
             userIdCounter st' = userIdCounter (store i) ->
             instance_ok (mkInstance st' (testUserInit i)) /\
             userIdCounter (store i) <= userIdCounter st' /\ True).
  { intros st' [Hu Hc]. split; [split|split; [|exact I]]; simpl.
    - eapply users_ok_same; eauto.
    - revert Hinit; unfold created_before; rewrite Hc.
      destruct (testUserInit i); auto.
    - lia. }
  assert (Hcreate : forall now iu init',
             match init' with
             | NormalCreated u | AdminCreated u =>
                 u_id u <= userIdCounter (store i)
             | _ => True
             end ->
             let (u, st') := createUser now iu (store i) in
             instance_ok (mkInstance st' init') /\
             userIdCounter (store i) <= userIdCounter st' /\
             u_id u = userIdCounter (store i) /\
             userIdCounter st' = userIdCounter (store i) + 1).
  { intros now iu init' Hinit'. cbv beta iota delta [createUser]; cbv zeta.
    split; [split|]; cbn [store testUserInit].
    - apply (createUser_ok now iu); assumption.
    - unfold created_before; cbn [userIdCounter with_users].
      destruct init'; auto; lia.
    - cbn [userIdCounter with_users u_id]. lia. }
  assert (Hinit_le : match testUserInit i with
                     | NormalCreated u | AdminCreated u =>
                         u_id u <= userIdCounter (store i)
                     | _ => True
                     end).
  { revert Hinit; unfold created_before.
    destruct (testUserInit i); auto; lia. }
  destruct c; unfold step; cbv zeta.
  - (* createUser *)
    apply (Hcreate now insertUser (testUserInit i) Hinit_le).
  - destruct rev.
    + split; [split; assumption | split; [lia | exact I]].
    + pose proof (getServices_users clock (store i)) as Hu.
      destruct (Revised.getServices clock (store i)) as [ss st'].
      apply Hkeep. exact Hu.
  - apply Hkeep, createService_users.
  - apply Hkeep; split; reflexivity.
  - apply Hkeep, updateOrderStatus_users.
  - apply Hkeep, updatePaymentStatus_users.
  - (* initializeTestUser *)
    unfold initializeTestUser.
    destruct (testUserInit i) as [| |u|u|] eqn:E.
    + destruct (getUserByUsername _ _ _);
        (split; [split; [assumption | exact I] | split; [cbn; lia | exact I]]).
    + apply (Hcreate now (testUserData hashed) (NormalCreated _)).
      cbn [createUser fst u_id]. lia.
    + apply (Hcreate now (adminUserData hashed) (AdminCreated _)).
      cbn [createUser fst u_id]. lia.
    + split; [split; [|exact I] | split; [cbn; lia | exact I]].
      apply replaceWithAdminRole_ok; assumption.
    + split; [split; [assumption | rewrite E; exact I]
             | split; [lia | exact I]].
Qed.

(** Over a sequence of calls the created ids start at the counter and
    increase. *)
Lemma run_ok rev calls : forall i,
  instance_ok i ->
  let (us, i') := run toLowerCase rev i calls in
  instance_ok i' /\
  userIdCounter (store i) <= userIdCounter (store i') /\
  Forall (fun u => userIdCounter (store i) <= u_id u) us /\
  StronglySorted Z.lt (map u_id us).
Proof.
  induction calls as [|c calls IH]; intros i Hi; cbn [run].
  - split; [assumption | split; [lia | split; constructor]].
  - pose proof (step_ok rev i c Hi) as Hs.
    destruct (step toLowerCase rev i c) as [i1 created].
    destruct Hs as (Hi1 & Hle & Hc).
    specialize (IH i1 Hi1).
    destruct (run toLowerCase rev i1 calls) as [us i2].
    destruct IH as (Hi2 & Hle2 & Hall & Hsorted).
    assert (Hall' : Forall (fun u => userIdCounter (store i) <= u_id u) us).
    { eapply Forall_impl; [|exact Hall]. simpl; intros; lia. }
    split; [assumption | split; [lia|]].
    destruct created as [u|]; [|split; assumption].
    destruct Hc as [Hid Hnext]. split.
    + constructor; [lia | assumption].
    + cbn [map]. constructor; [assumption|].
      rewrite Forall_map. eapply Forall_impl; [|exact Hall].
      simpl; intros; lia.
Qed.

End UserIds.

Lemma StronglySorted_lt_NoDup (l : list Z) :
  StronglySorted Z.lt l -> NoDup l.
Proof.
  induction 1 as [|x l Hs IH Hall]; constructor; [|assumption].
  intros Hin. rewrite Forall_forall in Hall.
  specialize (Hall x Hin). lia.
Qed.

(** C1.  Whatever calls are made on a new [MemStorage] of either revision
    (with [initializeTestUser] advancing anywhere in between), the ids of
    the users returned by [createUser] are strictly increasing in call
    order, hence pairwise distinct, and the users in the store have
    pairwise distinct ids. *)
Theorem createUser_ids_increasing_and_unique
  (toLowerCase : JsString -> JsString)
  (rev : Server.Revision) (clock : nat -> Z) (calls : list Server.Call) :
  let (created, i) :=
    Server.run toLowerCase rev (Server.new rev clock) calls in
  StronglySorted Z.lt (map u_id created) /\
  NoDup (map u_id created) /\
  NoDup (map u_id (JsMap.values (Storage.users (Server.store i)))).
Proof.
  pose proof (run_ok toLowerCase rev calls _ (new_ok rev clock)) as H.
  destruct (Server.run toLowerCase rev (Server.new rev clock) calls)
    as [created i].
  destruct H as ([Hok _] & _ & _ & Hsorted).
  repeat split.
  - assumption.
  - apply StronglySorted_lt_NoDup; assumption.
  - apply (entries_ok_ids_NoDup u_id _ _ Hok).
Qed.

Example startup_created_ids :
  map u_id (fst Invariants.after_startup) = [1; 2; 3].
Proof. vm_compute; reflexivity. Qed.

Example startup_roles :
  map (fun u => (u_id u, u_role u))
      (JsMap.values (Storage.users (Server.store
                                      (snd Invariants.after_startup))))
  = [(1, lit "user"); (2, lit "user"); (3, lit "admin")].
Proof. vm_compute; reflexivity. Qed.

(** ** The service catalog *)

Section Catalog.

Import Storage Invariants.

Lemma filter_Subsequence {A} (f : A -> bool) (l : list A) :
  Subsequence (filter f l) l.
Proof.
  induction l as [|x l IH]; simpl; [constructor|].
  destruct (f x); constructor; assumption.
Qed.

Lemma createService_record now x st :
  fst (createService now x st) = service_record (serviceIdCounter st) now x.
Proof. reflexivity. Qed.

(** A new service goes last, under the counter. *)
Lemma createService_appends now x st :
  services_ok st ->
  services (snd (createService now x st)) =
    services st ++ [(serviceIdCounter st,
                     service_record (serviceIdCounter st) now x)].
Proof.
  intros Hok. cbn [createService snd services with_services].
  apply set_fresh. apply (entries_ok_counter_fresh s_id _ _ Hok).
Qed.

Lemma createService_ok now x st :
  services_ok st -> services_ok (snd (createService now x st)).
Proof. intros Hok. apply entries_ok_create; [exact Hok | reflexivity]. Qed.

(** Seeding a list of entries appends their records, in order, under
    consecutive ids, and touches nothing else. *)
Lemma createServices_appends clock entries : forall i st,
  services_ok st ->
  let (created, st') := createServices clock i entries st in
  created = seeded clock i (serviceIdCounter st) entries /\
  services st' = services st ++ map entry_of created /\
  serviceIdCounter st' = serviceIdCounter st + Z.of_nat (List.length entries) /\
  services_ok st' /\
  users st' = users st /\ orders st' = orders st /\
  userIdCounter st' = userIdCounter st /\
  orderIdCounter st' = orderIdCounter st.
Proof.
  induction entries as [|x entries IH]; intros i st Hok.
  - cbn [createServices seeded map List.length Z.of_nat].
    rewrite app_nil_r, Z.add_0_r. repeat split; apply Hok.
  - cbn [createServices].
    pose proof (createService_appends (clock i) x st Hok) as Happ.
    pose proof (createService_ok (clock i) x st Hok) as Hok1.
    pose proof (createService_record (clock i) x st) as Hrec.
    destruct (createService (clock i) x st) as [s st1] eqn:E1.
    assert (Hc1 : serviceIdCounter st1 = serviceIdCounter st + 1)
      by (injection E1 as _ <-; reflexivity).
    assert (Hrest : users st1 = users st /\ orders st1 = orders st /\
                    userIdCounter st1 = userIdCounter st /\
                    orderIdCounter st1 = orderIdCounter st)
      by (injection E1 as _ <-; repeat split).
    cbn [fst snd] in *.
    specialize (IH (S i) st1 Hok1).
    destruct (createServices clock (S i) entries st1) as [ss st2].
    destruct IH as (Hss & Hsv & Hc & Hok2 & Hu & Ho & Huc & Hoc).
    destruct Hrest as (Hu1 & Ho1 & Huc1 & Hoc1).
    cbn [seeded map].
    split; [rewrite Hss, Hc1, Hrec; reflexivity|].
    split.
    { rewrite Hsv, Happ, <- app_assoc. cbn [app].
      rewrite Hrec. reflexivity. }
    split; [rewrite Hc, Hc1; cbn [List.length]; lia|].
    split; [assumption|].
    repeat split; congruence.
Qed.

Lemma fresh_services_ok : services_ok fresh.
Proof. split; constructor. Qed.

Lemma values_entries (l : list Service) :
  JsMap.values (map entry_of l) = l.
Proof.
  unfold JsMap.values. rewrite map_map. simpl. apply map_id.
Qed.

Lemma seeded_ids_sorted clock entries : forall i id,
  StronglySorted Z.lt (map s_id (seeded clock i id entries)) /\
  Forall (fun s => id <= s_id s) (seeded clock i id entries).
Proof.
  induction entries as [|x entries IH]; intros i id; cbn [seeded map].
  - split; constructor.
  - destruct (IH (S i) (id + 1)) as [Hs Hall]. split.
    + constructor; [assumption|].
      rewrite Forall_map. eapply Forall_impl; [|exact Hall].
      simpl; intros; lia.
    + constructor; [simpl; lia|].
      eapply Forall_impl; [|exact Hall]. simpl; intros; lia.
Qed.

Lemma seeded_length clock entries : forall i id,
  List.length (seeded clock i id entries) = List.length entries.
Proof.
  induction entries as [|x entries IH]; intros i id; cbn [seeded List.length];
    [reflexivity | rewrite IH; reflexivity].
Qed.

Lemma revised_catalog_length : List.length Revised.seedCatalog = 11%nat.
Proof. vm_compute; reflexivity. Qed.

Lemma filter_StronglySorted (f : Service -> bool) l :
  StronglySorted Z.lt (map s_id l) ->
  StronglySorted Z.lt (map s_id (filter f l)).
Proof.
  induction l as [|x l IH]; simpl; intros H; [constructor|].
  inversion H as [|? ? Hs Hall]; subst.
  destruct (f x); simpl; [|auto].
  constructor; [auto|].
  rewrite Forall_map in *. rewrite Forall_forall in *.
  intros y Hy. apply Hall. apply filter_In in Hy. tauto.
Qed.

End Catalog.

(** C2.  [getServicesByCategory c] returns the stored services of category
    [c], no others and none missing, in the order of the store; and the
    store of a new instance of the original revision holds the records of
    the seed catalog in catalog order, under the ids 1, 2, ..., so the
    result is the matching part of the seeded records, in the order they
    were inserted (which is also the order of their ids). *)
Theorem getServicesByCategory_exact_in_insertion_order (c : JsString) :
  (forall st,
      let result := Storage.getServicesByCategory c st in
      (forall s, In s result <->
                 In s (JsMap.values (Storage.services st))
                 /\ s_category s = c)
      /\ Invariants.Subsequence result (JsMap.values (Storage.services st)))
  /\
  (forall clock,
      let st := Original.constructor clock in
      let inserted := Invariants.seeded clock 0 1 Original.seedCatalog in
      JsMap.values (Storage.services st) = inserted
      /\ Storage.getServicesByCategory c st =
           filter (fun s => str_eqb (s_category s) c) inserted
      /\ StronglySorted Z.lt
           (map s_id (Storage.getServicesByCategory c st))).
Proof.
  split.
  - intros st result; split.
    + intros s. unfold result, Storage.getServicesByCategory.
      rewrite filter_In, str_eqb_eq. reflexivity.
    + apply filter_Subsequence.
  - intros clock st inserted.
    assert (Hv : JsMap.values (Storage.services st) = inserted).
    { unfold st, Original.constructor, Original.initializeServices.
      pose proof (createServices_appends clock Original.seedCatalog 0
                    Storage.fresh fresh_services_ok) as H.
      destruct (Storage.createServices clock 0 Original.seedCatalog
                  Storage.fresh) as [created st'].
      destruct H as (Hc & Hs & _). cbn [snd].
      rewrite Hs, Hc. change (Storage.services Storage.fresh) with
        (@nil (Z * Service)).
      cbn [app]. apply values_entries. }
    split; [exact Hv|].
    unfold Storage.getServicesByCategory. rewrite Hv.
    split; [reflexivity|].
    apply filter_StronglySorted, seeded_ids_sorted.
Qed.

(** ** The revised [getServices] *)

Section Reseeding.

Import Storage Server Invariants.

Lemma services_ok_same st st' :
  services st' = services st /\ serviceIdCounter st' = serviceIdCounter st ->
  services_ok st -> services_ok st'.
Proof. unfold services_ok; intros [-> ->]; auto. Qed.

Lemma getServices_appends clock st :
  services_ok st ->
  let (created, st') := Revised.getServices clock st in
  created = seeded clock 0 (serviceIdCounter st) Revised.seedCatalog /\
  services st' = services st ++ map entry_of created /\
  serviceIdCounter st' =
    serviceIdCounter st + Z.of_nat (List.length Revised.seedCatalog) /\
  services_ok st' /\
  users st' = users st /\ orders st' = orders st /\
  userIdCounter st' = userIdCounter st /\
  orderIdCounter st' = orderIdCounter st.
Proof.
  intros Hok.
  exact (createServices_appends clock Revised.seedCatalog 0 st Hok).
Qed.

Lemma getServices_ok clock st :
  services_ok st -> services_ok (snd (Revised.getServices clock st)).
Proof.
  intros Hok. unfold Revised.getServices.
  pose proof (createServices_appends clock Revised.initializeServices 0
                st Hok) as H.
  destruct (createServices clock 0 Revised.initializeServices st).
  apply H.
Qed.

Lemma updateOrderStatus_services now id s st :
  services (snd (updateOrderStatus now id s st)) = services st /\
  serviceIdCounter (snd (updateOrderStatus now id s st))
    = serviceIdCounter st.
Proof.
  unfold updateOrderStatus. destruct (JsMap.get id (orders st)); auto.
Qed.

Lemma updatePaymentStatus_services now id s st :
  services (snd (updatePaymentStatus now id s st)) = services st /\
  serviceIdCounter (snd (updatePaymentStatus now id s st))
    = serviceIdCounter st.
Proof.
  unfold updatePaymentStatus. destruct (JsMap.get id (orders st)); auto.
Qed.

Lemma new_services_ok rev clock : services_ok (store (new rev clock)).
Proof.
  destruct rev; cbn [new store].
  - unfold Original.constructor, Original.initializeServices.
    pose proof (createServices_appends clock Original.seedCatalog 0
                  fresh fresh_services_ok) as H.
    destruct (createServices clock 0 Original.seedCatalog fresh).
    apply H.
  - exact fresh_services_ok.
Qed.

Variable toLowerCase : JsString -> JsString.

Lemma step_services_ok rev i c :
  services_ok (store i) ->
  services_ok (store (fst (step toLowerCase rev i c))).
Proof.
  intros Hok. destruct c; unfold step; cbv zeta.
  - exact Hok.
  - destruct rev; [exact Hok|]. cbn [fst store].
    apply getServices_ok, Hok.
  - cbn [fst store]. apply createService_ok, Hok.
  - exact Hok.
  - cbn [fst store].
    eapply services_ok_same; [apply updateOrderStatus_services | exact Hok].
  - cbn [fst store].
    eapply services_ok_same; [apply updatePaymentStatus_services | exact Hok].
  - unfold initializeTestUser.
    destruct (testUserInit i); try exact Hok.
    destruct (getUserByUsername _ _ _); exact Hok.
Qed.

Lemma run_services_ok rev calls : forall i,
  services_ok (store i) ->
  services_ok (store (snd (run toLowerCase rev i calls))).
Proof.
  induction calls as [|c calls IH]; intros i Hok; cbn [run].
  - exact Hok.
  - pose proof (step_services_ok rev i c Hok) as H1.
    destruct (step toLowerCase rev i c) as [i1 created]. cbn [fst] in H1.
    specialize (IH i1 H1).
    destruct (run toLowerCase rev i1 calls) as [us i2]. exact IH.
Qed.

End Reseeding.

(** C3, as the code has it.  In the revised module a call to [getServices]
    keeps every stored record where it is and appends one new record per
    entry of the seed catalog (eleven of them), in catalog order, under
    fresh consecutive ids taken from the counter: the catalog's entries
    are stored again, and the ids of the stored records stay pairwise
    distinct. *)
Theorem getServices_revised_appends_catalog_under_fresh_ids
  (toLowerCase : JsString -> JsString)
  (clock0 : nat -> Z) (calls : list Server.Call) (clock : nat -> Z) :
  let st :=
    Server.store
      (snd (Server.run toLowerCase Server.revised
                       (Server.new Server.revised clock0) calls)) in
  let (result, st') := Revised.getServices clock st in
  result = Invariants.seeded clock 0 (Storage.serviceIdCounter st)
                             Revised.seedCatalog
  /\ List.length result = 11%nat
  /\ JsMap.values (Storage.services st') =
       JsMap.values (Storage.services st) ++ result
  /\ Storage.serviceIdCounter st' = Storage.serviceIdCounter st + 11
  /\ Forall (fun s => s_id s < Storage.serviceIdCounter st)
            (JsMap.values (Storage.services st))
  /\ Forall (fun s => Storage.serviceIdCounter st <= s_id s) result
  /\ NoDup (map s_id (JsMap.values (Storage.services st'))).
Proof.
  intros st.
  assert (Hok : Invariants.services_ok st).
  { apply run_services_ok, new_services_ok. }
  pose proof (getServices_appends clock st Hok) as H.
  pose proof (getServices_ok clock st Hok) as Hok'.
  destruct (Revised.getServices clock st) as [result st'].
  destruct H as (Hres & Hsv & Hc & _). cbn [snd] in Hok'.
  split; [exact Hres|].
  split; [rewrite Hres, seeded_length; exact revised_catalog_length|].
  split; [rewrite Hsv; unfold JsMap.values at 1;
          rewrite map_app; fold (JsMap.values (map Invariants.entry_of result));
          rewrite values_entries; reflexivity|].
  split; [rewrite Hc, revised_catalog_length; reflexivity|].
  split; [apply (entries_ok_ids_below s_id _ _ Hok)|].
  split; [rewrite Hres; apply seeded_ids_sorted|].
  apply (entries_ok_ids_NoDup s_id _ _ Hok').
Qed.

(** C3, as the spec words it, fails on the store left by a first call: the
    second call keeps the eleven records of the first and the ids of the
    twenty-two stored records are pairwise distinct. *)
Lemma getServices_revised_neither_discards_nor_duplicates_ids :
  ~ Invariants.getServices_discards_and_duplicates_ids
      (fun _ => 0) Invariants.seeded_once.
Proof.
  unfold Invariants.getServices_discards_and_duplicates_ids.
  assert (Hok : Invariants.services_ok Invariants.seeded_once)
    by apply getServices_ok, fresh_services_ok.
  pose proof (getServices_ok (fun _ => 0) _ Hok) as Hok'.
  destruct (Revised.getServices (fun _ => 0) Invariants.seeded_once)
    as [result st'].
  intros (_ & _ & Hdup). apply Hdup.
  apply (entries_ok_ids_NoDup s_id _ _ Hok').
Qed.

Example getServices_revised_twice_ids :
  map s_id (JsMap.values (Storage.services
     (snd (Revised.getServices (fun _ => 0) Invariants.seeded_once)))) =
  [1; 2; 3; 4; 5; 6; 7; 8; 9; 10; 11;
   12; 13; 14; 15; 16; 17; 18; 19; 20; 21; 22].
Proof. vm_compute; reflexivity. Qed.

Example getServices_revised_twice_keeps_first :
  firstn 11 (JsMap.values (Storage.services
     (snd (Revised.getServices (fun _ => 0) Invariants.seeded_once)))) =
  JsMap.values (Storage.services Invariants.seeded_once).
Proof. vm_compute; reflexivity. Qed.

Example revised_store_starts_empty :
  Storage.services Revised.constructor = [].
Proof. reflexivity. Qed.

Example original_travel_services :
  map s_id (Storage.getServicesByCategory (lit "Travel")
              (Original.constructor (fun _ => 0))) = [6; 30].
Proof. vm_compute; reflexivity. Qed.

Example original_category_is_case_sensitive :
  Storage.getServicesByCategory (lit "travel")
    (Original.constructor (fun _ => 0)) = [].
Proof. vm_compute; reflexivity. Qed.

(** ** Lookups by username and by e-mail *)

Section Lookups.

Import Storage Invariants.

Variable toLowerCase : JsString -> JsString.

(** [find] with a test that decides [P]: it answers with the first element
    satisfying [P], and with nothing exactly when no element does. *)
Lemma find_decides {A} (f : A -> bool) (P : A -> Prop) (l : list A) :
  (forall x, f x = true <-> P x) ->
  ((exists x, find f l = Some x) <-> (exists x, In x l /\ P x)) /\
  (forall x, find f l = Some x -> In x l /\ P x).
Proof.
  intros Hf.
  assert (Hsome : forall x, find f l = Some x -> In x l /\ P x).
  { intros x Hx. apply find_some in Hx. rewrite <- Hf. exact Hx. }
  split; [split|exact Hsome].
  - intros [x Hx]. exists x. auto.
  - intros (x & Hin & Hp). destruct (find f l) as [y|] eqn:E.
    + exists y; reflexivity.
    + exfalso. apply Hf in Hp.
      pose proof (find_none f l E x Hin) as Hn. congruence.
Qed.

End Lookups.

(** C8.  [getUserByUsername q] returns a user exactly when some stored
    user's username equals [q] up to letter case, and the user it returns
    is a stored user whose username equals [q] up to letter case; the same
    holds of [getUserByEmail] and the e-mail. *)
Theorem getUserBy_case_insensitive
  (toLowerCase : JsString -> JsString) (q : JsString)
  (st : Storage.MemStorage) :
  let stored := JsMap.values (Storage.users st) in
  let same := Invariants.equal_ignoring_case toLowerCase in
  (((exists u, Storage.getUserByUsername toLowerCase q st = Some u) <->
    (exists u, In u stored /\ same (u_username u) q))
   /\ (forall u, Storage.getUserByUsername toLowerCase q st = Some u ->
                 In u stored /\ same (u_username u) q))
  /\
  (((exists u, Storage.getUserByEmail toLowerCase q st = Some u) <->
    (exists u, In u stored /\ same (u_email u) q))
   /\ (forall u, Storage.getUserByEmail toLowerCase q st = Some u ->
                 In u stored /\ same (u_email u) q)).
Proof.
  intros stored same. split.
  - apply (find_decides _ (fun u => same (u_username u) q)).
    intros u. apply str_eqb_eq.
  - apply (find_decides _ (fun u => same (u_email u) q)).
    intros u. apply str_eqb_eq.
Qed.

Example lookup_ignores_case :
  let st := Server.store (snd Invariants.after_startup) in
  option_map u_id (Storage.getUserByUsername ascii_toLowerCase
                                             (lit "ADMIN") st) = Some 3
  /\ option_map u_id (Storage.getUserByEmail ascii_toLowerCase
                                             (lit "Ravi@Example.IN") st)
     = Some 2
  /\ Storage.getUserByUsername ascii_toLowerCase (lit "nobody") st = None.
Proof. vm_compute; repeat split; reflexivity. Qed.

(** ** Orders *)

Section Orders.

Import Storage Server Invariants.

Lemma createOrder_ok now io st :
  orders_ok st -> orders_ok (snd (createOrder now io st)).
Proof. intros Hok. apply entries_ok_create; [exact Hok | reflexivity]. Qed.

Lemma updateOrderStatus_ok now id status st :
  orders_ok st -> orders_ok (snd (updateOrderStatus now id status st)).
Proof.
  intros Hok. unfold updateOrderStatus.
  destruct (JsMap.get id (orders st)) as [o|] eqn:E; [|exact Hok].
  destruct (entries_ok_get_id _ _ _ _ _ Hok E) as [Hid Hlt].
  apply entries_ok_replace; [exact Hok | exact Hid | exact Hlt].
Qed.

Lemma updatePaymentStatus_ok now id status st :
  orders_ok st -> orders_ok (snd (updatePaymentStatus now id status st)).
Proof.
  intros Hok. unfold updatePaymentStatus.
  destruct (JsMap.get id (orders st)) as [o|] eqn:E; [|exact Hok].
  destruct (entries_ok_get_id _ _ _ _ _ Hok E) as [Hid Hlt].
  apply entries_ok_replace; [exact Hok | exact Hid | exact Hlt].
Qed.

Lemma createServices_orders clock l : forall n st,
  orders (snd (createServices clock n l st)) = orders st /\
  orderIdCounter (snd (createServices clock n l st)) = orderIdCounter st.
Proof.
  induction l as [|s l IH]; intros n st; simpl; [auto|].
  destruct (createServices clock (S n) l _) as [ss st2] eqn:E.
  specialize (IH (S n) (snd (createService (clock n) s st))).
  simpl in IH. rewrite E in IH. exact IH.
Qed.

Lemma getServices_orders clock st :
  orders (snd (Revised.getServices clock st)) = orders st /\
  orderIdCounter (snd (Revised.getServices clock st)) = orderIdCounter st.
Proof. exact (createServices_orders clock Revised.seedCatalog 0 st). Qed.

Lemma orders_ok_same st st' :
  orders st' = orders st /\ orderIdCounter st' = orderIdCounter st ->
  orders_ok st -> orders_ok st'.
Proof. unfold orders_ok; intros [-> ->]; auto. Qed.

Lemma new_orders_ok rev clock : orders_ok (store (new rev clock)).
Proof.
  destruct rev; cbn [new store].
  - apply (orders_ok_same fresh).
    + exact (createServices_orders clock Original.seedCatalog 0 fresh).
    + split; constructor.
  - split; constructor.
Qed.

Variable toLowerCase : JsString -> JsString.

Lemma step_orders_ok rev i c :
  orders_ok (store i) ->
  orders_ok (store (fst (step toLowerCase rev i c))).
Proof.
  intros Hok. destruct c; unfold step; cbv zeta.
  - exact Hok.
  - destruct rev; [exact Hok|]. cbn [fst store].
    eapply orders_ok_same; [apply getServices_orders | exact Hok].
  - exact Hok.
  - cbn [fst store]. apply createOrder_ok, Hok.
  - cbn [fst store]. apply updateOrderStatus_ok, Hok.
  - cbn [fst store]. apply updatePaymentStatus_ok, Hok.
  - unfold initializeTestUser.
    destruct (testUserInit i); try exact Hok.
    destruct (getUserByUsername _ _ _); exact Hok.
Qed.

Lemma run_orders_ok rev calls : forall i,
  orders_ok (store i) ->
  orders_ok (store (snd (run toLowerCase rev i calls))).
Proof.
  induction calls as [|c calls IH]; intros i Hok; cbn [run].
  - exact Hok.
  - pose proof (step_orders_ok rev i c Hok) as H1.
    destruct (step toLowerCase rev i c) as [i1 created]. cbn [fst] in H1.
    specialize (IH i1 H1).
    destruct (run toLowerCase rev i1 calls) as [us i2]. exact IH.
Qed.

(** What [this.orders.set(id, updatedOrder)] does when [id] holds [o]. *)
Lemma set_replaces_order st o o' :
  JsMap.get (o_id o) (orders st) = Some o ->
  replaces_order st o o'
    (Some o', with_orders st (JsMap.set (o_id o) o' (orders st))
                          (orderIdCounter st)).
Proof.
  intros Hget. unfold replaces_order.
  split; [reflexivity|]. split.
  - cbn [orders with_orders].
    clear - Hget. induction (orders st) as [|[k v] m IH]; simpl in *.
    + discriminate.
    + destruct (Z.eqb_spec (o_id o) k) as [<-|Hne].
      * injection Hget as ->. exists [], m; split; reflexivity.
      * destruct (IH Hget) as (b & a & E1 & E2).
        exists ((k, v) :: b), a. simpl. rewrite <- E1, E2.
        split; reflexivity.
  - split; [|repeat split].
    intros id Hne. unfold getOrder; cbn [orders with_orders].
    apply get_set_other; assumption.
Qed.

End Orders.

(** C9.  For an order [o] in the store of an instance, [updateOrderStatus]
    answers with, and stores in the place of [o], the order that differs
    from [o] in [status] and [updated_at] only, and [updatePaymentStatus]
    the one that differs in [payment_status] and [updated_at] only; the
    other orders, the users, the services and the counters are as they
    were. *)
Theorem update_status_changes_only_its_fields
  (toLowerCase : JsString -> JsString)
  (rev : Server.Revision) (clock : nat -> Z) (calls : list Server.Call)
  (o : Order) (now : Z) (status : JsString) :
  let st :=
    Server.store
      (snd (Server.run toLowerCase rev (Server.new rev clock) calls)) in
  In o (Storage.getOrders st) ->
  Invariants.replaces_order st o
    (mkOrder (o_id o) (o_user_id o) status (o_payment_status o)
             (o_created_at o) now)
    (Storage.updateOrderStatus now (o_id o) status st)
  /\
  Invariants.replaces_order st o
    (mkOrder (o_id o) (o_user_id o) (o_status o) status
             (o_created_at o) now)
    (Storage.updatePaymentStatus now (o_id o) status st).
Proof.
  intros st Hin.
  assert (Hok : Invariants.orders_ok st)
    by apply run_orders_ok, new_orders_ok.
  apply (entries_ok_lookup o_id _ _ o Hok) in Hin.
  unfold Storage.updateOrderStatus, Storage.updatePaymentStatus.
  rewrite Hin.
  split; apply set_replaces_order; exact Hin.
Qed.

Lemma update_status_changes_only_its_fields_witness :
  let st :=
    Server.store
      (snd (Server.run ascii_toLowerCase Server.revised
                       (Server.new Server.revised (fun _ => 0))
                       Invariants.one_order_calls)) in
  let o := Invariants.the_one_order in
  In o (Storage.getOrders st)
  /\ Invariants.replaces_order st o
       (mkOrder 1 3 (lit "shipped") (lit "pending") 5 9)
       (Storage.updateOrderStatus 9 1 (lit "shipped") st)
  /\ Invariants.replaces_order st o
       (mkOrder 1 3 (lit "pending") (lit "shipped") 5 9)
       (Storage.updatePaymentStatus 9 1 (lit "shipped") st).
Proof.
  intros st o.
  assert (Hin : In o (Storage.getOrders st)) by (left; reflexivity).
  split; [exact Hin|].
  exact (update_status_changes_only_its_fields
           ascii_toLowerCase Server.revised (fun _ => 0)
           Invariants.one_order_calls o 9 (lit "shipped") Hin).
Defined.

(** C10.  For an id that no stored order has, [updateOrderStatus] and
    [updatePaymentStatus] answer [undefined] and leave the whole store as
    it is. *)
Theorem update_status_of_unknown_id
  (toLowerCase : JsString -> JsString)
  (rev : Server.Revision) (clock : nat -> Z) (calls : list Server.Call)
  (id now : Z) (status : JsString) :
  let st :=
    Server.store
      (snd (Server.run toLowerCase rev (Server.new rev clock) calls)) in
  (forall o, In o (Storage.getOrders st) -> o_id o <> id) ->
  Storage.updateOrderStatus now id status st = (None, st)
  /\ Storage.updatePaymentStatus now id status st = (None, st).
Proof.
  intros st Hnone.
  assert (Hok : Invariants.orders_ok st)
    by apply run_orders_ok, new_orders_ok.
  assert (Hget : JsMap.get id (Storage.orders st) = None).
  { destruct (JsMap.get id (Storage.orders st)) as [o|] eqn:E;
      [|reflexivity].
    exfalso. destruct (entries_ok_get_id _ _ _ _ _ Hok E) as [Hid _].
    apply (Hnone o); [|exact Hid].
    apply get_Some_In in E. apply in_map_iff. exists (id, o); auto. }
  unfold Storage.updateOrderStatus, Storage.updatePaymentStatus.
  rewrite Hget. split; reflexivity.
Qed.

Lemma update_status_of_unknown_id_witness :
  let st :=
    Server.store
      (snd (Server.run ascii_toLowerCase Server.revised
                       (Server.new Server.revised (fun _ => 0))
                       Invariants.one_order_calls)) in
  (forall o, In o (Storage.getOrders st) -> o_id o <> 2)
  /\ Storage.updateOrderStatus 9 2 (lit "shipped") st = (None, st)
  /\ Storage.updatePaymentStatus 9 2 (lit "paid") st = (None, st).
Proof.
  intros st.
  assert (H : forall o, In o (Storage.getOrders st) -> o_id o <> 2).
  { intros o [<-|[]]. simpl. lia. }
  split; [exact H|]. split.
  - exact (proj1 (update_status_of_unknown_id
                    ascii_toLowerCase Server.revised (fun _ => 0)
                    Invariants.one_order_calls 2 9 (lit "shipped") H)).
  - exact (proj2 (update_status_of_unknown_id
                    ascii_toLowerCase Server.revised (fun _ => 0)
                    Invariants.one_order_calls 2 9 (lit "paid") H)).
Defined.

(** ** JSON texts read back *)

Section JsonRoundTrip.

Import Json.

Local Open Scope N_scope.

Ltac split_tests :=
  repeat match goal with
         | |- context [(?a =? ?b)%N] => destruct (N.eqb_spec a b)
         | |- context [(?a <=? ?b)%N] => destruct (N.leb_spec a b)
         | |- context [(?a <? ?b)%N] => destruct (N.ltb_spec a b)
         end.

Lemma hex_value_digit d : d < 16 -> hex_value (hex_digit d) = Some d.
Proof.
  intros Hd. unfold hex_digit.
  destruct (N.ltb_spec d 10); unfold hex_value; split_tests;
    cbn [andb]; try lia; f_equal; lia.
Qed.

Lemma hex4_digits c :
  c < 65536 ->
  hex4 (hex_digit (c / 4096)) (hex_digit ((c / 256) mod 16))
       (hex_digit ((c / 16) mod 16)) (hex_digit (c mod 16)) = Some c.
Proof.
  intros Hc. unfold hex4.
  rewrite !hex_value_digit.
  - f_equal. zify. Z.to_euclidean_division_equations. lia.
  - apply N.mod_lt; discriminate.
  - apply N.mod_lt; discriminate.
  - apply N.mod_lt; discriminate.
  - apply N.Div0.div_lt_upper_bound; lia.
Qed.

Lemma read_escape c t :
  c < 65536 ->
  read_chars (UnicodeEscape c ++ t) = prepend c (read_chars t).
Proof.
  intros Hc. unfold UnicodeEscape. cbn [app read_chars].
  change (reverse_solidus =? quotation_mark) with false.
  change (reverse_solidus =? reverse_solidus) with true.
  change (117 =? 117) with true. cbv iota.
  rewrite hex4_digits by assumption. reflexivity.
Qed.

(** A unit that needs no escape is read as itself. *)
Lemma read_plain c t :
  32 <= c -> c <> 34 -> c <> 92 ->
  read_chars (c :: t) = prepend c (read_chars t).
Proof.
  intros H32 H34 H92. cbn [read_chars].
  unfold quotation_mark, reverse_solidus.
  destruct (N.eqb_spec c 34); [contradiction|].
  destruct (N.eqb_spec c 92); [contradiction|].
  destruct (N.ltb_spec c 32); [lia | reflexivity].
Qed.

Lemma read_unit c t :
  c < 65536 ->
  read_chars (quote_unit c ++ t) = prepend c (read_chars t).
Proof.
  intros Hc. unfold quote_unit.
  destruct (N.eqb_spec c 8) as [->|]; [reflexivity|].
  destruct (N.eqb_spec c 9) as [->|]; [reflexivity|].
  destruct (N.eqb_spec c 10) as [->|]; [reflexivity|].
  destruct (N.eqb_spec c 12) as [->|]; [reflexivity|].
  destruct (N.eqb_spec c 13) as [->|]; [reflexivity|].
  destruct (N.eqb_spec c 34) as [->|]; [reflexivity|].
  destruct (N.eqb_spec c 92) as [->|]; [reflexivity|].
  destruct (N.ltb_spec c 32).
  - apply read_escape; assumption.
  - apply read_plain; assumption.
Qed.

(** The units of a string, two at a time. *)
Lemma pairwise_ind {A} (P : list A -> Prop) :
  P [] -> (forall a, P [a]) ->
  (forall a b l, P l -> P (b :: l) -> P (a :: b :: l)) ->
  forall l, P l.
Proof.
  intros H0 H1 H2 l.
  assert (H : P l /\ forall a, P (a :: l)); [|apply H].
  induction l as [|b l [IH1 IH2]]; split; auto.
Qed.

Lemma well_formed_cons c s :
  well_formed (c :: s) = true <-> c < 65536 /\ well_formed s = true.
Proof.
  unfold well_formed; cbn [forallb]. rewrite andb_true_iff.
  unfold code_unit. rewrite N.ltb_lt. reflexivity.
Qed.

Lemma surrogate_is_plain c :
  is_leading_surrogate c = true \/ is_trailing_surrogate c = true ->
  32 <= c /\ c <> 34 /\ c <> 92.
Proof.
  unfold is_leading_surrogate, is_trailing_surrogate.
  rewrite !andb_true_iff, !N.leb_le. lia.
Qed.

Lemma quote_units_step c d s :
  quote_units (c :: d :: s) =
    if is_leading_surrogate c then
      if is_trailing_surrogate d then c :: d :: quote_units s
      else UnicodeEscape c ++ quote_units (d :: s)
    else if is_trailing_surrogate c
         then UnicodeEscape c ++ quote_units (d :: s)
         else quote_unit c ++ quote_units (d :: s).
Proof. reflexivity. Qed.

(** The quoted units of a string, read up to the closing mark, give the
    string back. *)
Lemma read_quote_units s : forall t,
  well_formed s = true ->
  read_chars (quote_units s ++ quotation_mark :: t) = Some (s, t).
Proof.
  induction s as [|c|c d s IH1 IH2] using pairwise_ind; intros t Hwf.
  - reflexivity.
  - apply well_formed_cons in Hwf. destruct Hwf as [Hc _].
    cbn [quote_units].
    destruct (is_leading_surrogate c);
      [|destruct (is_trailing_surrogate c)];
      rewrite ?app_nil_r, <- ?app_assoc;
      (rewrite read_escape by assumption) || (rewrite read_unit by assumption);
      reflexivity.
  - pose proof Hwf as Hwf'.
    apply well_formed_cons in Hwf. destruct Hwf as [Hc Hds].
    pose proof Hds as Hds'.
    apply well_formed_cons in Hds. destruct Hds as [Hd Hs].
    rewrite quote_units_step.
    destruct (is_leading_surrogate c) eqn:Elead.
    + destruct (is_trailing_surrogate d) eqn:Etrail.
      * cbn [app].
        destruct (surrogate_is_plain c (or_introl Elead)) as (? & ? & ?).
        destruct (surrogate_is_plain d (or_intror Etrail)) as (? & ? & ?).
        rewrite !read_plain by assumption.
        rewrite IH1 by assumption. reflexivity.
      * rewrite <- app_assoc, read_escape by assumption.
        rewrite IH2 by assumption. reflexivity.
    + destruct (is_trailing_surrogate c).
      * rewrite <- app_assoc, read_escape by assumption.
        rewrite IH2 by assumption. reflexivity.
      * rewrite <- app_assoc, read_unit by assumption.
        rewrite IH2 by assumption. reflexivity.
Qed.

Lemma read_QuoteJSONString s t :
  well_formed s = true ->
  read_string (QuoteJSONString s ++ t) = Some (s, t).
Proof.
  intros Hwf. unfold QuoteJSONString, read_string. cbn [app].
  change (quotation_mark =? quotation_mark) with true. cbv iota.
  rewrite <- app_assoc. cbn [app]. apply read_quote_units, Hwf.
Qed.

Lemma read_member_serialized k v t :
  well_formed k = true -> well_formed v = true ->
  read_member (QuoteJSONString k ++ 58 :: QuoteJSONString v ++ t)
  = Some ((k, v), t).
Proof.
  intros Hk Hv. unfold read_member.
  rewrite read_QuoteJSONString by assumption.
  change (58 =? 58) with true. cbv iota.
  rewrite read_QuoteJSONString by assumption. reflexivity.
Qed.

Lemma members_well_formed_cons k v more :
  members_well_formed ((k, v) :: more) = true <->
  well_formed k = true /\ well_formed v = true
  /\ members_well_formed more = true.
Proof.
  unfold members_well_formed; cbn [forallb fst snd].
  rewrite !andb_true_iff. tauto.
Qed.

Lemma read_members_serialized more : forall k v fuel t,
  well_formed k = true -> well_formed v = true ->
  members_well_formed more = true ->
  (List.length more < fuel)%nat ->
  read_members fuel
    (QuoteJSONString k ++ 58 :: QuoteJSONString v
       ++ serialize_more more ++ 125 :: t)
  = Some ((k, v) :: more, t).
Proof.
  induction more as [|[k' v'] more IH]; intros k v fuel t Hk Hv Hm Hfuel;
    (destruct fuel as [|fuel]; [inversion Hfuel|]); cbn [read_members].
  - cbn [serialize_more app].
    rewrite read_member_serialized by assumption. reflexivity.
  - apply members_well_formed_cons in Hm. destruct Hm as (Hk' & Hv' & Hm).
    cbn [serialize_more].
    replace ((44 :: QuoteJSONString k' ++ 58 :: QuoteJSONString v'
                 ++ serialize_more more) ++ 125 :: t)
      with (44 :: QuoteJSONString k' ++ 58 :: QuoteJSONString v'
               ++ serialize_more more ++ 125 :: t).
    2:{ cbn [app]. f_equal. rewrite <- app_assoc. cbn [app].
        rewrite <- app_assoc. reflexivity. }
    rewrite read_member_serialized by assumption.
    change (44 =? 44) with true. cbv iota.
    rewrite IH; [reflexivity | assumption.. |].
    cbn [List.length] in Hfuel. lia.
Qed.

Lemma serialize_more_length more :
  (List.length more <= List.length (serialize_more more))%nat.
Proof.
  induction more as [|[k v] more IH]; cbn [serialize_more List.length];
    [lia|].
  rewrite !length_app. cbn [List.length]. rewrite length_app. lia.
Qed.

(** Reading a serialized object gives its members back. *)
Lemma read_SerializeJSONObject members :
  members_well_formed members = true ->
  read_object (SerializeJSONObject members) = Some members.
Proof.
  destruct members as [|[k v] more]; intros Hm; [reflexivity|].
  apply members_well_formed_cons in Hm. destruct Hm as (Hk & Hv & Hm).
  cbn [SerializeJSONObject read_object].
  change (123 =? 123) with true. cbv iota.
  remember (QuoteJSONString k ++ 58 :: QuoteJSONString v
              ++ serialize_more more ++ [125]) as text eqn:Etext.
  assert (Hlen : (List.length more + 2 <= List.length text)%nat).
  { rewrite Etext, length_app. cbn [List.length].
    rewrite !length_app. cbn [List.length].
    pose proof (serialize_more_length more). lia. }
  assert (Hread : read_members (List.length text) text = Some ((k, v) :: more, [])).
  { rewrite Etext at 2. apply read_members_serialized; try assumption. lia. }
  destruct text as [|a [|b text']]; cbn [List.length] in Hlen; try lia.
  rewrite Hread. reflexivity.
Qed.

End JsonRoundTrip.

(** ** ProfileCard *)

(** [Save Changes] is on the card exactly in edit mode. *)
Lemma save_is_offered_in_edit_mode (c : ProfileCard.Component) :
  In ProfileCard.SaveChanges (ProfileCard.buttons (ProfileCard.render c))
  <-> ProfileCard.isEditing c = true.
Proof.
  unfold ProfileCard.render. destruct (ProfileCard.isEditing c); simpl.
  - intuition.
  - split; [intros [H|[]]; discriminate H | discriminate].
Qed.

(** C6.  Whatever state the card is in and however the request ends,
    [handleSave] issues exactly one request: a PUT to /api/user/profile
    with a JSON content type, whose body is the JSON text of an object with
    exactly the members name, email and phone, in that order, holding the
    three strings of the form state as they are. *)
Theorem handleSave_puts_the_form_fields
  (c : ProfileCard.Component) (outcome : Dom.FetchOutcome) :
  let form := ProfileCard.formData c in
  well_formed (ProfileCard.name form) = true ->
  well_formed (ProfileCard.email form) = true ->
  well_formed (ProfileCard.phone form) = true ->
  exists init,
    Dom.requests (snd (ProfileCard.handleSave c outcome))
      = [(lit "/api/user/profile", init)]
    /\ Dom.method init = lit "PUT"
    /\ Dom.headers init = [(lit "Content-Type", lit "application/json")]
    /\ Json.read_object (Dom.body init)
       = Some [(lit "name", ProfileCard.name form);
               (lit "email", ProfileCard.email form);
               (lit "phone", ProfileCard.phone form)].
Proof.
  intros form Hn He Hp.
  exists (Dom.mkRequestInit (lit "PUT")
            [(lit "Content-Type", lit "application/json")]
            (ProfileCard.JSON_stringify form) (lit "include")).
  split; [destruct outcome as [|[|]]; reflexivity|].
  split; [reflexivity|]. split; [reflexivity|].
  cbn [Dom.body]. unfold ProfileCard.JSON_stringify.
  apply read_SerializeJSONObject.
  unfold Json.members_well_formed; cbn [forallb fst snd].
  fold form. rewrite Hn, He, Hp. reflexivity.
Qed.

Lemma handleSave_puts_the_form_fields_witness :
  let c := ProfileCard.editing None (lit "Asha") (lit "asha@example.in")
                               (lit "98765") in
  well_formed (lit "Asha") = true
  /\ well_formed (lit "asha@example.in") = true
  /\ well_formed (lit "98765") = true
  /\ exists init,
       Dom.requests (snd (ProfileCard.handleSave c Dom.Rejected))
         = [(lit "/api/user/profile", init)]
       /\ Dom.method init = lit "PUT"
       /\ Dom.headers init = [(lit "Content-Type", lit "application/json")]
       /\ Json.read_object (Dom.body init)
          = Some [(lit "name", lit "Asha");
                  (lit "email", lit "asha@example.in");
                  (lit "phone", lit "98765")].
Proof.
  intros c.
  assert (H1 : well_formed (lit "Asha") = true) by reflexivity.
  assert (H2 : well_formed (lit "asha@example.in") = true) by reflexivity.
  assert (H3 : well_formed (lit "98765") = true) by reflexivity.
  repeat (split; [assumption|]).
  exact (handleSave_puts_the_form_fields c Dom.Rejected H1 H2 H3).
Defined.

(** The body for the name [A] followed by a quotation mark, an empty
    e-mail and the phone [1]: the mark is written with a reverse solidus
    before it. *)
Example JSON_stringify_escapes :
  ProfileCard.JSON_stringify
    (ProfileCard.mkFormData [65; 34]%N [] [49]%N)
  = ([123; 34; 110; 97; 109; 101; 34; 58; 34; 65; 92; 34; 34; 44;
      34; 101; 109; 97; 105; 108; 34; 58; 34; 34; 44;
      34; 112; 104; 111; 110; 101; 34; 58; 34; 49; 34; 125])%N.
Proof. reflexivity. Qed.

(** C4.  When the write fails (the request is rejected, or the response is
    not ok), [handleSave] leaves the signed-in user's values, the form
    state and [isEditing] as they were, so the card shows what it showed
    and a card in edit mode stays in edit mode. *)
Theorem failed_save_keeps_values_and_edit_mode
  (c : ProfileCard.Component) (outcome : Dom.FetchOutcome) :
  Dom.failed outcome = true ->
  let c' := fst (ProfileCard.handleSave c outcome) in
  ProfileCard.user c' = ProfileCard.user c
  /\ ProfileCard.formData c' = ProfileCard.formData c
  /\ ProfileCard.isEditing c' = ProfileCard.isEditing c
  /\ ProfileCard.render c' = ProfileCard.render c
  /\ (ProfileCard.isEditing c = true -> ProfileCard.isEditing c' = true).
Proof.
  intros Hfail c'.
  assert (E : c' = c).
  { unfold c'. destruct outcome as [|[|]];
      [reflexivity | discriminate Hfail | reflexivity]. }
  rewrite E. repeat split; auto.
Qed.

Lemma failed_save_keeps_values_and_edit_mode_witness :
  let c := ProfileCard.editing None (lit "Asha") (lit "asha@example.in")
                               (lit "98765") in
  let c' := fst (ProfileCard.handleSave c (Dom.Response false)) in
  Dom.failed (Dom.Response false) = true
  /\ ProfileCard.user c' = ProfileCard.user c
  /\ ProfileCard.formData c' = ProfileCard.formData c
  /\ ProfileCard.isEditing c' = ProfileCard.isEditing c
  /\ ProfileCard.render c' = ProfileCard.render c
  /\ (ProfileCard.isEditing c = true -> ProfileCard.isEditing c' = true).
Proof.
  intros c c'.
  assert (H : Dom.failed (Dom.Response false) = true) by reflexivity.
  split; [exact H|].
  exact (failed_save_keeps_values_and_edit_mode c (Dom.Response false) H).
Defined.

(** C5, as the spec words it, fails on a card in edit mode whose request
    is rejected: the card is still in edit mode afterwards. *)
Lemma failed_save_does_not_leave_edit_mode :
  ~ ProfileCard.reverts_to_non_edit_on_failure
      (ProfileCard.editing None (lit "Asha") (lit "asha@example.in")
                           (lit "98765"))
      Dom.Rejected.
Proof.
  intros H. destruct (H eq_refl) as [E _]. discriminate E.
Qed.

(** C5, as the code has it.  When the write fails the card stays as it is,
    in edit mode if the save was pressed there, and tells the user with
    one toast, the destructive "Update Failed". *)
Theorem failed_save_stays_and_notifies
  (c : ProfileCard.Component) (outcome : Dom.FetchOutcome) :
  Dom.failed outcome = true ->
  fst (ProfileCard.handleSave c outcome) = c
  /\ (ProfileCard.isEditing c = true ->
      ProfileCard.isEditing (fst (ProfileCard.handleSave c outcome)) = true)
  /\ Dom.toasts (snd (ProfileCard.handleSave c outcome))
     = [Dom.mkToast (lit "Update Failed")
                    (lit "Failed to update profile. Please try again.")
                    (Value (lit "destructive"))].
Proof.
  intros Hfail.
  destruct outcome as [|[|]]; try discriminate Hfail;
    (split; [reflexivity | split; [auto | reflexivity]]).
Qed.

Lemma failed_save_stays_and_notifies_witness :
  let c := ProfileCard.editing None (lit "Asha") (lit "asha@example.in")
                               (lit "98765") in
  Dom.failed Dom.Rejected = true
  /\ fst (ProfileCard.handleSave c Dom.Rejected) = c
  /\ (ProfileCard.isEditing c = true ->
      ProfileCard.isEditing (fst (ProfileCard.handleSave c Dom.Rejected))
      = true)
  /\ Dom.toasts (snd (ProfileCard.handleSave c Dom.Rejected))
     = [Dom.mkToast (lit "Update Failed")
                    (lit "Failed to update profile. Please try again.")
                    (Value (lit "destructive"))].
Proof.
  intros c.
  assert (H : Dom.failed Dom.Rejected = true) by reflexivity.
  split; [exact H|].
  exact (failed_save_stays_and_notifies c Dom.Rejected H).
Defined.

(** A save that succeeds is what leaves edit mode. *)
Example successful_save_leaves_edit_mode (c : ProfileCard.Component) :
  ProfileCard.isEditing
    (fst (ProfileCard.handleSave c (Dom.Response true))) = false.
Proof. reflexivity. Qed.

(** ** ReferralCard *)

(** C7.  For a signed-in user holding the referral code [code], the link
    of the card is the origin, then [/auth?ref=], then the code: both are
    embedded as they are.  It is the text [copyToClipboard] writes to the
    clipboard: the one write it makes, resolved or rejected, carries
    exactly this link, and when there is no clipboard to write to it
    writes nothing. *)
Theorem referralLink_embeds_origin_and_code
  (c : ReferralCard.Component) (u : User) (code : JsString)
  (outcome : Dom.ClipboardOutcome) :
  ReferralCard.user c = Some u ->
  u_referral_code u = Value code ->
  let link := ReferralCard.origin c ++ lit "/auth?ref=" ++ code in
  let writes :=
    Dom.clipboard_writes (snd (ReferralCard.copyToClipboard c outcome)) in
  ReferralCard.referralLink c = link
  /\ Forall (fun text => text = link) writes
  /\ writes = match outcome with
              | Dom.NoClipboard => []
              | Dom.WriteRejected | Dom.WriteResolved => [link]
              end.
Proof.
  intros Hu Hcode link writes.
  assert (E : ReferralCard.referralLink c = link).
  { unfold ReferralCard.referralLink, ReferralCard.user_referral_code.
    rewrite Hu, Hcode. reflexivity. }
  assert (Hw : writes = match outcome with
                        | Dom.NoClipboard => []
                        | Dom.WriteRejected | Dom.WriteResolved => [link]
                        end).
  { unfold writes, ReferralCard.copyToClipboard.
    destruct outcome; cbn [snd Dom.clipboard_writes flat_map app];
      rewrite ?E; reflexivity. }
  split; [exact E|]. split; [|exact Hw].
  rewrite Hw. destruct outcome; repeat constructor.
Qed.

Lemma referralLink_embeds_origin_and_code_witness :
  let u := mkUser 1 (lit "asha") (lit "x") (lit "Asha")
                  (lit "asha@example.in") Null Null (lit "user")
                  (Value (lit "QT42")) Undefined 0 in
  let c := ReferralCard.mkComponent (lit "https://quicktech.example")
                                    (Some u) false in
  let link := lit "https://quicktech.example" ++ lit "/auth?ref="
                ++ lit "QT42" in
  let writes :=
    Dom.clipboard_writes
      (snd (ReferralCard.copyToClipboard c Dom.WriteResolved)) in
  ReferralCard.user c = Some u
  /\ u_referral_code u = Value (lit "QT42")
  /\ ReferralCard.referralLink c = link
  /\ Forall (fun text => text = link) writes
  /\ writes = [link].
Proof.
  intros u c link writes.
  assert (H1 : ReferralCard.user c = Some u) by reflexivity.
  assert (H2 : u_referral_code u = Value (lit "QT42")) by reflexivity.
  split; [exact H1|]. split; [exact H2|].
  exact (referralLink_embeds_origin_and_code
           c u (lit "QT42") Dom.WriteResolved H1 H2).
Defined.

(** Where there is no clipboard the card writes nothing, stays as it is
    and raises the error toast. *)
Example copyToClipboard_without_clipboard (c : ReferralCard.Component) :
  ReferralCard.copyToClipboard c Dom.NoClipboard
  = (c, [Dom.Toast (Dom.mkToast (lit "Error")
                                (lit "Failed to copy referral link")
                                (Value (lit "destructive")))]).
Proof. reflexivity. Qed.

(** A write that rejects was still made with the link. *)
Example copyToClipboard_rejected (c : ReferralCard.Component) :
  Dom.clipboard_writes (snd (ReferralCard.copyToClipboard c Dom.WriteRejected))
  = [ReferralCard.referralLink c]
  /\ fst (ReferralCard.copyToClipboard c Dom.WriteRejected) = c.
Proof. split; reflexivity. Qed.

(** Without a signed-in user the interpolation prints [undefined]. *)
Example referralLink_without_user :
  ReferralCard.referralLink
    (ReferralCard.mkComponent (lit "https://quicktech.example") None false)
  = lit "https://quicktech.example/auth?ref=undefined".
Proof. reflexivity. Qed.

(* ================================================================== *)
(** * Further properties of the store *)
(* ================================================================== *)

(** ** Nothing is removed or reordered *)

Section Kept.

Import Storage Server Histories.

Lemma In_ids_upto k n : In k (ids_upto n) <-> 1 <= k <= Z.of_nat n.
Proof.
  unfold ids_upto. rewrite in_map_iff. split.
  - intros (i & <- & Hi). apply in_seq in Hi. lia.
  - intros H. exists (Z.to_nat k). split; [lia|]. apply in_seq. lia.
Qed.

Lemma ids_upto_S n : ids_upto (S n) = ids_upto n ++ [Z.of_nat n + 1].
Proof.
  unfold ids_upto. rewrite seq_S, map_app. cbn [map]. f_equal. f_equal. lia.
Qed.

Lemma ids_upto_sorted n : StronglySorted Z.lt (ids_upto n).
Proof.
  induction n as [|n IH]; [constructor|].
  rewrite ids_upto_S.
  assert (Hall : Forall (fun k => k < Z.of_nat n + 1) (ids_upto n)).
  { apply Forall_forall. intros k Hk. apply In_ids_upto in Hk. lia. }
  clear - IH Hall. induction IH as [|x l Hs IH' Hx]; cbn [app].
  - constructor; constructor.
  - inversion Hall as [|? ? Hlt Hall']; subst.
    constructor; [auto|]. apply Forall_app. split; [assumption|].
    constructor; [assumption | constructor].
Qed.

Lemma keys_length {V} (m : JsMap.t V) :
  List.length (JsMap.keys m) = List.length m.
Proof. apply length_map. Qed.

Lemma keys_set_present {V} (m : JsMap.t V) k v :
  JsMap.get k m <> None -> JsMap.keys (JsMap.set k v m) = JsMap.keys m.
Proof.
  induction m as [|[k' v'] m IH]; simpl; [congruence|].
  destruct (Z.eqb_spec k k') as [->|Hne]; simpl; [reflexivity|].
  intros H; rewrite IH by assumption; reflexivity.
Qed.

Lemma all_kept_present {V} (id_of : V -> Z) (m : JsMap.t V) counter k :
  all_kept id_of m counter ->
  (JsMap.get k m <> None <-> 1 <= k < counter).
Proof.
  intros (Hkeys & Hc & _).
  assert (H : In k (JsMap.keys m) <-> 1 <= k < counter).
  { rewrite Hkeys, In_ids_upto. lia. }
  rewrite <- H. pose proof (get_None_keys m k) as Hn.
  destruct (in_dec Z.eq_dec k (JsMap.keys m)) as [Hin|Hnin].
  - split; [auto|]. intros _ E. apply Hn in E. contradiction.
  - pose proof (proj2 Hn Hnin) as Hnone.
    split; [congruence | contradiction].
Qed.

(** Creating a record under the counter. *)
Lemma all_kept_create {V} (id_of : V -> Z) (m : JsMap.t V) counter v :
  all_kept id_of m counter -> id_of v = counter ->
  JsMap.set counter v m = m ++ [(counter, v)]
  /\ all_kept id_of (JsMap.set counter v m) (counter + 1).
Proof.
  intros Hk Hid.
  assert (Hfresh : JsMap.get counter m = None).
  { destruct (JsMap.get counter m) eqn:E; [|reflexivity].
    assert (Hp : JsMap.get counter m <> None) by congruence.
    apply (all_kept_present id_of m counter counter Hk) in Hp. lia. }
  rewrite (set_fresh m counter v Hfresh). split; [reflexivity|].
  destruct Hk as (Hkeys & Hc & Hall).
  unfold all_kept, JsMap.keys. rewrite map_app, length_app.
  cbn [map List.length fst]. rewrite Nat.add_1_r, ids_upto_S.
  fold (JsMap.keys m). rewrite Hkeys.
  split; [f_equal; f_equal; lia|]. split; [lia|].
  apply Forall_app. split; [assumption|].
  constructor; [exact Hid | constructor].
Qed.

Lemma set_length_present {V} (m : JsMap.t V) k v :
  JsMap.get k m <> None -> List.length (JsMap.set k v m) = List.length m.
Proof.
  intros H. rewrite <- !keys_length, keys_set_present by assumption.
  reflexivity.
Qed.

(** Replacing the record of a key that is there. *)
Lemma all_kept_replace {V} (id_of : V -> Z) (m : JsMap.t V) counter k v :
  all_kept id_of m counter -> JsMap.get k m <> None -> id_of v = k ->
  all_kept id_of (JsMap.set k v m) counter.
Proof.
  intros (Hkeys & Hc & Hall) Hp Hid. unfold all_kept.
  rewrite keys_set_present, set_length_present by assumption.
  split; [assumption|]. split; [assumption|].
  apply set_Forall; [assumption | exact Hid].
Qed.

Lemma all_kept_get_id {V} (id_of : V -> Z) (m : JsMap.t V) counter k v :
  all_kept id_of m counter -> JsMap.get k m = Some v -> id_of v = k.
Proof.
  intros (_ & _ & Hall) Hget. apply get_Some_In in Hget.
  rewrite Forall_forall in Hall. apply (Hall _ Hget).
Qed.

Lemma createUser_kept now iu st :
  store_kept st -> store_kept (snd (createUser now iu st)).
Proof.
  intros (Hu & Hs & Ho). split; [|split; assumption].
  apply all_kept_create; [exact Hu | reflexivity].
Qed.

Lemma createService_kept now x st :
  store_kept st -> store_kept (snd (createService now x st)).
Proof.
  intros (Hu & Hs & Ho). split; [assumption|]. split; [|assumption].
  apply all_kept_create; [exact Hs | reflexivity].
Qed.

Lemma createServices_kept clock entries : forall n st,
  store_kept st -> store_kept (snd (createServices clock n entries st)).
Proof.
  induction entries as [|x entries IH]; intros n st Hk; cbn [createServices].
  - exact Hk.
  - pose proof (createService_kept (clock n) x st Hk) as H1.
    destruct (createService (clock n) x st) as [s st1]. cbn [snd] in H1.
    specialize (IH (S n) st1 H1).
    destruct (createServices clock (S n) entries st1) as [ss st2].
    exact IH.
Qed.

Lemma getServices_kept clock st :
  store_kept st -> store_kept (snd (Revised.getServices clock st)).
Proof.
  intros Hk. exact (createServices_kept clock Revised.seedCatalog 0 st Hk).
Qed.

Lemma createOrder_kept now io st :
  store_kept st -> store_kept (snd (createOrder now io st)).
Proof.
  intros (Hu & Hs & Ho). split; [assumption|]. split; [assumption|].
  apply all_kept_create; [exact Ho | reflexivity].
Qed.

Lemma updateOrderStatus_kept now id status st :
  store_kept st -> store_kept (snd (updateOrderStatus now id status st)).
Proof.
  intros (Hu & Hs & Ho). unfold updateOrderStatus.
  destruct (JsMap.get id (orders st)) as [o|] eqn:E;
    [|split; [|split]; assumption].
  split; [assumption|]. split; [assumption|].
  apply all_kept_replace; [exact Ho | congruence |].
  exact (all_kept_get_id _ _ _ _ _ Ho E).
Qed.

Lemma updatePaymentStatus_kept now id status st :
  store_kept st -> store_kept (snd (updatePaymentStatus now id status st)).
Proof.
  intros (Hu & Hs & Ho). unfold updatePaymentStatus.
  destruct (JsMap.get id (orders st)) as [o|] eqn:E;
    [|split; [|split]; assumption].
  split; [assumption|]. split; [assumption|].
  apply all_kept_replace; [exact Ho | congruence |].
  exact (all_kept_get_id _ _ _ _ _ Ho E).
Qed.

Lemma replaceWithAdminRole_kept a st :
  store_kept st -> 1 <= u_id a < userIdCounter st ->
  store_kept (replaceWithAdminRole a st).
Proof.
  intros (Hu & Hs & Ho) Ha. split; [|split; assumption].
  apply all_kept_replace; [exact Hu | | reflexivity].
  apply (all_kept_present u_id _ _ _ Hu). exact Ha.
Qed.

Lemma fresh_kept : store_kept fresh.
Proof. repeat split; constructor. Qed.

Lemma new_kept rev clock : instance_kept (new rev clock).
Proof.
  split; [|exact I]. destruct rev; cbn [new store].
  - exact (createServices_kept clock Original.seedCatalog 0 fresh fresh_kept).
  - exact fresh_kept.
Qed.

Variable toLowerCase : JsString -> JsString.

Lemma step_kept rev i c :
  instance_kept i -> instance_kept (fst (step toLowerCase rev i c)).
Proof.
  intros [Hst Hinit].
  assert (Hc : userIdCounter (store i) = 
               Z.of_nat (List.length (users (store i))) + 1)
    by apply Hst.
  assert (Hsame : forall st',
             store_kept st' -> userIdCounter st' = userIdCounter (store i) ->
             instance_kept (mkInstance st' (testUserInit i))).
  { intros st' Hk He. split; [exact Hk|]. cbn [store testUserInit].
    rewrite He. exact Hinit. }
  assert (Hcreate : forall now iu init',
             match init' with
             | NormalCreated u | AdminCreated u =>
                 1 <= u_id u <= userIdCounter (store i)
             | _ => True
             end ->
             instance_kept
               (mkInstance (snd (createUser now iu (store i))) init')).
  { intros now iu init' Hi. split.
    - apply createUser_kept, Hst.
    - cbn [store testUserInit createUser snd userIdCounter with_users].
      destruct init'; auto; lia. }
  assert (Hinit_le : match testUserInit i with
                     | NormalCreated u | AdminCreated u =>
                         1 <= u_id u <= userIdCounter (store i)
                     | _ => True
                     end).
  { destruct (testUserInit i); auto; lia. }
  destruct c; unfold step; cbv zeta.
  - exact (Hcreate now insertUser (testUserInit i) Hinit_le).
  - destruct rev; [split; assumption|]. cbn [fst].
    pose proof (getServices_kept clock (store i) Hst) as Hk.
    pose proof (getServices_users clock (store i)) as [_ Hu].
    destruct (Revised.getServices clock (store i)) as [ss st'].
    apply Hsame; assumption.
  - cbn [fst]. apply Hsame; [apply createService_kept, Hst | reflexivity].
  - cbn [fst]. apply Hsame; [apply createOrder_kept, Hst | reflexivity].
  - cbn [fst]. apply Hsame; [apply updateOrderStatus_kept, Hst|].
    apply updateOrderStatus_users.
  - cbn [fst]. apply Hsame; [apply updatePaymentStatus_kept, Hst|].
    apply updatePaymentStatus_users.
  - unfold initializeTestUser.
    destruct (testUserInit i) as [| |u|u|] eqn:E.
    + destruct (getUserByUsername _ _ _); split; try assumption; exact I.
    + apply (Hcreate now (testUserData hashed) (NormalCreated _)).
      cbn [createUser fst u_id]. lia.
    + apply (Hcreate now (adminUserData hashed) (AdminCreated _)).
      cbn [createUser fst u_id]. lia.
    + split; [|exact I]. apply replaceWithAdminRole_kept; assumption.
    + cbn [fst]. split; [assumption | rewrite E; exact I].
Qed.

Lemma run_kept rev calls : forall i,
  instance_kept i -> instance_kept (snd (run toLowerCase rev i calls)).
Proof.
  induction calls as [|c calls IH]; intros i Hk; cbn [run].
  - exact Hk.
  - pose proof (step_kept rev i c Hk) as H1.
    destruct (step toLowerCase rev i c) as [i1 created]. cbn [fst] in H1.
    specialize (IH i1 H1).
    destruct (run toLowerCase rev i1 calls) as [us i2]. exact IH.
Qed.

Lemma all_kept_ids {V} (id_of : V -> Z) (m : JsMap.t V) counter :
  all_kept id_of m counter ->
  map id_of (JsMap.values m) = ids_upto (List.length m).
Proof.
  intros (Hkeys & _ & Hall). rewrite <- Hkeys.
  unfold JsMap.keys, JsMap.values. rewrite map_map.
  apply map_ext_in. intros kv Hin.
  rewrite Forall_forall in Hall. apply (Hall kv Hin).
Qed.

End Kept.

(** ** Creating a user and finding it again *)

Section CreateAndFind.

Import Storage Server Histories.

Lemma get_set_same {V} (m : JsMap.t V) k v :
  JsMap.get k (JsMap.set k v m) = Some v.
Proof.
  induction m as [|[k' v'] m IH]; simpl.
  - rewrite Z.eqb_refl; reflexivity.
  - destruct (Z.eqb_spec k k') as [->|Hne]; simpl.
    + rewrite Z.eqb_refl; reflexivity.
    + destruct (Z.eqb_spec k k'); [contradiction | exact IH].
Qed.

Lemma find_last {A} (f : A -> bool) (l : list A) (x : A) :
  find f (l ++ [x]) =
    match find f l with
    | Some y => Some y
    | None => if f x then Some x else None
    end.
Proof.
  induction l as [|y l IH]; simpl; [reflexivity|].
  destruct (f y); [reflexivity | exact IH].
Qed.

Lemma values_app {V} (m1 m2 : JsMap.t V) :
  JsMap.values (m1 ++ m2) = JsMap.values m1 ++ JsMap.values m2.
Proof. apply map_app. Qed.

(** What [find] found is the first element that passes the test. *)
Lemma find_first {A} (f : A -> bool) (l : list A) (x : A) :
  find f l = Some x ->
  exists l1 l2, l = l1 ++ x :: l2 /\ forallb (fun y => negb (f y)) l1 = true.
Proof.
  induction l as [|y l IH]; simpl; [discriminate|].
  destruct (f y) eqn:E.
  - intros [= ->]. exists [], l. split; reflexivity.
  - intros H. destruct (IH H) as (l1 & l2 & -> & Hl1).
    exists (y :: l1), l2. split; [reflexivity|].
    simpl. rewrite E, Hl1. reflexivity.
Qed.

End CreateAndFind.

(** X2.  [createUser] stores the user it returns under the id it returns:
    [getUser] finds it there, answers as before for every other id, and
    the services and orders are not touched.  The new user has the role
    "user" and its phone and address are never [undefined]. *)
Theorem createUser_then_getUser
  (now : Z) (insertUser : InsertUser) (st : Storage.MemStorage) :
  let (user, st') := Storage.createUser now insertUser st in
  Storage.getUser (u_id user) st' = Some user
  /\ (forall id, id <> u_id user ->
                 Storage.getUser id st' = Storage.getUser id st)
  /\ u_role user = lit "user"
  /\ u_phone user <> Undefined /\ u_address user <> Undefined
  /\ Storage.services st' = Storage.services st
  /\ Storage.orders st' = Storage.orders st.
Proof.
  cbv beta iota delta [Storage.createUser]; cbv zeta.
  unfold Storage.getUser; cbn [Storage.users Storage.with_users u_id].
  split; [apply get_set_same|].
  split; [intros id Hne; apply get_set_other; exact Hne|].
  split; [reflexivity|].
  split; [cbn [u_phone]; destruct (iu_phone insertUser); discriminate|].
  split; [cbn [u_address]; destruct (iu_address insertUser); discriminate|].
  split; reflexivity.
Qed.

(** X3.  Usernames and e-mails are not checked on creation.  After
    [createUser] on an instance, a lookup that found a user before still
    finds that same user, also when the new user matches the query; a
    lookup that found nobody finds the new user if it matches and nobody
    otherwise. *)
Theorem createUser_then_lookup
  (toLowerCase : JsString -> JsString)
  (rev : Server.Revision) (clock : nat -> Z) (calls : list Server.Call)
  (now : Z) (insertUser : InsertUser) (q : JsString) :
  let st :=
    Server.store
      (snd (Server.run toLowerCase rev (Server.new rev clock) calls)) in
  let (user, st') := Storage.createUser now insertUser st in
  Storage.getUserByUsername toLowerCase q st' =
    match Storage.getUserByUsername toLowerCase q st with
    | Some old => Some old
    | None =>
        if str_eqb (toLowerCase (iu_username insertUser)) (toLowerCase q)
        then Some user else None
    end
  /\
  Storage.getUserByEmail toLowerCase q st' =
    match Storage.getUserByEmail toLowerCase q st with
    | Some old => Some old
    | None =>
        if str_eqb (toLowerCase (iu_email insertUser)) (toLowerCase q)
        then Some user else None
    end.
Proof.
  intros st.
  destruct (run_kept toLowerCase rev calls _ (new_kept rev clock))
    as [(Hu & _) _].
  fold st in Hu.
  cbv beta iota delta [Storage.createUser]; cbv zeta.
  unfold Storage.getUserByUsername, Storage.getUserByEmail.
  cbn [Storage.users Storage.with_users].
  match goal with
  | |- context [JsMap.set _ ?u _] =>
      destruct (all_kept_create u_id _ _ u Hu eq_refl) as [-> _]
  end.
  rewrite values_app. cbn [JsMap.values map snd].
  rewrite !find_last. cbn [u_username u_email]. split; reflexivity.
Qed.

(** X4.  The lookups answer with the oldest match: every stored user that
    matches the query as well has an id at least that of the user
    returned. *)
Theorem lookup_returns_the_lowest_id
  (toLowerCase : JsString -> JsString)
  (rev : Server.Revision) (clock : nat -> Z) (calls : list Server.Call)
  (q : JsString) (found other : User) :
  let st :=
    Server.store
      (snd (Server.run toLowerCase rev (Server.new rev clock) calls)) in
  In other (JsMap.values (Storage.users st)) ->
  (Storage.getUserByUsername toLowerCase q st = Some found ->
   Invariants.equal_ignoring_case toLowerCase (u_username other) q ->
   u_id found <= u_id other)
  /\
  (Storage.getUserByEmail toLowerCase q st = Some found ->
   Invariants.equal_ignoring_case toLowerCase (u_email other) q ->
   u_id found <= u_id other).
Proof.
  intros st Hin.
  destruct (run_kept toLowerCase rev calls _ (new_kept rev clock))
    as [(Hu & _) _].
  fold st in Hu.
  pose proof (all_kept_ids _ _ _ Hu) as Hids.
  pose proof (ids_upto_sorted (List.length (Storage.users st))) as Hs.
  rewrite <- Hids in Hs. clear Hids Hu.
  assert (Hgen : forall f : User -> bool,
             find f (JsMap.values (Storage.users st)) = Some found ->
             f other = true -> u_id found <= u_id other).
  { intros f Hfind Hf.
    destruct (find_first f _ _ Hfind) as (l1 & l2 & E & Hl1).
    rewrite E in Hin, Hs. clear E.
    apply in_app_or in Hin. destruct Hin as [Hin|[->|Hin]].
    - rewrite forallb_forall in Hl1. specialize (Hl1 _ Hin).
      rewrite Hf in Hl1. discriminate.
    - lia.
    - rewrite map_app in Hs. cbn [map] in Hs.
      clear - Hs Hin. induction l1 as [|y l1 IH]; cbn [app map] in Hs.
      + inversion Hs as [|? ? _ Hall]; subst.
        rewrite Forall_map, Forall_forall in Hall.
        specialize (Hall _ Hin). lia.
      + inversion Hs; subst. auto. }
  split; intros Hfind Hsame.
  - apply (Hgen _ Hfind). apply str_eqb_eq. exact Hsame.
  - apply (Hgen _ Hfind). apply str_eqb_eq. exact Hsame.
Qed.

Lemma lookup_returns_the_lowest_id_witness :
  let st :=
    Server.store
      (snd (Server.run ascii_toLowerCase Server.revised
                       (Server.new Server.revised (fun _ => 0))
                       Histories.twin_calls)) in
  In Histories.second_twin (JsMap.values (Storage.users st))
  /\ Storage.getUserByUsername ascii_toLowerCase (lit "ravi") st
     = Some Histories.first_twin
  /\ Invariants.equal_ignoring_case ascii_toLowerCase
       (u_username Histories.second_twin) (lit "ravi")
  /\ u_id Histories.first_twin <= u_id Histories.second_twin.
Proof.
  intros st.
  assert (H1 : In Histories.second_twin (JsMap.values (Storage.users st)))
    by (right; left; reflexivity).
  assert (H2 : Storage.getUserByUsername ascii_toLowerCase (lit "ravi") st
               = Some Histories.first_twin) by reflexivity.
  assert (H3 : Invariants.equal_ignoring_case ascii_toLowerCase
                 (u_username Histories.second_twin) (lit "ravi"))
    by reflexivity.
  split; [exact H1|]. split; [exact H2|]. split; [exact H3|].
  exact (proj1 (lookup_returns_the_lowest_id
                  ascii_toLowerCase Server.revised (fun _ => 0)
                  Histories.twin_calls (lit "ravi")
                  Histories.first_twin Histories.second_twin H1) H2 H3).
Defined.

(** ** Orders *)

Section OrderFacts.

Import Storage Server Histories.

Lemma set_set {V} (m : JsMap.t V) k a b :
  JsMap.set k b (JsMap.set k a m) = JsMap.set k b m.
Proof.
  induction m as [|[k' v'] m IH]; simpl.
  - rewrite Z.eqb_refl. reflexivity.
  - destruct (Z.eqb_spec k k') as [->|Hne]; simpl.
    + rewrite Z.eqb_refl. reflexivity.
    + destruct (Z.eqb_spec k k'); [contradiction|]. rewrite IH. reflexivity.
Qed.

(** Replacing a value by one that a test and a projection cannot tell from
    the old one leaves the projected, filtered listing as it was. *)
Lemma set_present_listing {V B} (f : V -> bool) (g : V -> B)
      (m : JsMap.t V) k v v' :
  JsMap.get k m = Some v -> f v' = f v -> g v' = g v ->
  map g (filter f (JsMap.values (JsMap.set k v' m)))
  = map g (filter f (JsMap.values m)).
Proof.
  intros Hget Hf Hg. induction m as [|[k0 v0] m IH]; simpl in *.
  - discriminate.
  - destruct (Z.eqb_spec k k0) as [->|Hne]; simpl.
    + injection Hget as ->. rewrite Hf.
      destruct (f v); simpl; [rewrite Hg|]; reflexivity.
    + destruct (f v0); simpl; rewrite (IH Hget); reflexivity.
Qed.

End OrderFacts.

(** X5.  [createOrder] on an instance answers with a new order that is
    pending in both lifecycles, created and updated at the time of the
    call, for the user id it was given, whether or not such a user exists.
    [getOrder] finds it under its id, it is the last of [getOrders] and of
    the orders of its user, and the orders listed for any other user are
    as before. *)
Theorem createOrder_then_read
  (toLowerCase : JsString -> JsString)
  (rev : Server.Revision) (clock : nat -> Z) (calls : list Server.Call)
  (now : Z) (insertOrder : InsertOrder) :
  let st :=
    Server.store
      (snd (Server.run toLowerCase rev (Server.new rev clock) calls)) in
  let (order, st') := Storage.createOrder now insertOrder st in
  order = mkOrder (Storage.orderIdCounter st) (io_user_id insertOrder)
                  (lit "pending") (lit "pending") now now
  /\ Storage.getOrder (o_id order) st' = Some order
  /\ Storage.getOrders st' = Storage.getOrders st ++ [order]
  /\ Storage.getOrdersByUserId (io_user_id insertOrder) st'
     = Storage.getOrdersByUserId (io_user_id insertOrder) st ++ [order]
  /\ (forall userId, userId <> io_user_id insertOrder ->
        Storage.getOrdersByUserId userId st'
        = Storage.getOrdersByUserId userId st).
Proof.
  intros st.
  destruct (run_kept toLowerCase rev calls _ (new_kept rev clock))
    as [(_ & _ & Ho) _].
  fold st in Ho.
  cbv beta iota delta [Storage.createOrder]; cbv zeta.
  unfold Storage.getOrder, Storage.getOrders, Storage.getOrdersByUserId.
  cbn [Storage.orders Storage.with_orders o_id].
  split; [reflexivity|].
  split; [apply get_set_same|].
  match goal with
  | |- context [JsMap.set _ ?o _] =>
      destruct (all_kept_create o_id _ _ o Ho eq_refl) as [-> _]
  end.
  rewrite values_app. cbn [JsMap.values map snd].
  split; [reflexivity|].
  rewrite !filter_app. cbn [filter o_user_id].
  rewrite Z.eqb_refl. split; [reflexivity|].
  intros userId Hne. rewrite filter_app. cbn [filter o_user_id].
  destruct (Z.eqb_spec (io_user_id insertOrder) userId);
    [congruence | apply app_nil_r].
Qed.

(** X6.  Neither status update moves, adds or removes an order: for any
    store and any user, the orders listed for the user have the same ids,
    user ids and creation times, in the same order, after the update as
    before, and so have the orders of [getOrders]. *)
Theorem status_updates_keep_the_listings
  (now id : Z) (status : JsString) (st : Storage.MemStorage) (userId : Z) :
  let after1 := snd (Storage.updateOrderStatus now id status st) in
  let after2 := snd (Storage.updatePaymentStatus now id status st) in
  map Histories.order_identity (Storage.getOrdersByUserId userId after1)
  = map Histories.order_identity (Storage.getOrdersByUserId userId st)
  /\ map Histories.order_identity (Storage.getOrders after1)
     = map Histories.order_identity (Storage.getOrders st)
  /\ map Histories.order_identity (Storage.getOrdersByUserId userId after2)
     = map Histories.order_identity (Storage.getOrdersByUserId userId st)
  /\ map Histories.order_identity (Storage.getOrders after2)
     = map Histories.order_identity (Storage.getOrders st).
Proof.
  intros after1 after2. unfold after1, after2.
  unfold Storage.updateOrderStatus, Storage.updatePaymentStatus,
    Storage.getOrdersByUserId, Storage.getOrders.
  destruct (JsMap.get id (Storage.orders st)) as [o|] eqn:E;
    [|repeat split; reflexivity].
  cbn [snd Storage.orders Storage.with_orders].
  assert (Hall : forall (m : JsMap.t Order),
             map Histories.order_identity (JsMap.values m)
             = map Histories.order_identity
                   (filter (fun _ => true) (JsMap.values m))).
  { intros m. f_equal. induction (JsMap.values m) as [|x l IH];
      [reflexivity | simpl; rewrite <- IH; reflexivity]. }
  repeat split.
  - apply (set_present_listing _ _ _ _ o); [exact E | reflexivity..].
  - rewrite !Hall.
    apply (set_present_listing _ _ _ _ o); [exact E | reflexivity..].
  - apply (set_present_listing _ _ _ _ o); [exact E | reflexivity..].
  - rewrite !Hall.
    apply (set_present_listing _ _ _ _ o); [exact E | reflexivity..].
Qed.

(** X7.  The two lifecycles are independent: updating the status and then
    the payment status of an order leaves the same store as updating the
    payment status and then the status, the first update at the same time
    and the second at the same time in both. *)
Theorem status_and_payment_updates_commute
  (t1 t2 id : Z) (status payment : JsString) (st : Storage.MemStorage) :
  snd (Storage.updatePaymentStatus t2 id payment
         (snd (Storage.updateOrderStatus t1 id status st)))
  = snd (Storage.updateOrderStatus t2 id status
           (snd (Storage.updatePaymentStatus t1 id payment st))).
Proof.
  unfold Storage.updateOrderStatus, Storage.updatePaymentStatus.
  destruct (JsMap.get id (Storage.orders st)) as [o|] eqn:E;
    cbn [snd].
  - cbn [Storage.orders Storage.with_orders].
    rewrite !get_set_same. cbn [snd].
    unfold Storage.with_orders.
    cbn [Storage.users Storage.services Storage.orders
         Storage.userIdCounter Storage.serviceIdCounter
         Storage.orderIdCounter
         o_id o_user_id o_status o_payment_status o_created_at].
    rewrite !set_set. reflexivity.
  - rewrite E. reflexivity.
Qed.

(** X8.  The last write wins: a status update followed by a second one of
    the same order leaves the store the second one alone would have left,
    and so for the payment status. *)
Theorem later_status_update_overwrites
  (t1 t2 id : Z) (s1 s2 : JsString) (st : Storage.MemStorage) :
  snd (Storage.updateOrderStatus t2 id s2
         (snd (Storage.updateOrderStatus t1 id s1 st)))
  = snd (Storage.updateOrderStatus t2 id s2 st)
  /\
  snd (Storage.updatePaymentStatus t2 id s2
         (snd (Storage.updatePaymentStatus t1 id s1 st)))
  = snd (Storage.updatePaymentStatus t2 id s2 st).
Proof.
  unfold Storage.updateOrderStatus, Storage.updatePaymentStatus.
  destruct (JsMap.get id (Storage.orders st)) as [o|] eqn:E;
    cbn [snd].
  - cbn [Storage.orders Storage.with_orders].
    rewrite !get_set_same. cbn [snd].
    unfold Storage.with_orders.
    cbn [Storage.users Storage.services Storage.orders
         Storage.userIdCounter Storage.serviceIdCounter
         Storage.orderIdCounter
         o_id o_user_id o_status o_payment_status o_created_at].
    rewrite !set_set. split; reflexivity.
  - rewrite E. split; reflexivity.
Qed.

(** ** Services *)

Section ServiceFacts.

Import Storage Server Invariants Histories.

(** Looking an id up among records seeded under consecutive ids. *)
Lemma get_seeded clock entries : forall i id k,
  JsMap.get k (map entry_of (seeded clock i id entries)) =
    if (id <=? k) then
      option_map (service_record k (clock (i + Z.to_nat (k - id))%nat))
                 (nth_error entries (Z.to_nat (k - id)))
    else None.
Proof.
  induction entries as [|x entries IH]; intros i id k; cbn [seeded map].
  - cbn [JsMap.get]. destruct (id <=? k); [|reflexivity].
    destruct (Z.to_nat (k - id)); reflexivity.
  - cbn [JsMap.get entry_of s_id service_record fst].
    destruct (Z.eqb_spec k id) as [->|Hne].
    + rewrite Z.leb_refl, Z.sub_diag. cbn [Z.to_nat nth_error option_map].
      rewrite Nat.add_0_r. reflexivity.
    + rewrite IH. destruct (Z.leb_spec id k) as [Hle|Hgt].
      * destruct (Z.leb_spec (id + 1) k); [|lia].
        replace (Z.to_nat (k - id)) with (S (Z.to_nat (k - (id + 1))))
          by lia.
        cbn [nth_error]. rewrite Nat.add_succ_comm. reflexivity.
      * destruct (Z.leb_spec (id + 1) k); [lia | reflexivity].
Qed.

Lemma createServices_counter clock entries : forall n st,
  serviceIdCounter (snd (createServices clock n entries st))
  = serviceIdCounter st + Z.of_nat (List.length entries).
Proof.
  induction entries as [|x entries IH]; intros n st; cbn [createServices].
  - cbn [snd List.length Z.of_nat]. lia.
  - specialize (IH (S n) (snd (createService (clock n) x st))).
    destruct (createService (clock n) x st) as [s st1] eqn:E1.
    assert (Hc : serviceIdCounter st1 = serviceIdCounter st + 1)
      by (injection E1 as _ <-; reflexivity).
    cbn [snd] in IH.
    destruct (createServices clock (S n) entries st1) as [ss st2].
    cbn [snd] in *. rewrite IH, Hc. cbn [List.length]. lia.
Qed.

Variable toLowerCase : JsString -> JsString.

Lemma step_serviceIdCounter rev i c :
  serviceIdCounter (store (fst (step toLowerCase rev i c)))
  = serviceIdCounter (store i) + Z.of_nat (services_added rev c).
Proof.
  destruct c; unfold step; cbv zeta; cbn [services_added].
  - cbn. lia.
  - destruct rev; cbn [fst store]; [cbn; lia|].
    exact (createServices_counter clock Revised.seedCatalog 0 (store i)).
  - cbn. lia.
  - cbn. lia.
  - cbn [fst store]. rewrite (proj2 (updateOrderStatus_services _ _ _ _)).
    cbn; lia.
  - cbn [fst store]. rewrite (proj2 (updatePaymentStatus_services _ _ _ _)).
    cbn; lia.
  - unfold initializeTestUser.
    destruct (testUserInit i); try (cbn; lia).
    destruct (getUserByUsername _ _ _); cbn; lia.
Qed.

Lemma run_serviceIdCounter rev calls : forall i,
  serviceIdCounter (store (snd (run toLowerCase rev i calls)))
  = serviceIdCounter (store i)
    + Z.of_nat (list_sum (map (services_added rev) calls)).
Proof.
  induction calls as [|c calls IH]; intros i; cbn [run map].
  - cbn [snd]. cbn. lia.
  - pose proof (step_serviceIdCounter rev i c) as H1.
    destruct (step toLowerCase rev i c) as [i1 created]. cbn [fst] in H1.
    specialize (IH i1).
    destruct (run toLowerCase rev i1 calls) as [us i2]. cbn [snd] in *.
    change (list_sum (services_added rev c
                        :: map (services_added rev) calls))
      with (services_added rev c
            + list_sum (map (services_added rev) calls))%nat.
    rewrite IH, H1. lia.
Qed.

End ServiceFacts.

(** X9.  On a new instance of the original module [getService] maps the
    ids 1 to 37 to the entries of the seed catalog in catalog order (the
    record of the entry, created at the time its [createService] read),
    and answers [undefined] for every other id. *)
Theorem getService_of_a_new_original_instance
  (clock : nat -> Z) (id : Z) :
  Storage.getService id (Original.constructor clock) =
    if (1 <=? id) then
      option_map
        (Invariants.service_record id (clock (Z.to_nat (id - 1))))
        (nth_error Original.seedCatalog (Z.to_nat (id - 1)))
    else None.
Proof.
  unfold Storage.getService, Original.constructor,
    Original.initializeServices.
  pose proof (createServices_appends clock Original.seedCatalog 0
                Storage.fresh fresh_services_ok) as H.
  destruct (Storage.createServices clock 0 Original.seedCatalog
              Storage.fresh) as [created st'].
  destruct H as (Hc & Hs & _). cbn [snd].
  rewrite Hs, Hc.
  change (Storage.services Storage.fresh) with (@nil (Z * Service)).
  change (Storage.serviceIdCounter Storage.fresh) with 1.
  cbn [app]. rewrite get_seeded. reflexivity.
Qed.

Example getService_outside_the_catalog :
  Storage.getService 38 (Original.constructor (fun _ => 0)) = None
  /\ Storage.getService 0 (Original.constructor (fun _ => 0)) = None
  /\ option_map s_name
       (Storage.getService 37 (Original.constructor (fun _ => 0)))
     = Some (lit "Ration Card").
Proof. vm_compute. repeat split; reflexivity. Qed.

(** X10.  The number of stored services is the number the instance
    started with (37 in the original module, none in the revised one) plus
    one for each [createService] call and, in the revised module, eleven
    for each [getServices] call; the service id counter is one more. *)
Theorem services_grow_with_the_calls
  (toLowerCase : JsString -> JsString)
  (rev : Server.Revision) (clock : nat -> Z) (calls : list Server.Call) :
  let st :=
    Server.store
      (snd (Server.run toLowerCase rev (Server.new rev clock) calls)) in
  List.length (Storage.services st)
  = (Histories.services_at_start rev
     + list_sum (map (Histories.services_added rev) calls))%nat
  /\ Storage.serviceIdCounter st
     = Z.of_nat (List.length (Storage.services st)) + 1
  /\ Histories.services_at_start Server.original = 37%nat
  /\ Histories.services_added Server.revised (Server.GetServices clock)
     = 11%nat.
Proof.
  intros st.
  destruct (run_kept toLowerCase rev calls _ (new_kept rev clock))
    as [(_ & (_ & Hc & _) & _) _].
  fold st in Hc.
  pose proof (run_serviceIdCounter toLowerCase rev calls
                (Server.new rev clock)) as Hrun.
  fold st in Hrun.
  assert (Hstart : Storage.serviceIdCounter
                     (Server.store (Server.new rev clock))
                   = Z.of_nat (Histories.services_at_start rev) + 1).
  { destruct rev; cbn [Server.new Server.store Histories.services_at_start].
    - unfold Original.constructor, Original.initializeServices.
      rewrite createServices_counter. cbn [Storage.serviceIdCounter
                                           Storage.fresh]. lia.
    - reflexivity. }
  split; [lia|]. split; [exact Hc|].
  split; vm_compute; reflexivity.
Qed.

(** ** Roles *)

Section Roles.

Import Storage Server Histories.

Lemma set_filter_length {V} (f : V -> bool) (m : JsMap.t V) k v :
  (List.length (filter f (JsMap.values (JsMap.set k v m)))
   <= List.length (filter f (JsMap.values m)) + (if f v then 1 else 0))%nat.
Proof.
  induction m as [|[k0 v0] m IH]; simpl.
  - destruct (f v); simpl; lia.
  - destruct (Z.eqb_spec k k0) as [->|Hne]; simpl.
    + destruct (f v), (f v0); simpl; lia.
    + destruct (f v0); simpl; lia.
Qed.

Lemma set_values_Forall {V} (P : V -> Prop) (m : JsMap.t V) k v :
  Forall P (JsMap.values m) -> P v ->
  Forall P (JsMap.values (JsMap.set k v m)).
Proof.
  unfold JsMap.values. rewrite !Forall_map. intros Hm Hv.
  apply set_Forall; assumption.
Qed.

Lemma elevated_false u : elevated u = false <-> u_role u = lit "user".
Proof.
  unfold elevated. rewrite negb_false_iff. apply str_eqb_eq.
Qed.

Lemma roles_ok_same_users i st' :
  users st' = users (store i) -> roles_ok i ->
  roles_ok (mkInstance st' (testUserInit i)).
Proof.
  unfold roles_ok. cbn [store testUserInit]. intros ->. auto.
Qed.

Lemma roles_ok_createUser now iu i init' :
  roles_ok i ->
  (init' <> Finished -> testUserInit i <> Finished) ->
  match init' with
  | AdminCreated a => u_username a = lit "admin"
  | _ => True
  end ->
  roles_ok (mkInstance (snd (createUser now iu (store i))) init').
Proof.
  intros (Hall & Hlen & Hnone & _) Hinit Hadmin.
  unfold roles_ok.
  cbn [store testUserInit createUser snd users with_users].
  match goal with
  | |- context [JsMap.set ?k ?u _] =>
      pose proof (set_filter_length elevated (users (store i)) k u) as Hb;
      assert (Hu : elevated u = false) by reflexivity;
      rewrite Hu in Hb
  end.
  split; [apply set_values_Forall; [exact Hall | left; reflexivity]|].
  split; [lia|]. split; [|exact Hadmin].
  intros Hnf. specialize (Hnone (Hinit Hnf)). rewrite Hnone in Hb.
  cbn [List.length] in Hb.
  match goal with
  | |- ?l = [] => destruct l; [reflexivity | cbn [List.length] in Hb; lia]
  end.
Qed.

Variable toLowerCase : JsString -> JsString.

Lemma step_roles_ok rev i c :
  roles_ok i -> roles_ok (fst (step toLowerCase rev i c)).
Proof.
  intros Hok. destruct c; unfold step; cbv zeta.
  - apply (roles_ok_createUser now insertUser i (testUserInit i) Hok);
      [auto | apply Hok].
  - destruct rev; [exact Hok|]. cbn [fst].
    apply roles_ok_same_users; [apply getServices_users | exact Hok].
  - exact Hok.
  - exact Hok.
  - cbn [fst].
    apply roles_ok_same_users; [apply updateOrderStatus_users | exact Hok].
  - cbn [fst].
    apply roles_ok_same_users; [apply updatePaymentStatus_users | exact Hok].
  - unfold initializeTestUser.
    destruct (testUserInit i) as [| |u|u|] eqn:E.
    + destruct Hok as (Hall & Hlen & Hnone & _).
      assert (Hempty : filter elevated (JsMap.values (users (store i))) = [])
        by (apply Hnone; rewrite E; discriminate).
      destruct (getUserByUsername _ _ _); cbn [fst]; unfold roles_ok;
        cbn [store testUserInit]; repeat split; auto.
    + apply (roles_ok_createUser now (testUserData hashed) i
               (NormalCreated _) Hok); [rewrite E; discriminate | exact I].
    + apply (roles_ok_createUser now (adminUserData hashed) i
               (AdminCreated _) Hok); [rewrite E; discriminate|].
      reflexivity.
    + destruct Hok as (Hall & Hlen & Hnone & Hadmin).
      rewrite E in Hadmin.
      assert (Hempty : filter elevated (JsMap.values (users (store i))) = [])
        by (apply Hnone; rewrite E; discriminate).
      cbn [fst]. unfold roles_ok.
      cbn [store testUserInit replaceWithAdminRole users with_users].
      pose proof (set_filter_length elevated (users (store i)) (u_id u)
                    (set_role u (lit "admin"))) as Hb.
      rewrite Hempty in Hb. cbn [List.length] in Hb.
      split.
      { apply set_values_Forall; [exact Hall|].
        right. split; [reflexivity | exact Hadmin]. }
      split; [destruct (elevated _); lia|].
      split; [intros H; exfalso; apply H; reflexivity | exact I].
    + exact Hok.
Qed.

Lemma run_roles_ok rev calls : forall i,
  roles_ok i -> roles_ok (snd (run toLowerCase rev i calls)).
Proof.
  induction calls as [|c calls IH]; intros i Hk; cbn [run].
  - exact Hk.
  - pose proof (step_roles_ok rev i c Hk) as H1.
    destruct (step toLowerCase rev i c) as [i1 created]. cbn [fst] in H1.
    specialize (IH i1 H1).
    destruct (run toLowerCase rev i1 calls) as [us i2]. exact IH.
Qed.

Lemma new_roles_ok rev clock : roles_ok (new rev clock).
Proof.
  assert (Hu : users (store (new rev clock)) = []).
  { destruct rev; cbn [new store]; [|reflexivity].
    exact (proj1 (createServices_users clock Original.seedCatalog 0 fresh)). }
  unfold roles_ok. rewrite Hu. cbn.
  repeat split; auto; constructor.
Qed.

End Roles.

(** X11.  On every instance, whatever calls were made, at most one stored
    user has a role other than "user"; such a user has the role "admin"
    and the username "admin"; and there is none until
    [initializeTestUser] has finished.  [createUser] never makes one. *)
Theorem at_most_one_admin
  (toLowerCase : JsString -> JsString)
  (rev : Server.Revision) (clock : nat -> Z) (calls : list Server.Call) :
  let i := snd (Server.run toLowerCase rev (Server.new rev clock) calls) in
  let stored := JsMap.values (Storage.users (Server.store i)) in
  Forall Histories.ordinary_or_admin stored
  /\ (List.length (filter Histories.elevated stored) <= 1)%nat
  /\ (Server.testUserInit i <> Server.Finished ->
      Forall (fun u => u_role u = lit "user") stored).
Proof.
  intros i stored.
  destruct (run_roles_ok toLowerCase rev calls _ (new_roles_ok rev clock))
    as (Hall & Hlen & Hnone & _).
  fold i in Hall, Hlen, Hnone. fold stored in Hall, Hlen, Hnone.
  split; [exact Hall|]. split; [exact Hlen|].
  intros Hnf. specialize (Hnone Hnf).
  apply Forall_forall. intros u Hu. apply elevated_false.
  destruct (Histories.elevated u) eqn:E; [|reflexivity].
  assert (Hin : In u (filter Histories.elevated stored))
    by (apply filter_In; auto).
  rewrite Hnone in Hin. destruct Hin.
Qed.

Example startup_has_one_admin :
  map u_id (filter Histories.elevated
              (JsMap.values (Storage.users
                 (Server.store (snd Invariants.after_startup))))) = [3].
Proof. vm_compute; reflexivity. Qed.

(** ** initializeTestUser *)

Section TestUsers.

Import Storage Server Histories.

Variable toLowerCase : JsString -> JsString.

Lemma step_not_resume rev i j c :
  is_resume c = false -> store i = store j ->
  store (fst (step toLowerCase rev i c))
  = store (fst (step toLowerCase rev j c))
  /\ snd (step toLowerCase rev i c) = snd (step toLowerCase rev j c)
  /\ testUserInit (fst (step toLowerCase rev i c)) = testUserInit i.
Proof.
  intros Hc E. destruct c; try discriminate Hc; unfold step; cbv zeta.
  - rewrite E. split; [|split]; reflexivity.
  - destruct rev; cbn [fst snd store testUserInit].
    + split; [exact E | split; reflexivity].
    + rewrite E. split; [|split]; reflexivity.
  - cbn [fst snd store testUserInit]. rewrite E.
    split; [|split]; reflexivity.
  - cbn [fst snd store testUserInit]. rewrite E.
    split; [|split]; reflexivity.
  - cbn [fst snd store testUserInit]. rewrite E.
    split; [|split]; reflexivity.
  - cbn [fst snd store testUserInit]. rewrite E.
    split; [|split]; reflexivity.
Qed.

Lemma lookup_same_users q st st' :
  users st' = users st ->
  getUserByUsername toLowerCase q st' = getUserByUsername toLowerCase q st.
Proof. unfold getUserByUsername. intros ->. reflexivity. Qed.

Lemma step_users_or_create rev i c :
  is_resume c = false ->
  users (store (fst (step toLowerCase rev i c))) = users (store i)
  \/ exists now iu, c = CreateUser now iu.
Proof.
  intros Hc. destruct c; try discriminate Hc; unfold step; cbv zeta.
  - right. eauto.
  - left. destruct rev; [reflexivity|]. cbn [fst store].
    apply getServices_users.
  - left. reflexivity.
  - left. reflexivity.
  - left. cbn [fst store]. apply updateOrderStatus_users.
  - left. cbn [fst store]. apply updatePaymentStatus_users.
Qed.

Lemma step_keeps_settled rev i c :
  instance_kept i -> test_user_settled toLowerCase i ->
  test_user_settled toLowerCase (fst (step toLowerCase rev i c))
  /\ (is_resume c = true ->
      store (fst (step toLowerCase rev i c)) = store i
      /\ snd (step toLowerCase rev i c) = None).
Proof.
  intros Hk Hs. destruct (is_resume c) eqn:Hc.
  - destruct c; try discriminate Hc. unfold step, initializeTestUser.
    destruct Hs as [Hf|[Hp Hfound]]; rewrite ?Hf, ?Hp.
    + split; [left; exact Hf | intros _; split; reflexivity].
    + destruct (getUserByUsername toLowerCase (lit "testuser") (store i));
        [|congruence].
      split; [left; reflexivity | intros _; split; reflexivity].
  - split; [|discriminate].
    destruct (step_not_resume rev i i c Hc eq_refl) as (_ & _ & Hinit).
    destruct Hs as [Hf|[Hp Hfound]]; [left; congruence|].
    right. split; [congruence|].
    destruct (step_users_or_create rev i c Hc) as [Hu|(now & iu & ->)].
    + rewrite (lookup_same_users _ _ _ Hu). exact Hfound.
    + unfold step; cbv zeta.
      cbv beta iota delta [createUser]; cbv zeta. cbn [fst store].
      unfold getUserByUsername in *. cbn [users with_users].
      destruct Hk as [(Hu & _) _].
      match goal with
      | |- context [JsMap.set _ ?u _] =>
          destruct (all_kept_create u_id _ _ u Hu eq_refl) as [-> _]
      end.
      rewrite values_app. cbn [JsMap.values map snd]. rewrite find_last.
      destruct (find _ (JsMap.values (users (store i))));
        [discriminate | congruence].
Qed.

(** Once the test user is settled, resuming is of no consequence. *)
Lemma run_without_resumes rev calls : forall i j,
  store i = store j ->
  instance_kept i -> test_user_settled toLowerCase i ->
  instance_kept j -> test_user_settled toLowerCase j ->
  store (snd (run toLowerCase rev i calls))
  = store (snd (run toLowerCase rev j
                    (filter (fun c => negb (is_resume c)) calls)))
  /\ fst (run toLowerCase rev i calls)
     = fst (run toLowerCase rev j
                (filter (fun c => negb (is_resume c)) calls)).
Proof.
  induction calls as [|c calls IH]; intros i j E Hki Hsi Hkj Hsj;
    cbn [run filter].
  - split; [exact E | reflexivity].
  - pose proof (step_kept toLowerCase rev i c Hki) as Hki1.
    destruct (step_keeps_settled rev i c Hki Hsi) as [Hsi1 Hres].
    destruct (is_resume c) eqn:Hc; cbn [negb].
    + destruct (Hres eq_refl) as [Hst Hnone].
      destruct (step toLowerCase rev i c) as [i1 created].
      cbn [fst snd] in *. subst created.
      assert (E1 : store i1 = store j) by congruence.
      specialize (IH i1 j E1 Hki1 Hsi1 Hkj Hsj).
      destruct (run toLowerCase rev i1 calls) as [us i2]. exact IH.
    + cbn [run].
      pose proof (step_kept toLowerCase rev j c Hkj) as Hkj1.
      destruct (step_keeps_settled rev j c Hkj Hsj) as [Hsj1 _].
      destruct (step_not_resume rev i j c Hc E) as (E1 & Ecr & _).
      destruct (step toLowerCase rev i c) as [i1 created].
      destruct (step toLowerCase rev j c) as [j1 created'].
      cbn [fst snd] in *. subst created'.
      specialize (IH i1 j1 E1 Hki1 Hsi1 Hkj1 Hsj1).
      destruct (run toLowerCase rev i1 calls) as [us i2].
      destruct (run toLowerCase rev j1 _) as [us' j2].
      cbn [fst snd] in *. destruct IH as [-> ->]. split; reflexivity.
Qed.

End TestUsers.

(** X12.  [initializeTestUser] creates nothing when a user named testuser
    (in any letter case) is there when it looks: from the moment such a
    user is stored and the method has not looked yet, any sequence of
    calls leaves the same store and returns the same created users as the
    sequence without the resumptions of [initializeTestUser]. *)
Theorem initializeTestUser_does_nothing_when_the_test_user_exists
  (toLowerCase : JsString -> JsString)
  (rev : Server.Revision) (clock : nat -> Z)
  (before calls : list Server.Call) :
  let i := snd (Server.run toLowerCase rev (Server.new rev clock) before) in
  let others := filter (fun c => negb (Histories.is_resume c)) calls in
  Server.testUserInit i = Server.Pending ->
  Storage.getUserByUsername toLowerCase (lit "testuser") (Server.store i)
    <> None ->
  Server.store (snd (Server.run toLowerCase rev i calls))
  = Server.store (snd (Server.run toLowerCase rev i others))
  /\ fst (Server.run toLowerCase rev i calls)
     = fst (Server.run toLowerCase rev i others).
Proof.
  intros i others Hp Hfound.
  assert (Hk : Histories.instance_kept i)
    by apply run_kept, new_kept.
  assert (Hs : Histories.test_user_settled toLowerCase i)
    by (right; split; assumption).
  exact (run_without_resumes toLowerCase rev calls i i eq_refl Hk Hs Hk Hs).
Qed.

Lemma initializeTestUser_does_nothing_when_the_test_user_exists_witness :
  let i :=
    snd (Server.run ascii_toLowerCase Server.revised
                    (Server.new Server.revised (fun _ => 0))
                    Histories.early_signup) in
  Server.testUserInit i = Server.Pending
  /\ Storage.getUserByUsername ascii_toLowerCase (lit "testuser")
       (Server.store i) <> None
  /\ Server.store
       (snd (Server.run ascii_toLowerCase Server.revised i
                        Histories.later_calls))
     = Server.store
         (snd (Server.run ascii_toLowerCase Server.revised i
                          [Server.CreateOrder 31 (mkInsertOrder 1)]))
  /\ fst (Server.run ascii_toLowerCase Server.revised i
                     Histories.later_calls)
     = fst (Server.run ascii_toLowerCase Server.revised i
                       [Server.CreateOrder 31 (mkInsertOrder 1)]).
Proof.
  intros i.
  assert (H1 : Server.testUserInit i = Server.Pending) by reflexivity.
  assert (H2 : Storage.getUserByUsername ascii_toLowerCase (lit "testuser")
                 (Server.store i) <> None) by (vm_compute; discriminate).
  split; [exact H1|]. split; [exact H2|].
  exact (initializeTestUser_does_nothing_when_the_test_user_exists
           ascii_toLowerCase Server.revised (fun _ => 0)
           Histories.early_signup Histories.later_calls H1 H2).
Defined.

(** X13.  When [initializeTestUser] looks and no user named testuser is
    stored, and it then runs to its end with no other call in between, it
    creates two users under the next two ids, named testuser and admin,
    and leaves them last in the store, the second with the role "admin";
    services and orders are not touched and the method is finished. *)
Theorem initializeTestUser_creates_the_two_accounts
  (toLowerCase : JsString -> JsString)
  (rev : Server.Revision) (clock : nat -> Z) (before : list Server.Call)
  (t0 t1 t2 t3 : Z) (h1 h2 : JsString) :
  let i := snd (Server.run toLowerCase rev (Server.new rev clock) before) in
  let st := Server.store i in
  let id := Storage.userIdCounter st in
  let normalUser :=
    mkUser id (lit "testuser") h1 (lit "Test User")
           (lit "test@example.com") (Value (lit "9876543210"))
           (Value (lit "Test Address, Mumbai, India"))
           (lit "user") Undefined Undefined t1 in
  let adminUser :=
    mkUser (id + 1) (lit "admin") h2 (lit "Admin User")
           (lit "admin@quicktech.com") (Value (lit "9876543211"))
           (Value (lit "Admin Office, Delhi, India"))
           (lit "user") Undefined Undefined t2 in
  Server.testUserInit i = Server.Pending ->
  Storage.getUserByUsername toLowerCase (lit "testuser") st = None ->
  let (created, i') :=
    Server.run toLowerCase rev i
               (Histories.full_initialization t0 t1 t2 t3 h1 h2) in
  created = [normalUser; adminUser]
  /\ JsMap.values (Storage.users (Server.store i'))
     = JsMap.values (Storage.users st)
       ++ [normalUser; Storage.set_role adminUser (lit "admin")]
  /\ Storage.userIdCounter (Server.store i') = id + 2
  /\ Storage.services (Server.store i') = Storage.services st
  /\ Storage.orders (Server.store i') = Storage.orders st
  /\ Server.testUserInit i' = Server.Finished.
Proof.
  intros i st id normalUser adminUser Hp Hnone.
  destruct (run_kept toLowerCase rev before _ (new_kept rev clock))
    as [(Hu & _) _].
  fold i in Hu. fold st in Hu. fold id in Hu.
  unfold Histories.full_initialization.
  cbn [Server.run Server.step]. unfold Server.initializeTestUser at 1.
  rewrite Hp. fold st. rewrite Hnone.
  cbn [Server.initializeTestUser Server.testUserInit Server.store
       Storage.createUser Storage.replaceWithAdminRole
       Storage.with_users Storage.users Storage.userIdCounter
       Storage.services Storage.orders
       Server.testUserData Server.adminUserData
       iu_username iu_password iu_name iu_email iu_phone iu_address
       iu_referral_code iu_referral_rewards undefined_to_null u_id].
  fold id. fold normalUser. fold adminUser.
  split; [reflexivity|].
  destruct (all_kept_create u_id _ _ normalUser Hu eq_refl) as [E1 Hu1].
  destruct (all_kept_create u_id _ _
              (Storage.set_role adminUser (lit "admin")) Hu1 eq_refl)
    as [E2 _].
  split.
  - rewrite set_set, E2, E1, !values_app. cbn [JsMap.values map snd].
    rewrite <- app_assoc. reflexivity.
  - split; [lia|]. repeat split.
Qed.

Lemma initializeTestUser_creates_the_two_accounts_witness :
  let i := snd (Server.run ascii_toLowerCase Server.revised
                           (Server.new Server.revised (fun _ => 0)) []) in
  let r := Server.run ascii_toLowerCase Server.revised i
             (Histories.full_initialization 1 2 3 4 (lit "h1") (lit "h2")) in
  let normalUser :=
    mkUser 1 (lit "testuser") (lit "h1") (lit "Test User")
           (lit "test@example.com") (Value (lit "9876543210"))
           (Value (lit "Test Address, Mumbai, India"))
           (lit "user") Undefined Undefined 2 in
  let adminUser :=
    mkUser 2 (lit "admin") (lit "h2") (lit "Admin User")
           (lit "admin@quicktech.com") (Value (lit "9876543211"))
           (Value (lit "Admin Office, Delhi, India"))
           (lit "user") Undefined Undefined 3 in
  Server.testUserInit i = Server.Pending
  /\ Storage.getUserByUsername ascii_toLowerCase (lit "testuser")
       (Server.store i) = None
  /\ fst r = [normalUser; adminUser]
  /\ JsMap.values (Storage.users (Server.store (snd r)))
     = [] ++ [normalUser; Storage.set_role adminUser (lit "admin")]
  /\ Storage.userIdCounter (Server.store (snd r)) = 1 + 2
  /\ Storage.services (Server.store (snd r)) = []
  /\ Storage.orders (Server.store (snd r)) = []
  /\ Server.testUserInit (snd r) = Server.Finished.
Proof.
  intros i r normalUser adminUser.
  assert (H1 : Server.testUserInit i = Server.Pending) by reflexivity.
  assert (H2 : Storage.getUserByUsername ascii_toLowerCase (lit "testuser")
                 (Server.store i) = None) by reflexivity.
  split; [exact H1|]. split; [exact H2|].
  exact (initializeTestUser_creates_the_two_accounts
           ascii_toLowerCase Server.revised (fun _ => 0) []
           1 2 3 4 (lit "h1") (lit "h2") H1 H2).
Defined.

(* ================================================================== *)
(** * Further properties of the cards *)
(* ================================================================== *)

Section Sessions.

Import Dom ProfileCard Interaction.

Lemma handle_user c e : user (fst (handle c e)) = user c.
Proof. destruct e as [| | | | |[|[|]]]; reflexivity. Qed.

Lemma handle_form_not_change c e :
  is_change e = false -> formData (fst (handle c e)) = formData c.
Proof.
  destruct e as [| | | | |[|[|]]]; try discriminate; reflexivity.
Qed.

(** A change sets its field whatever the rest of the card is. *)
Lemma handle_form_change c c' e :
  is_change e = true -> formData c = formData c' ->
  formData (fst (handle c e)) = formData (fst (handle c' e)).
Proof.
  intros He E. destruct e; try discriminate He; cbn [handle fst formData];
    rewrite E; reflexivity.
Qed.

Lemma play_form events : forall c c',
  formData c = formData c' ->
  formData (fst (play c events))
  = formData (fst (play c' (filter is_change events))).
Proof.
  induction events as [|e events IH]; intros c c' E; cbn [play filter].
  - exact E.
  - destruct (is_change e) eqn:He.
    + cbn [play].
      pose proof (handle_form_change c c' e He E) as E1.
      destruct (handle c e) as [c1 fx], (handle c' e) as [c1' fx'].
      cbn [fst] in E1. specialize (IH c1 c1' E1).
      destruct (play c1 events), (play c1' _). exact IH.
    + pose proof (handle_form_not_change c e He) as E1.
      destruct (handle c e) as [c1 fx]. cbn [fst] in E1.
      assert (E2 : formData c1 = formData c') by congruence.
      specialize (IH c1 c' E2).
      destruct (play c1 events). exact IH.
Qed.

Lemma play_user events : forall c, user (fst (play c events)) = user c.
Proof.
  induction events as [|e events IH]; intros c; cbn [play]; [reflexivity|].
  pose proof (handle_user c e) as E.
  destruct (handle c e) as [c1 fx]. cbn [fst] in E.
  specialize (IH c1). destruct (play c1 events). cbn [fst] in *. congruence.
Qed.

Lemma requests_app fx fx' :
  requests (fx ++ fx') = requests fx ++ requests fx'.
Proof. unfold requests. apply flat_map_app. Qed.

Lemma clipboard_writes_app fx fx' :
  clipboard_writes (fx ++ fx') = clipboard_writes fx ++ clipboard_writes fx'.
Proof. unfold clipboard_writes. apply flat_map_app. Qed.

Lemma handle_requests c e :
  map fst (requests (snd (handle c e)))
  = (if is_save e then [lit "/api/user/profile"] else [])
  /\ Forall (fun r => method (snd r) = lit "PUT") (requests (snd (handle c e)))
  /\ clipboard_writes (snd (handle c e)) = [].
Proof.
  destruct e as [| | | | |[|[|]]]; cbn; repeat split; repeat constructor.
Qed.

End Sessions.

(** X14.  Only typing changes the form.  After any sequence of events the
    form state of the profile card is what the typing events of the
    sequence alone would have left: Edit, Cancel and Save, failed or not,
    never reset or alter it, so what was typed before a Cancel is in the
    inputs again at the next Edit.  The signed-in user is never changed
    by the card. *)
Theorem only_typing_changes_the_form
  (c : ProfileCard.Component) (events : list ProfileCard.Event) :
  ProfileCard.formData (fst (Interaction.play c events))
  = ProfileCard.formData
      (fst (Interaction.play c (filter Interaction.is_change events)))
  /\ ProfileCard.user (fst (Interaction.play c events))
     = ProfileCard.user c.
Proof.
  split; [apply play_form; reflexivity | apply play_user].
Qed.

Example cancel_keeps_what_was_typed (c : ProfileCard.Component)
        (v : JsString) :
  ProfileCard.nameField
    (ProfileCard.render
       (fst (Interaction.play c [ProfileCard.ChangeName v;
                                 ProfileCard.ClickCancel;
                                 ProfileCard.ClickEdit])))
  = ProfileCard.Input v.
Proof. reflexivity. Qed.

(** X15.  There is no retry and no other traffic: over any sequence of
    events the card sends exactly one request per click on Save, each a
    PUT to /api/user/profile, and it never writes to the clipboard. *)
Theorem one_request_per_save
  (c : ProfileCard.Component) (events : list ProfileCard.Event) :
  let effects := snd (Interaction.play c events) in
  map fst (Dom.requests effects)
  = repeat (lit "/api/user/profile")
           (List.length (filter Interaction.is_save events))
  /\ Forall (fun r => Dom.method (snd r) = lit "PUT") (Dom.requests effects)
  /\ Dom.clipboard_writes effects = [].
Proof.
  revert c. induction events as [|e events IH]; intros c;
    cbn [Interaction.play filter].
  - cbn. repeat split. constructor.
  - destruct (handle_requests c e) as (Hurl & Hput & Hclip).
    destruct (ProfileCard.handle c e) as [c1 fx]. cbn [snd] in *.
    specialize (IH c1).
    destruct (Interaction.play c1 events) as [c2 more]. cbn [snd] in *.
    destruct IH as (IHurl & IHput & IHclip).
    rewrite requests_app, clipboard_writes_app, map_app, Hurl, IHurl,
      Hclip, IHclip.
    split; [|split; [apply Forall_app; split; assumption | reflexivity]].
    destruct (Interaction.is_save e); reflexivity.
Qed.

(** X16.  A card mounted for a user whose name, e-mail and phone are
    strings of the language, and into which such strings are typed, holds
    such strings in its form at any time; so a Save at any point of the
    session sends a body that reads back as exactly the members name,
    email and phone with the form's values at that point. *)
Theorem every_save_of_a_session_sends_the_form
  (user : option User) (events : list ProfileCard.Event)
  (outcome : Dom.FetchOutcome) :
  Interaction.user_well_formed user = true ->
  forallb Interaction.event_well_formed events = true ->
  let c := fst (Interaction.play (ProfileCard.mount user) events) in
  Interaction.form_well_formed (ProfileCard.formData c) = true
  /\ exists init,
       Dom.requests (snd (ProfileCard.handleSave c outcome))
       = [(lit "/api/user/profile", init)]
       /\ Json.read_object (Dom.body init)
          = Some (Interaction.form_members (ProfileCard.formData c)).
Proof.
  intros Hu He c.
  assert (Hmount : Interaction.form_well_formed
                     (ProfileCard.formData (ProfileCard.mount user)) = true).
  { unfold Interaction.form_well_formed, ProfileCard.mount.
    cbn [ProfileCard.formData ProfileCard.name ProfileCard.email
         ProfileCard.phone].
    destruct user as [u|]; [|reflexivity].
    cbn [Interaction.user_well_formed] in Hu.
    apply andb_true_iff in Hu. destruct Hu as [Hu Hp].
    apply andb_true_iff in Hu. destruct Hu as [Hn Hm].
    cbn [ProfileCard.user_name ProfileCard.user_email
         ProfileCard.user_phone Dom.nullish_or_else].
    assert (Hor : forall s, well_formed s = true ->
                            well_formed (Dom.or_else s []) = true)
      by (intros [|x s] H; [reflexivity | exact H]).
    rewrite (Hor _ Hn), (Hor _ Hm).
    destruct (u_phone u); [reflexivity | reflexivity | apply Hor, Hp]. }
  assert (Hwf : Interaction.form_well_formed (ProfileCard.formData c) = true).
  { unfold c. clear c. revert He Hmount.
    generalize (ProfileCard.mount user). clear.
    induction events as [|e events IH]; intros c0 He H0;
      cbn [Interaction.play]; [exact H0|].
    cbn [forallb] in He. apply andb_true_iff in He. destruct He as [He Hes].
    assert (H1 : Interaction.form_well_formed
                   (ProfileCard.formData (fst (ProfileCard.handle c0 e)))
                 = true).
    { unfold Interaction.form_well_formed in *.
      apply andb_true_iff in H0. destruct H0 as [H0 Hp].
      apply andb_true_iff in H0. destruct H0 as [Hn Hm].
      destruct e as [v|v|v| | |[|[|]]];
        cbn [ProfileCard.handle ProfileCard.handleSave fst
             ProfileCard.formData ProfileCard.name ProfileCard.email
             ProfileCard.phone Interaction.event_well_formed] in *;
        rewrite ?Hn, ?Hm, ?Hp, ?He; reflexivity. }
    destruct (ProfileCard.handle c0 e) as [c1 fx]. cbn [fst] in H1.
    specialize (IH c1 Hes H1).
    destruct (Interaction.play c1 events). exact IH. }
  clearbody c. split; [exact Hwf|].
  exists (Dom.mkRequestInit (lit "PUT")
            [(lit "Content-Type", lit "application/json")]
            (ProfileCard.JSON_stringify (ProfileCard.formData c))
            (lit "include")).
  split; [destruct outcome as [|[|]]; reflexivity|].
  cbn [Dom.body]. unfold ProfileCard.JSON_stringify.
  apply read_SerializeJSONObject.
  unfold Interaction.form_well_formed in Hwf.
  apply andb_true_iff in Hwf. destruct Hwf as [Hwf Hp].
  apply andb_true_iff in Hwf. destruct Hwf as [Hn Hm].
  unfold Json.members_well_formed, Interaction.form_members.
  cbn [forallb fst snd]. rewrite Hn, Hm, Hp. reflexivity.
Qed.

Lemma every_save_of_a_session_sends_the_form_witness :
  let c := fst (Interaction.play (ProfileCard.mount None)
                                 Interaction.typing_session) in
  Interaction.user_well_formed None = true
  /\ forallb Interaction.event_well_formed Interaction.typing_session = true
  /\ Interaction.form_well_formed (ProfileCard.formData c) = true
  /\ exists init,
       Dom.requests (snd (ProfileCard.handleSave c Dom.Rejected))
       = [(lit "/api/user/profile", init)]
       /\ Json.read_object (Dom.body init)
          = Some (Interaction.form_members (ProfileCard.formData c)).
Proof.
  intros c.
  assert (H1 : Interaction.user_well_formed None = true) by reflexivity.
  assert (H2 : forallb Interaction.event_well_formed
                       Interaction.typing_session = true) by reflexivity.
  split; [exact H1|]. split; [exact H2|].
  exact (every_save_of_a_session_sends_the_form
           None Interaction.typing_session Dom.Rejected H1 H2).
Defined.

(** X17.  The card never shows what it sent.  Whenever a session leaves
    the card out of edit mode (after a Cancel or after a Save that
    succeeded), the card shows exactly what it showed when it was mounted:
    the values of the signed-in user, which no handler of the card
    changes, and not the values of the form. *)
Theorem out_of_edit_mode_the_card_shows_the_user
  (user : option User) (events : list ProfileCard.Event) :
  let c := fst (Interaction.play (ProfileCard.mount user) events) in
  ProfileCard.isEditing c = false ->
  ProfileCard.render c = ProfileCard.render (ProfileCard.mount user).
Proof.
  intros c Hout.
  pose proof (play_user events (ProfileCard.mount user)) as Hu.
  fold c in Hu. cbn [ProfileCard.mount ProfileCard.user] in Hu.
  unfold ProfileCard.render. rewrite Hout, Hu. reflexivity.
Qed.

Lemma out_of_edit_mode_the_card_shows_the_user_witness :
  let c := fst (Interaction.play (ProfileCard.mount None)
                                 Interaction.saved_session) in
  ProfileCard.isEditing c = false
  /\ ProfileCard.name (ProfileCard.formData c) = lit "Asha"
  /\ ProfileCard.render c = ProfileCard.render (ProfileCard.mount None).
Proof.
  intros c.
  assert (H : ProfileCard.isEditing c = false) by reflexivity.
  split; [exact H|]. split; [reflexivity|].
  exact (out_of_edit_mode_the_card_shows_the_user
           None Interaction.saved_session H).
Defined.

(** ** The request body *)

Section Printable.

Import Json Interaction.

Local Open Scope N_scope.

Lemma hex_digit_printable d : 32 <= hex_digit d.
Proof. unfold hex_digit. destruct (d <? 10); lia. Qed.

Lemma UnicodeEscape_printable c : printable (UnicodeEscape c).
Proof.
  unfold UnicodeEscape, printable, reverse_solidus.
  repeat (constructor; [try apply hex_digit_printable; lia|]).
  constructor.
Qed.

Lemma quote_unit_printable c : printable (quote_unit c).
Proof.
  unfold quote_unit, printable, reverse_solidus, quotation_mark.
  repeat match goal with
         | |- context [if ?b then _ else _] => destruct b eqn:?
         end;
    try solve [repeat (constructor; [lia|]); constructor].
  - apply UnicodeEscape_printable.
  - constructor; [|constructor].
    match goal with H : (c <? 32) = false |- _ => apply N.ltb_ge in H end.
    assumption.
Qed.

Lemma printable_app s t : printable s -> printable t -> printable (s ++ t).
Proof. intros Hs Ht. apply Forall_app. split; assumption. Qed.

Lemma quote_units_printable s : printable (quote_units s).
Proof.
  induction s as [|c|c d s IH1 IH2] using pairwise_ind.
  - constructor.
  - cbn [quote_units].
    destruct (is_leading_surrogate c);
      [apply UnicodeEscape_printable|].
    destruct (is_trailing_surrogate c); rewrite app_nil_r;
      [apply UnicodeEscape_printable | apply quote_unit_printable].
  - rewrite quote_units_step.
    destruct (is_leading_surrogate c) eqn:Elead.
    + destruct (is_trailing_surrogate d) eqn:Etrail.
      * destruct (surrogate_is_plain c (or_introl Elead)) as (? & _).
        destruct (surrogate_is_plain d (or_intror Etrail)) as (? & _).
        constructor; [assumption|]. constructor; assumption.
      * apply printable_app; [apply UnicodeEscape_printable | exact IH2].
    + destruct (is_trailing_surrogate c);
        (apply printable_app;
         [first [apply UnicodeEscape_printable | apply quote_unit_printable]
         | exact IH2]).
Qed.

Lemma QuoteJSONString_printable s : printable (QuoteJSONString s).
Proof.
  unfold QuoteJSONString, quotation_mark.
  constructor; [lia|]. apply printable_app; [apply quote_units_printable|].
  constructor; [lia | constructor].
Qed.

Lemma serialize_more_printable members : printable (serialize_more members).
Proof.
  induction members as [|[k v] more IH]; cbn [serialize_more].
  - constructor.
  - constructor; [lia|].
    apply printable_app; [apply QuoteJSONString_printable|].
    constructor; [lia|].
    apply printable_app; [apply QuoteJSONString_printable | exact IH].
Qed.

Lemma SerializeJSONObject_printable members :
  printable (SerializeJSONObject members).
Proof.
  destruct members as [|[k v] more]; cbn [SerializeJSONObject].
  - constructor; [lia|]. constructor; [lia | constructor].
  - constructor; [lia|].
    apply printable_app; [apply QuoteJSONString_printable|].
    constructor; [lia|].
    apply printable_app; [apply QuoteJSONString_printable|].
    apply printable_app; [apply serialize_more_printable|].
    constructor; [lia | constructor].
Qed.

End Printable.

(** X18.  Whatever is typed into the form, line breaks and other control
    characters included, the body [handleSave] sends has no unit below the
    space: control characters leave the card only in escaped form. *)
Theorem request_body_has_no_control_characters
  (c : ProfileCard.Component) (outcome : Dom.FetchOutcome) :
  Forall (fun r => Interaction.printable (Dom.body (snd r)))
         (Dom.requests (snd (ProfileCard.handleSave c outcome))).
Proof.
  assert (H : Interaction.printable
                (ProfileCard.JSON_stringify (ProfileCard.formData c)))
    by apply SerializeJSONObject_printable.
  destruct outcome as [|[|]]; cbn; (constructor; [exact H | constructor]).
Qed.

Example line_break_is_escaped :
  ProfileCard.JSON_stringify (ProfileCard.mkFormData [10]%N [] [])
  = ([123; 34; 110; 97; 109; 101; 34; 58; 34; 92; 110; 34; 44;
      34; 101; 109; 97; 105; 108; 34; 58; 34; 34; 44;
      34; 112; 104; 111; 110; 101; 34; 58; 34; 34; 125])%N.
Proof. reflexivity. Qed.

(** X19.  Two form states that differ in any field are sent as different
    bodies (for forms whose fields are strings of the language). *)
Theorem different_forms_give_different_bodies
  (f1 f2 : ProfileCard.FormData) :
  Interaction.form_well_formed f1 = true ->
  Interaction.form_well_formed f2 = true ->
  f1 <> f2 ->
  ProfileCard.JSON_stringify f1 <> ProfileCard.JSON_stringify f2.
Proof.
  intros H1 H2 Hne E. apply Hne.
  assert (Hread : forall f, Interaction.form_well_formed f = true ->
            Json.read_object (ProfileCard.JSON_stringify f)
            = Some (Interaction.form_members f)).
  { intros f Hf. unfold ProfileCard.JSON_stringify.
    apply read_SerializeJSONObject.
    unfold Interaction.form_well_formed in Hf.
    apply andb_true_iff in Hf. destruct Hf as [Hf Hp].
    apply andb_true_iff in Hf. destruct Hf as [Hn Hm].
    unfold Json.members_well_formed, Interaction.form_members.
    cbn [forallb fst snd]. rewrite Hn, Hm, Hp. reflexivity. }
  pose proof (Hread f1 H1) as R1. pose proof (Hread f2 H2) as R2.
  rewrite E, R2 in R1. injection R1 as Hn Hm Hp.
  destruct f1, f2. cbn in *. congruence.
Qed.

Lemma different_forms_give_different_bodies_witness :
  Interaction.form_well_formed Interaction.form_one = true
  /\ Interaction.form_well_formed Interaction.form_two = true
  /\ Interaction.form_one <> Interaction.form_two
  /\ ProfileCard.JSON_stringify Interaction.form_one
     <> ProfileCard.JSON_stringify Interaction.form_two.
Proof.
  assert (H1 : Interaction.form_well_formed Interaction.form_one = true)
    by reflexivity.
  assert (H2 : Interaction.form_well_formed Interaction.form_two = true)
    by reflexivity.
  assert (H3 : Interaction.form_one <> Interaction.form_two)
    by (vm_compute; discriminate).
  split; [exact H1|]. split; [exact H2|]. split; [exact H3|].
  exact (different_forms_give_different_bodies
           Interaction.form_one Interaction.form_two H1 H2 H3).
Defined.

(** ** The referral link *)

(** X20.  For one origin, two users get the same referral link exactly
    when they hold the same referral code: the link tells the codes
    apart. *)
Theorem referral_links_differ_with_the_codes
  (c1 c2 : ReferralCard.Component) (u1 u2 : User) (code1 code2 : JsString) :
  ReferralCard.origin c1 = ReferralCard.origin c2 ->
  ReferralCard.user c1 = Some u1 -> u_referral_code u1 = Value code1 ->
  ReferralCard.user c2 = Some u2 -> u_referral_code u2 = Value code2 ->
  (ReferralCard.referralLink c1 = ReferralCard.referralLink c2
   <-> code1 = code2).
Proof.
  intros Ho Hu1 Hc1 Hu2 Hc2.
  unfold ReferralCard.referralLink, ReferralCard.user_referral_code.
  rewrite Ho, Hu1, Hu2, Hc1, Hc2. cbn [ReferralCard.to_string].
  split.
  - intros E. apply app_inv_head in E. apply app_inv_head in E. exact E.
  - intros ->. reflexivity.
Qed.

Lemma referral_links_differ_with_the_codes_witness :
  let u1 := mkUser 1 (lit "asha") (lit "x") (lit "Asha")
                   (lit "asha@example.in") Null Null (lit "user")
                   (Value (lit "QT42")) Undefined 0 in
  let u2 := mkUser 2 (lit "ravi") (lit "y") (lit "Ravi")
                   (lit "ravi@example.in") Null Null (lit "user")
                   (Value (lit "QT43")) Undefined 0 in
  let c1 := ReferralCard.mkComponent (lit "https://quicktech.example")
                                     (Some u1) false in
  let c2 := ReferralCard.mkComponent (lit "https://quicktech.example")
                                     (Some u2) true in
  ReferralCard.origin c1 = ReferralCard.origin c2
  /\ ReferralCard.user c1 = Some u1
  /\ u_referral_code u1 = Value (lit "QT42")
  /\ ReferralCard.user c2 = Some u2
  /\ u_referral_code u2 = Value (lit "QT43")
  /\ (ReferralCard.referralLink c1 = ReferralCard.referralLink c2
      <-> lit "QT42" = lit "QT43").
Proof.
  intros u1 u2 c1 c2.
  repeat (split; [reflexivity|]).
  exact (referral_links_differ_with_the_codes
           c1 c2 u1 u2 (lit "QT42") (lit "QT43")
           eq_refl eq_refl eq_refl eq_refl eq_refl).
Defined.

(** A user whose code is the word undefined gets the link of a card with
    no signed-in user. *)
Example referralLink_of_the_code_undefined (origin : JsString) (u : User) :
  u_referral_code u = Value (lit "undefined") ->
  ReferralCard.referralLink (ReferralCard.mkComponent origin (Some u) false)
  = ReferralCard.referralLink (ReferralCard.mkComponent origin None false).
Proof.
  intros H. unfold ReferralCard.referralLink,
              ReferralCard.user_referral_code.
  cbn [ReferralCard.user]. rewrite H. reflexivity.
Qed.

(** ** Reading by id *)

(** X21.  On every instance [getUser], [getService] and [getOrder] answer
    with a record exactly for the ids issued so far, that is from 1 up to
    the counter of the map, and with [undefined] for any other id; the
    record they answer with carries the id it was asked for. *)
Theorem get_by_id_answers_for_the_issued_ids
  (toLowerCase : JsString -> JsString)
  (rev : Server.Revision) (clock : nat -> Z) (calls : list Server.Call)
  (id : Z) :
  let st :=
    Server.store
      (snd (Server.run toLowerCase rev (Server.new rev clock) calls)) in
  ((Storage.getUser id st <> None <-> 1 <= id < Storage.userIdCounter st)
   /\ (forall u, Storage.getUser id st = Some u -> u_id u = id))
  /\ ((Storage.getService id st <> None
       <-> 1 <= id < Storage.serviceIdCounter st)
      /\ (forall s, Storage.getService id st = Some s -> s_id s = id))
  /\ ((Storage.getOrder id st <> None
       <-> 1 <= id < Storage.orderIdCounter st)
      /\ (forall o, Storage.getOrder id st = Some o -> o_id o = id)).
Proof.
  intros st.
  destruct (run_kept toLowerCase rev calls _ (new_kept rev clock))
    as [(Hu & Hs & Ho) _].
  fold st in Hu, Hs, Ho.
  unfold Storage.getUser, Storage.getService, Storage.getOrder.
  split; [|split]; (split; [eapply all_kept_present; eassumption|]);
    intros r Hr; eapply all_kept_get_id; eassumption.
Qed.

(** ** The phone on the profile card *)

(** X22.  A user without a phone, or with the empty string as phone, is
    shown "Not provided" on the card and gets an empty input on Edit; any
    other phone is shown, and offered for editing, as it is. *)
Theorem missing_phone_is_shown_as_not_provided (u : User) :
  let mounted := ProfileCard.mount (Some u) in
  let shown := ProfileCard.phoneField (ProfileCard.render mounted) in
  let offered :=
    ProfileCard.phoneField
      (ProfileCard.render
         (fst (ProfileCard.handle mounted ProfileCard.ClickEdit))) in
  match u_phone u with
  | Value (c :: p) =>
      shown = ProfileCard.Paragraph (Value (c :: p))
      /\ offered = ProfileCard.Input (c :: p)
  | _ =>
      shown = ProfileCard.Paragraph (Value (lit "Not provided"))
      /\ offered = ProfileCard.Input []
  end.
Proof.
  cbv zeta. unfold ProfileCard.mount, ProfileCard.render.
  cbn [ProfileCard.handle fst ProfileCard.isEditing ProfileCard.user
       ProfileCard.formData ProfileCard.phone ProfileCard.phoneField
       ProfileCard.user_phone].
  destruct (u_phone u) as [| |[|c p]]; split; reflexivity.
Qed.

(* ================================================================== *)
(** * The stores against the history of calls *)
(* ================================================================== *)

Section AgainstHistory.

Import Storage Server Invariants Histories.

Lemma all_kept_entries_ok {V} (id_of : V -> Z) (m : JsMap.t V) counter :
  all_kept id_of m counter -> entries_ok id_of m counter.
Proof.
  intros (Hkeys & Hc & Hall). split.
  - apply Forall_forall. intros kv Hin. split.
    + rewrite Forall_forall in Hall. apply (Hall kv Hin).
    + assert (Hk : In (fst kv) (JsMap.keys m)) by (apply in_map; exact Hin).
      rewrite Hkeys in Hk. apply In_ids_upto in Hk. lia.
  - rewrite Hkeys. apply StronglySorted_lt_NoDup, ids_upto_sorted.
Qed.

Lemma map_set_present {V B} (g : V -> B) (m : JsMap.t V) k v v' :
  JsMap.get k m = Some v -> g v' = g v ->
  map g (JsMap.values (JsMap.set k v' m)) = map g (JsMap.values m).
Proof.
  intros Hget Hg. induction m as [|[k0 v0] m IH]; simpl in *.
  - discriminate.
  - destruct (Z.eqb_spec k k0) as [->|Hne]; simpl.
    + injection Hget as ->. rewrite Hg. reflexivity.
    + rewrite (IH Hget). reflexivity.
Qed.

(** *** Services *)

Lemma createService_values now x st :
  store_kept st ->
  JsMap.values (services (snd (createService now x st)))
  = JsMap.values (services st)
    ++ [service_record (serviceIdCounter st) now x].
Proof.
  intros (_ & Hs & _).
  rewrite createService_appends by (apply all_kept_entries_ok, Hs).
  rewrite values_app. reflexivity.
Qed.

Lemma getServices_values clock st :
  store_kept st ->
  JsMap.values (services (snd (Revised.getServices clock st)))
  = JsMap.values (services st)
    ++ seeded clock 0 (serviceIdCounter st) Revised.seedCatalog.
Proof.
  intros (_ & Hs & _).
  pose proof (getServices_appends clock st (all_kept_entries_ok _ _ _ Hs))
    as H.
  destruct (Revised.getServices clock st) as [created st'].
  destruct H as (Hc & Hsv & _). cbn [snd].
  rewrite Hsv, values_app, values_entries, Hc. reflexivity.
Qed.

Variable toLowerCase : JsString -> JsString.

Lemma step_services rev i c :
  instance_kept i ->
  JsMap.values (services (store (fst (step toLowerCase rev i c))))
  = JsMap.values (services (store i))
    ++ services_of_call rev (serviceIdCounter (store i)) c.
Proof.
  intros [Hst _]. destruct c; unfold step; cbv zeta;
    cbn [services_of_call].
  - cbn [createUser fst store services with_users].
    rewrite app_nil_r. reflexivity.
  - destruct rev; cbn [fst store].
    + rewrite app_nil_r. reflexivity.
    + apply getServices_values, Hst.
  - cbn [fst store]. apply createService_values, Hst.
  - cbn [createOrder fst snd store services with_orders].
    rewrite app_nil_r. reflexivity.
  - cbn [fst store].
    rewrite (proj1 (updateOrderStatus_services _ _ _ _)), app_nil_r.
    reflexivity.
  - cbn [fst store].
    rewrite (proj1 (updatePaymentStatus_services _ _ _ _)), app_nil_r.
    reflexivity.
  - rewrite app_nil_r. unfold initializeTestUser.
    destruct (testUserInit i); try reflexivity.
    destruct (getUserByUsername _ _ _); reflexivity.
Qed.

Lemma run_services rev calls : forall i,
  instance_kept i ->
  JsMap.values (services (store (snd (run toLowerCase rev i calls))))
  = JsMap.values (services (store i))
    ++ services_made rev (serviceIdCounter (store i)) calls.
Proof.
  induction calls as [|c calls IH]; intros i Hk; cbn [run services_made].
  - cbn [snd]. rewrite app_nil_r. reflexivity.
  - pose proof (step_services rev i c Hk) as H1.
    pose proof (step_serviceIdCounter toLowerCase rev i c) as Hc.
    pose proof (step_kept toLowerCase rev i c Hk) as Hk1.
    destruct (step toLowerCase rev i c) as [i1 created].
    cbn [fst] in H1, Hc, Hk1.
    specialize (IH i1 Hk1).
    destruct (run toLowerCase rev i1 calls) as [us i2]. cbn [snd] in *.
    rewrite IH, H1, Hc, <- app_assoc. reflexivity.
Qed.

(** *** Orders *)

Lemma step_orders rev i c :
  instance_kept i ->
  map order_identity (getOrders (store (fst (step toLowerCase rev i c))))
  = map order_identity (getOrders (store i))
    ++ orders_placed (orderIdCounter (store i)) [c]
  /\ orderIdCounter (store (fst (step toLowerCase rev i c)))
     = orderIdCounter (store i)
       + Z.of_nat (List.length (orders_placed 0 [c])).
Proof.
  intros [(_ & _ & Ho) _]. unfold getOrders.
  destruct c; unfold step; cbv zeta; cbn [orders_placed List.length].
  - cbn [createUser fst store orders orderIdCounter with_users].
    rewrite app_nil_r. split; [reflexivity | cbn; lia].
  - destruct rev; cbn [fst store].
    + rewrite app_nil_r. split; [reflexivity | cbn; lia].
    + destruct (getServices_orders clock (store i)) as [-> ->].
      rewrite app_nil_r. split; [reflexivity | cbn; lia].
  - cbn [createService fst snd store orders orderIdCounter with_services].
    rewrite app_nil_r. split; [reflexivity | cbn; lia].
  - cbn [createOrder fst snd store orders orderIdCounter with_orders].
    match goal with
    | |- context [JsMap.set _ ?o _] =>
        destruct (all_kept_create o_id _ _ o Ho eq_refl) as [-> _]
    end.
    rewrite values_app, map_app. split; [reflexivity | cbn; lia].
  - cbn [fst store]. rewrite app_nil_r. unfold updateOrderStatus.
    destruct (JsMap.get id (orders (store i))) as [o|] eqn:E;
      cbn [snd orders orderIdCounter with_orders];
      (split; [|cbn; lia]); [|reflexivity].
    apply (map_set_present _ _ _ o); [exact E | reflexivity].
  - cbn [fst store]. rewrite app_nil_r. unfold updatePaymentStatus.
    destruct (JsMap.get id (orders (store i))) as [o|] eqn:E;
      cbn [snd orders orderIdCounter with_orders];
      (split; [|cbn; lia]); [|reflexivity].
    apply (map_set_present _ _ _ o); [exact E | reflexivity].
  - rewrite app_nil_r. unfold initializeTestUser.
    destruct (testUserInit i); try (split; [reflexivity | cbn; lia]).
    destruct (getUserByUsername _ _ _); split; try reflexivity; cbn; lia.
Qed.

Lemma orders_placed_cons id c calls :
  orders_placed id (c :: calls)
  = orders_placed id [c]
    ++ orders_placed (id + Z.of_nat (List.length (orders_placed 0 [c])))
                     calls.
Proof.
  destruct c; cbn [orders_placed List.length app Z.of_nat];
    rewrite ?Z.add_0_r; reflexivity.
Qed.

Lemma run_orders rev calls : forall i,
  instance_kept i ->
  map order_identity (getOrders (store (snd (run toLowerCase rev i calls))))
  = map order_identity (getOrders (store i))
    ++ orders_placed (orderIdCounter (store i)) calls.
Proof.
  induction calls as [|c calls IH]; intros i Hk; cbn [run].
  - cbn [snd orders_placed]. rewrite app_nil_r. reflexivity.
  - destruct (step_orders rev i c Hk) as [H1 Hc].
    pose proof (step_kept toLowerCase rev i c Hk) as Hk1.
    destruct (step toLowerCase rev i c) as [i1 created].
    cbn [fst] in H1, Hc, Hk1.
    specialize (IH i1 Hk1).
    destruct (run toLowerCase rev i1 calls) as [us i2]. cbn [snd] in *.
    rewrite IH, H1, Hc, <- app_assoc, <- orders_placed_cons. reflexivity.
Qed.

(** *** Users *)

Lemma held_same_users i st' :
  instance_held i -> store_kept st' ->
  users st' = users (store i) ->
  userIdCounter st' = userIdCounter (store i) ->
  instance_held (mkInstance st' (testUserInit i)).
Proof.
  intros [[_ Hr] Hh] Hk Hu Hc. split; [split; [exact Hk|]|];
    cbn [store testUserInit]; rewrite ?Hu, ?Hc; assumption.
Qed.

Lemma held_createUser now iu i init' :
  instance_held i ->
  (match init' with
   | NormalCreated u | AdminCreated u =>
       u = fst (createUser now iu (store i))
       \/ (1 <= u_id u < userIdCounter (store i)
           /\ JsMap.get (u_id u) (users (store i)) = Some u)
   | _ => True
   end) ->
  instance_held (mkInstance (snd (createUser now iu (store i))) init')
  /\ map user_identity
         (JsMap.values (users (snd (createUser now iu (store i)))))
     = map user_identity (JsMap.values (users (store i)))
       ++ [user_identity (fst (createUser now iu (store i)))].
Proof.
  intros [[Hst _] _] Hinit.
  pose proof (createUser_kept now iu (store i) Hst) as Hk.
  destruct Hst as (Hu & _).
  pose proof (proj1 (proj2 Hu)) as Hc.
  cbv beta iota delta [createUser] in *; cbv zeta in *.
  cbn [fst snd users userIdCounter with_users] in *.
  split.
  - split; [split; [exact Hk|]|]; cbn [store testUserInit users
                                         userIdCounter with_users].
    + destruct init' as [| |u|u|]; try exact I;
        (destruct Hinit as [->|[Hr _]]; [cbn [u_id]; lia | lia]).
    + destruct init' as [| |u|u|]; try exact I;
        (destruct Hinit as [->|[Hr Hg]];
         [cbn [u_id]; apply get_set_same
         | rewrite get_set_other by lia; exact Hg]).
  - match goal with
    | |- context [JsMap.set _ ?u _] =>
        destruct (all_kept_create u_id _ _ u Hu eq_refl) as [-> _]
    end.
    rewrite values_app, map_app. reflexivity.
Qed.

Lemma step_users rev i c :
  instance_held i ->
  instance_held (fst (step toLowerCase rev i c))
  /\ map user_identity
         (JsMap.values (users (store (fst (step toLowerCase rev i c)))))
     = map user_identity (JsMap.values (users (store i)))
       ++ map user_identity (created_by (snd (step toLowerCase rev i c))).
Proof.
  intros Hh.
  assert (Hsame : forall st',
             store_kept st' -> users st' = users (store i) ->
             userIdCounter st' = userIdCounter (store i) ->
             instance_held (mkInstance st' (testUserInit i))
             /\ map user_identity (JsMap.values (users st'))
                = map user_identity (JsMap.values (users (store i)))
                  ++ map user_identity (created_by None)).
  { intros st' Hk Hu Hc. split; [apply held_same_users; assumption|].
    rewrite Hu. cbn [created_by map]. rewrite app_nil_r. reflexivity. }
  pose proof Hh as [[Hst Hr] Hg].
  assert (Hinit : match testUserInit i with
                  | NormalCreated u | AdminCreated u =>
                      1 <= u_id u < userIdCounter (store i)
                      /\ JsMap.get (u_id u) (users (store i)) = Some u
                  | _ => True
                  end).
  { destruct (testUserInit i); auto. }
  destruct c; unfold step; cbv zeta.
  - pose proof (held_createUser now insertUser i (testUserInit i) Hh) as H.
    destruct (createUser now insertUser (store i)) as [u st'].
    cbn [fst snd created_by map] in *. apply H.
    destruct (testUserInit i); auto.
  - destruct rev; cbn [fst snd].
    + destruct i as [st0 init0]. exact (Hsame st0 Hst eq_refl eq_refl).
    + exact (Hsame _ (getServices_kept clock (store i) Hst)
                   (proj1 (getServices_users clock (store i)))
                   (proj2 (getServices_users clock (store i)))).
  - cbn [fst snd].
    exact (Hsame _ (createService_kept now insertService (store i) Hst)
                 eq_refl eq_refl).
  - cbn [fst snd].
    exact (Hsame _ (createOrder_kept now insertOrder (store i) Hst)
                 eq_refl eq_refl).
  - cbn [fst snd].
    exact (Hsame _ (updateOrderStatus_kept now id status (store i) Hst)
                 (proj1 (updateOrderStatus_users now id status (store i)))
                 (proj2 (updateOrderStatus_users now id status (store i)))).
  - cbn [fst snd].
    exact (Hsame _ (updatePaymentStatus_kept now id status (store i) Hst)
                 (proj1 (updatePaymentStatus_users now id status (store i)))
                 (proj2 (updatePaymentStatus_users now id status (store i)))).
  - unfold initializeTestUser.
    destruct (testUserInit i) as [| |u|u|] eqn:E.
    + assert (Hpending : forall init',
                 match init' with
                 | NormalCreated _ | AdminCreated _ => False
                 | _ => True
                 end ->
                 instance_held (mkInstance (store i) init')).
      { intros init' Hi. split; [split; [exact Hst|]|];
          cbn [store testUserInit]; destruct init'; auto; contradiction. }
      destruct (getUserByUsername _ _ _); cbn [fst snd created_by map];
        rewrite app_nil_r; (split; [apply Hpending; exact I | reflexivity]).
    + pose proof (held_createUser now (testUserData hashed) i
                    (NormalCreated
                       (fst (createUser now (testUserData hashed) (store i))))
                    Hh (or_introl eq_refl)) as H.
      destruct (createUser now (testUserData hashed) (store i)) as [u st'].
      cbn [fst snd created_by map] in *. exact H.
    + pose proof (held_createUser now (adminUserData hashed) i
                    (AdminCreated
                       (fst (createUser now (adminUserData hashed) (store i))))
                    Hh (or_introl eq_refl)) as H.
      destruct (createUser now (adminUserData hashed) (store i)) as [a st'].
      cbn [fst snd created_by map] in *. exact H.
    + cbn [fst snd created_by map]. rewrite app_nil_r.
      destruct Hinit as [Hrange Hget].
      split.
      * split; [split; [|exact I]|exact I].
        apply replaceWithAdminRole_kept; assumption.
      * cbn [store replaceWithAdminRole users with_users].
        apply (map_set_present _ _ _ u); [exact Hget | reflexivity].
    + cbn [fst snd created_by map]. rewrite app_nil_r.
      split; [|reflexivity].
      split; [split; [exact Hst|]|]; rewrite E; exact I.
Qed.

Lemma run_users rev calls : forall i,
  instance_held i ->
  map user_identity
      (JsMap.values (users (store (snd (run toLowerCase rev i calls)))))
  = map user_identity (JsMap.values (users (store i)))
    ++ map user_identity (fst (run toLowerCase rev i calls)).
Proof.
  induction calls as [|c calls IH]; intros i Hh; cbn [run].
  - cbn [fst snd map]. rewrite app_nil_r. reflexivity.
  - destruct (step_users rev i c Hh) as [Hh1 H1].
    destruct (step toLowerCase rev i c) as [i1 created].
    cbn [fst snd] in Hh1, H1.
    specialize (IH i1 Hh1).
    destruct (run toLowerCase rev i1 calls) as [us i2]. cbn [fst snd] in *.
    rewrite IH, H1, <- app_assoc. f_equal.
    destruct created; reflexivity.
Qed.

Lemma new_held rev clock : instance_held (new rev clock).
Proof. split; [apply new_kept | exact I]. Qed.

Lemma new_services rev clock :
  JsMap.values (services (store (new rev clock))) = services_seeded rev clock
  /\ serviceIdCounter (store (new rev clock))
     = Z.of_nat (services_at_start rev) + 1.
Proof.
  destruct rev; cbn [new store services_seeded services_at_start].
  - unfold Original.constructor, Original.initializeServices.
    pose proof (createServices_appends clock Original.seedCatalog 0
                  fresh fresh_services_ok) as H.
    destruct (createServices clock 0 Original.seedCatalog fresh)
      as [created st'].
    destruct H as (Hc & Hs & Hn & _). cbn [snd].
    rewrite Hs, Hc, Hn.
    change (services fresh) with (@nil (Z * Service)).
    change (serviceIdCounter fresh) with 1.
    cbn [app]. split; [apply values_entries | lia].
  - split; reflexivity.
Qed.

Lemma new_users_orders rev clock :
  users (store (new rev clock)) = []
  /\ orders (store (new rev clock)) = []
  /\ orderIdCounter (store (new rev clock)) = 1.
Proof.
  destruct rev; cbn [new store]; [|repeat split].
  destruct (createServices_users clock Original.seedCatalog 0 fresh)
    as [Hu _].
  destruct (createServices_orders clock Original.seedCatalog 0 fresh)
    as [Ho Hc].
  unfold Original.constructor, Original.initializeServices.
  rewrite Hu, Ho, Hc. repeat split.
Qed.

End AgainstHistory.

(** X1.  On every instance, whatever calls were made, each of the three
    maps lists exactly the records created so far, in creation order, and
    nothing is ever removed or moved.  The stored users are the users the
    [createUser] calls returned, in call order, the role apart.  The
    stored services are the records the constructor seeded followed by the
    records made by the calls, in call order: one per [createService] and,
    in the revised module, the eleven of the catalog per [getServices].
    The stored orders are those of the [createOrder] calls, in call order,
    each with its id, user id and creation time.  So the listed ids are
    1, 2, ..., n and the counter of each map is n + 1. *)
Theorem stores_keep_every_record_in_creation_order
  (toLowerCase : JsString -> JsString)
  (rev : Server.Revision) (clock : nat -> Z) (calls : list Server.Call) :
  let r := Server.run toLowerCase rev (Server.new rev clock) calls in
  let st := Server.store (snd r) in
  (map Histories.user_identity (JsMap.values (Storage.users st))
   = map Histories.user_identity (fst r)
   /\ JsMap.values (Storage.services st)
      = Histories.services_seeded rev clock
        ++ Histories.services_made
             rev (Z.of_nat (Histories.services_at_start rev) + 1) calls
   /\ map Histories.order_identity (Storage.getOrders st)
      = Histories.orders_placed 1 calls)
  /\ (map u_id (JsMap.values (Storage.users st))
        = Histories.ids_upto (List.length (Storage.users st))
      /\ Storage.userIdCounter st
         = Z.of_nat (List.length (Storage.users st)) + 1)
  /\ (map s_id (JsMap.values (Storage.services st))
        = Histories.ids_upto (List.length (Storage.services st))
      /\ Storage.serviceIdCounter st
         = Z.of_nat (List.length (Storage.services st)) + 1)
  /\ (map o_id (Storage.getOrders st)
        = Histories.ids_upto (List.length (Storage.orders st))
      /\ Storage.orderIdCounter st
         = Z.of_nat (List.length (Storage.orders st)) + 1).
Proof.
  intros r st.
  pose proof (new_kept rev clock) as Hk.
  pose proof (run_users toLowerCase rev calls _ (new_held rev clock)) as Hu.
  pose proof (run_services toLowerCase rev calls _ Hk) as Hs.
  pose proof (run_orders toLowerCase rev calls _ Hk) as Ho.
  destruct (new_services rev clock) as [Hs0 Hc0].
  destruct (new_users_orders rev clock) as (Hu0 & Ho0 & Hoc0).
  unfold Storage.getOrders in Ho.
  rewrite Hu0 in Hu. rewrite Hs0, Hc0 in Hs. rewrite Ho0, Hoc0 in Ho.
  fold r in Hu, Hs, Ho. fold st in Hu, Hs, Ho.
  destruct (run_kept toLowerCase rev calls _ Hk) as [(Ku & Ks & Ko) _].
  fold r in Ku, Ks, Ko. fold st in Ku, Ks, Ko.
  split; [split; [exact Hu | split; [exact Hs | exact Ho]]|].
  repeat split;
    try (eapply all_kept_ids; eassumption);
    [apply Ku | apply Ks | apply Ko].
Qed.

Example startup_users_are_the_created_users :
  map Histories.user_identity
      (JsMap.values (Storage.users
                       (Server.store (snd Invariants.after_startup))))
  = map Histories.user_identity (fst Invariants.after_startup)
  /\ JsMap.values (Storage.users
                     (Server.store (snd Invariants.after_startup)))
     <> fst Invariants.after_startup.
Proof. split; [reflexivity | vm_compute; discriminate]. Qed.
